(** * Repository action controllers and the task-schedule table

    A shallow embedding of

    - [src/pulp/server/webservices/controllers/repositories.py]: the
      [RepositoryActions] and [RepositoryActionStatus] controllers (action
      dispatch, sync, clone, task history, task status and cancellation);
    - [pulpcore/app/migrations/0087_taskschedule.py]: the [TaskSchedule]
      table.

    Python dictionaries are [gmap string Value], Python objects that are
    shared and mutated (the tasks of the task queue) live in a store and are
    referred to by their position in it, and a handler is a computation in a
    state-and-exception monad over the server state.  The monad also keeps a
    log of the calls a handler makes to the repository API, so that
    statements such as "[api.clone] is never invoked" can be read off a run. *)

From stdpp Require Import gmap strings list fin_maps sorting pretty.

#[local] Set Warnings "-register-all".
#[local] Open Scope string_scope.

(** ** Python values *)

(** JSON-like values: what a request body, a Mongo document or a task's
    arguments hold. *)
Inductive Value : Type :=
  | VNone
  | VBool (b : bool)
  | VInt (z : Z)
  | VStr (s : string)
  | VList (l : list Value)
  | VDict (d : gmap string Value).

(** [d.get(k, dflt)] *)
Definition dict_get (d : gmap string Value) (k : string) (dflt : Value) : Value :=
  default dflt (d !! k).

(** [s == v] for a [str] [s]: only an equal string compares equal. *)
Definition str_eq (s : string) (v : Value) : bool :=
  match v with
  | VStr s' => bool_decide (s = s')
  | _ => false
  end.

(** [s in l] for a [str] [s] and a sequence [l]. *)
Definition str_in (s : string) (l : list Value) : bool := existsb (str_eq s) l.

(** Truth value of a list ([[]] is false) and of a dict ([{}] is false). *)
Definition list_truthy {A} (l : list A) : bool :=
  match l with [] => false | _ => true end.

Definition dict_truthy (d : gmap string Value) : bool :=
  list_truthy (map_to_list d).

(** Exceptions the handlers' own code can raise. *)
Inductive PyExn : Type :=
  | KeyError (k : string)
  | TypeError (what : string).

(** ** Tasks *)

Inductive TaskState : Type := QUEUED | RUNNING | FINISHED | FAILED | CANCELED.

#[global] Instance TaskState_eq_dec : EqDecision TaskState.
Proof. solve_decision. Defined.

(** The attributes of a task object that the controllers read:
    [task.id], [t.args], [t.kwargs], the [method_name] that [find_async]
    selects on, and the lifecycle fields of the Task Record. *)
Record Task : Type := mkTask {
  task_id : string;
  method_name : string;
  args : list Value;
  kwargs : gmap string Value;
  state : TaskState;
  result : Value;
  error : Value;
  created_at : Z;
  started_at : option Z;
  finished_at : option Z
}.

Definition set_state (s : TaskState) (t : Task) : Task :=
  mkTask (task_id t) (method_name t) (args t) (kwargs t) s
         (result t) (error t) (created_at t) (started_at t) (finished_at t).

(** ** HTTP responses *)

Inductive Status : Type :=
  | OK | Accepted | NoContent | NotFound | NotAcceptable | Conflict
  | InternalServerError.

#[global] Instance Status_eq_dec : EqDecision Status.
Proof. solve_decision. Defined.

Definition status_code (s : Status) : Z :=
  match s with
  | OK => 200
  | Accepted => 202
  | NoContent => 204
  | NotFound => 404
  | NotAcceptable => 406
  | Conflict => 409
  | InternalServerError => 500
  end.

(** A response body: nothing, a message given as its format string and the
    values substituted into it ([fmt % args]), or a JSON document. *)
Inductive Body : Type :=
  | NoBody
  | Message (fmt : string) (fmt_args : list Value)
  | Json (v : Value).

Record Response : Type := mkResponse { status : Status; body : Body }.

(** Modelled from the spec: the response helpers of [JSONController]
    ([pulp.server.webservices.controllers.base] is not part of the sources);
    each sets the HTTP status its name and section 6 of the specification
    give, and returns its argument as the body. *)
Definition ok (v : Value) : Response := mkResponse OK (Json v).
Definition accepted (v : Value) : Response := mkResponse Accepted (Json v).
Definition no_content : Response := mkResponse NoContent NoBody.
Definition not_found (fmt : string) (a : list Value) : Response :=
  mkResponse NotFound (Message fmt a).
Definition not_acceptable (fmt : string) (a : list Value) : Response :=
  mkResponse NotAcceptable (Message fmt a).
Definition conflict (fmt : string) (a : list Value) : Response :=
  mkResponse Conflict (Message fmt a).
Definition internal_server_error (fmt : string) (a : list Value) : Response :=
  mkResponse InternalServerError (Message fmt a).

(** A timestamp that may not be set yet, and the name of a state, as JSON. *)
Definition opt_time (o : option Z) : Value :=
  match o with Some z => VInt z | None => VNone end.

Definition state_name (s : TaskState) : string :=
  match s with
  | QUEUED => "QUEUED" | RUNNING => "RUNNING" | FINISHED => "FINISHED"
  | FAILED => "FAILED" | CANCELED => "CANCELED"
  end.

(** Modelled from the spec: [AsyncController._task_to_dict] (not part of the
    sources) renders the fields of the Task Record of section 3. *)
Definition _task_to_dict (t : Task) : gmap string Value :=
  <["id" := VStr (task_id t)]>
  (<["method_name" := VStr (method_name t)]>
  (<["state" := VStr (state_name (state t))]>
  (<["result" := result t]>
  (<["error" := error t]>
  (<["created_at" := VInt (created_at t)]>
  (<["started_at" := opt_time (started_at t)]>
  (<["finished_at" := opt_time (finished_at t)]> ∅))))))).

(** ** Server state and the handler monad *)

(** The server state: the database behind the repository API and the task
    queue.  A task object is identified by its position in [tasks]. *)
Record World (Db : Type) : Type := mkWorld { db : Db; tasks : list Task }.
Arguments mkWorld {Db} _ _.
Arguments db {Db} _.
Arguments tasks {Db} _.

(** The calls a handler makes to the repository API and to the accessors
    of the request, with what the task-creating calls yielded, and the
    call [action(id)] the dispatcher makes. *)
Inductive Call : Type :=
  | call_repository (id : Value) (fields : list string)
  | call_params
  | call_timeout
  | call_sync (id : string) (tmo skip : Value) (yielded : option Task)
  | call_clone (id : string)
      (clone_id clone_name feed relative_path groupid filters : Value)
      (yielded : option Task)
  | call_action (id : string).

(** The tasks that the logged calls created. *)
Definition created_tasks (log : list Call) : list Task :=
  omap (λ c, match c with
             | call_sync _ _ _ y => y
             | call_clone _ _ _ _ _ _ _ y => y
             | _ => None
             end) log.

Record St (Db : Type) : Type := mkSt { world : World Db; calls : list Call }.
Arguments mkSt {Db} _ _.
Arguments world {Db} _.
Arguments calls {Db} _.

Inductive Outcome (A : Type) : Type :=
  | Return (a : A)
  | Raise (e : PyExn).
Arguments Return {A} _.
Arguments Raise {A} _.

Definition M (Db A : Type) : Type := St Db → Outcome A * St Db.

#[global] Instance M_ret Db : MRet (M Db) := λ A a st, (Return a, st).
#[global] Instance M_bind Db : MBind (M Db) := λ A B f m st,
  match m st with
  | (Return a, st') => f a st'
  | (Raise e, st') => (Raise e, st')
  end.

Definition raise {Db A} (e : PyExn) : M Db A := λ st, (Raise e, st).

(** Append a call to the log. *)
Definition logged {Db} (c : Call) : M Db unit :=
  λ st, (Return tt, mkSt (world st) (calls st ++ [c])).

(** [d[k]]: raises [KeyError] when the key is absent. *)
Definition subscript {Db} (d : gmap string Value) (k : string) : M Db Value :=
  match d !! k with
  | Some v => mret v
  | None => raise (KeyError k)
  end.

(** The part of the log a run appended. *)
Definition new_calls {Db} (st st' : St Db) : list Call :=
  drop (length (calls st)) (calls st').

(** ** Collaborators *)

(** The [def]s of the class body of [RepositoryActions]. *)
Inductive Method : Type :=
  | def_sync | def_clone | def_upload | def_add_package | def_delete_package
  | def_get_package | def_add_packages_to_group
  | def_delete_package_from_group | def_create_packagegroup
  | def_import_comps | def_delete_packagegroup
  | def_create_packagegroupcategory | def_delete_packagegroupcategory
  | def_add_packagegroup_to_category | def_delete_packagegroup_from_category
  | def_add_errata | def_delete_errata | def_add_file | def_remove_file
  | def_addkeys | def_get_package_by_nvrea | def_get_package_by_filename
  | def_rmkeys | def_add_filters | def_remove_filters | def_add_group
  | def_remove_group | def_update_publish.

(** What the controllers call but the sources do not define, taken as
    parameters: the repository API [api = RepoApi()], the accessors of the
    request inherited from [JSONController] and [AsyncController], the
    attributes those base classes contribute to name lookup, and the bodies
    of the action methods that no statement below depends on.  [Req] is the
    ambient request ([web.ctx]), [Db] the database behind the API. *)
Class Collaborators (Db Req : Type) : Type := {
  (** [api.repository(id, fields)]: the document, or [None] *)
  api_repository : Value → list string → World Db → option (gmap string Value);
  (** [api.sync(id, timeout, skip)]: the task, or [None] *)
  api_sync : string → Value → Value → World Db → option Task * World Db;
  (** [api.clone(id, clone_id, clone_name, feed, relative_path, groupid,
      filters)]: the task, or [None] *)
  api_clone : string → Value → Value → Value → Value → Value → Value →
              World Db → option Task * World Db;
  (** [self.params()]: the de-serialized request body *)
  params : Req → gmap string Value;
  (** [self.timeout(params)] *)
  timeout : Req → gmap string Value → Value;
  (** [self._status_path(task_id)] *)
  _status_path : Req → string → Value;
  (** attributes found on the base classes *)
  inherited : string → option (Req → string → M Db Response);
  (** the other action methods of [RepositoryActions] *)
  action_body : Method → Req → string → M Db Response
}.

Section Calls.
Context {Db Req : Type} `{!Collaborators Db Req}.

Definition repository (id : Value) (fields : list string)
  : M Db (option (gmap string Value)) :=
  λ st, (Return (api_repository id fields (world st)),
         mkSt (world st) (calls st ++ [call_repository id fields])).

Definition read_params (req : Req) : M Db (gmap string Value) :=
  _ ← logged call_params; mret (params req).

Definition read_timeout (req : Req) (p : gmap string Value) : M Db Value :=
  _ ← logged call_timeout; mret (timeout req p).

Definition run_sync (id : string) (tmo skip : Value) : M Db (option Task) :=
  λ st, let '(t, w) := api_sync id tmo skip (world st) in
        (Return t, mkSt w (calls st ++ [call_sync id tmo skip t])).

Definition run_clone (id : string)
    (clone_id clone_name feed relative_path groupid filters : Value)
  : M Db (option Task) :=
  λ st, let '(t, w) := api_clone id clone_id clone_name feed relative_path
                                 groupid filters (world st) in
        (Return t,
         mkSt w (calls st ++ [call_clone id clone_id clone_name feed
                                         relative_path groupid filters t])).
End Calls.

(** ** The task queue *)

(** Creation-time order on tasks. *)
Definition created_le (a b : Task) : Prop := (created_at a ≤ created_at b)%Z.

#[global] Instance created_le_dec a b : Decision (created_le a b).
Proof. unfold created_le. apply _. Defined.

(** Modelled from the spec: [find_async] of [pulp.server.async] (imported,
    not part of the sources) is the [find] of section 4.4: the records of
    the Task Registry that meet the criteria, as a sequence ordered by
    creation time, most recent last. *)
Definition find_async {Db} (criteria : Task → bool) (w : World Db) : list Task :=
  merge_sort created_le (filter (λ t, criteria t = true) (tasks w)).

(** The criterion [method_name=m]. *)
Definition by_method_name (m : string) (t : Task) : bool :=
  bool_decide (method_name t = m).

(** Modelled from the spec: [AsyncController.find_task] (not part of the
    sources), the lookup by task id behind [get_status] and [cancel] of
    section 4.4; the result refers to the task object in the queue. *)
Definition find_task {Db} (id : string) (w : World Db) : option nat :=
  fst <$> list_find (λ t, task_id t = id) (tasks w).

(** Modelled from the spec: [AsyncController.task_status] (not part of the
    sources): [get_status(task_id) -> TaskRecord | NotFound], section 4.4. *)
Definition task_status {Db} (id : string) (w : World Db)
  : option (gmap string Value) :=
  i ← find_task id w; t ← tasks w !! i; Some (_task_to_dict t).

(** A task in a terminal state has completed. *)
Definition task_complete (s : TaskState) : bool :=
  match s with
  | FINISHED | FAILED | CANCELED => true
  | QUEUED | RUNNING => false
  end.

(** Modelled from the spec: [AsyncController.cancel_task] (not part of the
    sources): sections 4.3 and 8, a task that is [QUEUED] or [RUNNING] goes
    to [CANCELED] and the call succeeds; a task in a terminal state is left
    as it is and the call reports that it was not canceled. *)
Definition cancel_task {Db} (task : nat) : M Db bool :=
  λ st, match tasks (world st) !! task with
        | None => (Return false, st)
        | Some t =>
            if task_complete (state t) then (Return false, st)
            else (Return true,
                  mkSt (mkWorld (db (world st))
                                (alter (set_state CANCELED) task (tasks (world st))))
                       (calls st))
        end.

(** Read the attributes of the task object behind a reference. *)
Definition deref {Db} (task : nat) : M Db Task :=
  λ st, match tasks (world st) !! task with
        | Some t => (Return t, st)
        | None => (Raise (TypeError "no such task object"), st)
        end.

(** Read the server state. *)
Definition get_world {Db} : M Db (World Db) := λ st, (Return (world st), st).

(** ** [class RepositoryActions(AsyncController)] *)

Module RepositoryActions.

(** [default_fields], the module-level list of fields sent to the client. *)
Definition default_fields : list string :=
  ["id"; "source"; "name"; "arch"; "sync_schedule"; "last_sync";
   "use_symlinks"; "groupid"; "relative_path"; "files"; "publish";
   "clone_ids"; "distributionid"; "checksum_type"; "filters"].

Definition exposed_actions : list string :=
  ["sync"; "_sync"; "clone"; "upload"; "add_package"; "delete_package";
   "get_package"; "add_file"; "remove_file"; "add_packages_to_group";
   "delete_package_from_group"; "delete_packagegroup";
   "create_packagegroup"; "create_packagegroupcategory";
   "delete_packagegroupcategory"; "add_packagegroup_to_category";
   "delete_packagegroup_from_category"; "add_errata"; "delete_errata";
   "get_package_by_nvrea"; "get_package_by_filename"; "addkeys"; "rmkeys";
   "update_publish"; "import_comps"; "add_filters"; "remove_filters";
   "add_group"; "remove_group"].

(** What a name of the class body is bound to. *)
Inductive Attr : Type :=
  | attr_exposed_actions
  | attr_def (m : Method)
  | attr_POST
  | attr_GET.

(** The class body, binding by binding: the tuple, the [def]s in their
    order, the assignment [_sync = sync] after [def sync], and the two
    HTTP methods. *)
Definition class_body : list (string * Attr) :=
  [("exposed_actions", attr_exposed_actions);
   ("sync", attr_def def_sync);
   ("_sync", attr_def def_sync);
   ("clone", attr_def def_clone);
   ("upload", attr_def def_upload);
   ("add_package", attr_def def_add_package);
   ("delete_package", attr_def def_delete_package);
   ("get_package", attr_def def_get_package);
   ("add_packages_to_group", attr_def def_add_packages_to_group);
   ("delete_package_from_group", attr_def def_delete_package_from_group);
   ("create_packagegroup", attr_def def_create_packagegroup);
   ("import_comps", attr_def def_import_comps);
   ("delete_packagegroup", attr_def def_delete_packagegroup);
   ("create_packagegroupcategory", attr_def def_create_packagegroupcategory);
   ("delete_packagegroupcategory", attr_def def_delete_packagegroupcategory);
   ("add_packagegroup_to_category", attr_def def_add_packagegroup_to_category);
   ("delete_packagegroup_from_category",
      attr_def def_delete_packagegroup_from_category);
   ("add_errata", attr_def def_add_errata);
   ("delete_errata", attr_def def_delete_errata);
   ("add_file", attr_def def_add_file);
   ("remove_file", attr_def def_remove_file);
   ("addkeys", attr_def def_addkeys);
   ("get_package_by_nvrea", attr_def def_get_package_by_nvrea);
   ("get_package_by_filename", attr_def def_get_package_by_filename);
   ("rmkeys", attr_def def_rmkeys);
   ("add_filters", attr_def def_add_filters);
   ("remove_filters", attr_def def_remove_filters);
   ("add_group", attr_def def_add_group);
   ("remove_group", attr_def def_remove_group);
   ("update_publish", attr_def def_update_publish);
   ("POST", attr_POST);
   ("GET", attr_GET)].

(** The class namespace: a later binding of a name replaces an earlier
    one. *)
Definition namespace : gmap string Attr :=
  foldl (λ ns b, <[b.1 := b.2]> ns) ∅ class_body.

Section Handlers.
Context {Db Req : Type} `{!Collaborators Db Req}.

Definition sync (req : Req) (id : string) : M Db Response :=
  repo ← repository (VStr id) ["source"];
  source ← match repo with
           | None => raise (TypeError "'NoneType' object is not subscriptable")
           | Some repo => subscript repo "source"
           end;
  match source with
  | VNone =>
      mret (not_acceptable
        "Repo [%s] is not setup for sync. Please add packages using upload."
        [VStr id])
  | _ =>
      repo_params ← read_params req;
      timeout ← read_timeout req repo_params;
      let skip := dict_get repo_params "skip" (VDict ∅) in
      task ← run_sync id timeout skip;
      match task with
      | None =>
          mret (conflict "Sync already in process for repo [%s]" [VStr id])
      | Some task =>
          let task_info := _task_to_dict task in
          let task_info :=
            <["status_path" := _status_path req (task_id task)]> task_info in
          mret (accepted (VDict task_info))
      end
  end.

(** [_sync = sync] *)
Definition _sync : Req → string → M Db Response := sync.

Definition clone (req : Req) (id : string) : M Db Response :=
  repo_data ← read_params req;
  repo ← repository (VStr id) default_fields;
  match repo with
  | None =>
      mret (not_found "A repository with the id, %s, does not exist"
                      [VStr id])
  | Some _ =>
      clone_id ← subscript repo_data "clone_id";
      existing ← repository clone_id default_fields;
      match existing with
      | Some _ =>
          clone_id ← subscript repo_data "clone_id";
          mret (conflict "A repository with the id, %s, already exists"
                         [clone_id])
      | None =>
          clone_id ← subscript repo_data "clone_id";
          clone_name ← subscript repo_data "clone_name";
          feed ← subscript repo_data "feed";
          task ← run_clone id clone_id clone_name feed
                   (dict_get repo_data "relative_path" VNone)
                   (dict_get repo_data "groupid" VNone)
                   (dict_get repo_data "filters" (VList []));
          match task with
          | None =>
              mret (conflict "Error in cloning repo [%s]" [VStr id])
          | Some task =>
              let task_info := _task_to_dict task in
              let task_info :=
                <["status_path" := _status_path req (task_id task)]>
                  task_info in
              mret (accepted (VDict task_info))
          end
      end
  end.

(** The function a [def] of the class body defines. *)
Definition method (m : Method) : Req → string → M Db Response :=
  match m with
  | def_sync => sync
  | def_clone => clone
  | _ => action_body m
  end.

(** Calling the value of an attribute with the one argument [id]. *)
Definition call_attr (a : Attr) : Req → string → M Db Response :=
  match a with
  | attr_def m => method m
  | attr_exposed_actions =>
      λ _ _, raise (TypeError "'tuple' object is not callable")
  | attr_POST | attr_GET =>
      λ _ _, raise (TypeError "missing 1 required positional argument")
  end.

(** [getattr(self, name, None)]: the class body first, then the base
    classes. *)
Definition getattr (name : string) : option (Req → string → M Db Response) :=
  match namespace !! name with
  | Some a => Some (call_attr a)
  | None => inherited name
  end.

(** [not repo] for what [api.repository] returns *)
Definition falsy (repo : option (gmap string Value)) : bool :=
  match repo with
  | None => true
  | Some d => negb (dict_truthy d)
  end.

Definition POST (req : Req) (id action_name : string) : M Db Response :=
  repo ← repository (VStr id) ["id"];
  if falsy repo then
    mret (not_found "No repository with id %s found" [VStr id])
  else
    match getattr action_name with
    | None =>
        mret (internal_server_error "No implementation for %s found"
                                    [VStr action_name])
    | Some action =>
        _ ← logged (call_action id);
        action req id
    end.

Definition action_methods : gmap string string :=
  list_to_map [("sync", "_sync"); ("_sync", "_sync")].

(** The condition of the comprehension in [GET]:
    [(t.args and id in t.args) or
     (t.kwargs and id in t.kwargs.values())] *)
Definition mentions (id : string) (t : Task) : bool :=
  (list_truthy (args t) && str_in id (args t))
  || (dict_truthy (kwargs t) && str_in id (map_to_list (kwargs t)).*2).

Definition GET (req : Req) (id action_name : string) : M Db Response :=
  match action_methods !! action_name with
  | None =>
      mret (not_found "No information for %s on repository %s"
                      [VStr action_name; VStr id])
  | Some method_name =>
      w ← get_world;
      let tasks :=
        filter (λ t, mentions id t = true)
               (find_async (by_method_name method_name) w) in
      if negb (list_truthy tasks) then
        mret (not_found "No recent %s on repository %s found"
                        [VStr action_name; VStr id])
      else
        let task_infos :=
          (λ task, VDict (<["status_path" := _status_path req (task_id task)]>
                            (_task_to_dict task))) <$> tasks in
        mret (ok (VList task_infos))
  end.
End Handlers.
End RepositoryActions.

(** ** [class RepositoryActionStatus(AsyncController)] *)

Module RepositoryActionStatus.
Section Handlers.
Context {Db Req : Type} `{!Collaborators Db Req}.

Definition GET (req : Req) (id action_name action_id : string)
  : M Db Response :=
  w ← get_world;
  let task_info := task_status action_id w in
  match task_info with
  | None =>
      mret (not_found "No %s with id %s found"
                      [VStr action_name; VStr action_id])
  | Some task_info => mret (ok (VDict task_info))
  end.

Definition DELETE (req : Req) (id action_name action_id : string)
  : M Db Response :=
  w ← get_world;
  let task := find_task action_id w in
  match task with
  | None =>
      mret (not_found "No %s with id %s found"
                      [VStr action_name; VStr action_id])
  | Some task =>
      canceled ← cancel_task task;
      if canceled : bool then
        t ← deref task;
        mret (accepted (VDict (_task_to_dict t)))
      else
        mret no_content
  end.
End Handlers.
End RepositoryActionStatus.

(** ** [pulpcore/app/migrations/0087_taskschedule.py] *)

(** The migration is data: a [CreateModel] operation listing the columns
    of the [TaskSchedule] table with their options.  What the options mean
    is given by the database the table lives in: [Table] below is a model
    of row creation and of the deletion of a referenced row, generic in the
    list of columns. *)
Module Migration.

Inductive OnDelete : Type := CASCADE | PROTECT | SET_NULL | DO_NOTHING.

#[global] Instance OnDelete_eq_dec : EqDecision OnDelete.
Proof. solve_decision. Defined.

Inductive FieldKind : Type :=
  | UUIDField
  | DateTimeField
  | DurationField
  | CharField (max_length : nat)
  | ForeignKey (to : string) (on_delete : OnDelete).

(** A callable given as [default=]. *)
Inductive Callable : Type := uuid4 | timezone_now.

(** A column; an option the migration leaves out has Django's default
    ([null], [unique], [primary_key], [auto_now], [auto_now_add] are
    false, [editable] and [serialize] are true, no [default]). *)
Record Field : Type := mkField {
  kind : FieldKind;
  default : option Callable;
  null : bool;
  unique : bool;
  primary_key : bool;
  auto_now_add : bool;
  auto_now : bool;
  editable : bool;
  serialize : bool
}.

Record CreateModel : Type := mkCreateModel {
  name : string;
  fields : list (string * Field);
  permissions : list (string * string)
}.

Definition dependencies : list (string * string) :=
  [("core", "0086_task_json_fields")].

Definition operations : list CreateModel :=
  [mkCreateModel "TaskSchedule"
     [("pulp_id",
         mkField UUIDField (Some uuid4) false false true false false false false);
      ("pulp_created",
         mkField DateTimeField None false false false true false true true);
      ("pulp_last_updated",
         mkField DateTimeField None true false false false true true true);
      ("dispatch_interval",
         mkField DurationField None true false false false false true true);
      ("name",
         mkField (CharField 256) None false true false false false true true);
      ("next_dispatch",
         mkField DateTimeField (Some timezone_now) true false false false false
                 true true);
      ("task_name",
         mkField (CharField 256) None false false false false false true true);
      ("last_task",
         mkField (ForeignKey "core.task" SET_NULL) None true false false false
                 false true true)]
     [("manage_roles_taskschedule",
       "Can manage role assignments on task schedules")]].

(** The columns of the table the migration creates. *)
Definition TaskSchedule : list (string * Field) :=
  match operations with
  | op :: _ => fields op
  | [] => []
  end.

(** A stored value. *)
Inductive Cell : Type :=
  | NULL
  | Uuid (u : N)
  | Timestamp (t : Z)
  | Duration (d : Z)
  | Str (s : string).

#[global] Instance Cell_eq_dec : EqDecision Cell.
Proof. solve_decision. Defined.

Inductive DbError : Type :=
  | IntegrityError (column : string)
  | DataError (column : string)
  | ProtectedError (column : string).

(** The database: the primary keys of the [core.task] rows and the rows
    of the table. *)
Record Database : Type := mkDatabase {
  task : list N;
  rows : list (gmap string Cell)
}.

(** Following a reference: the task, no task for NULL, or
    [DoesNotExist] for a reference to a row that is gone. *)
Inductive Lookup : Type := Found (u : N) | NoTask | DoesNotExist.

Section Table.
Variable schema : list (string * Field).

(** The value a new row gets in a column: the time of the save for
    [auto_now] and [auto_now_add] columns, else the value given, else
    the column's default evaluated at creation, else the empty string
    for a text column that is not nullable, else NULL. *)
Definition initial (now : Z) (fresh : N) (given : gmap string Cell)
    (c : string * Field) : Cell :=
  if auto_now_add c.2 || auto_now c.2 then Timestamp now
  else match given !! c.1 with
       | Some v => v
       | None =>
           match default c.2, kind c.2 with
           | Some uuid4, _ => Uuid fresh
           | Some timezone_now, _ => Timestamp now
           | None, CharField _ => if null c.2 then NULL else Str ""
           | None, _ => NULL
           end
       end.

Definition new_row (now : Z) (fresh : N) (given : gmap string Cell)
  : gmap string Cell :=
  list_to_map ((λ c, (c.1, initial now fresh given c)) <$> schema).

(** The constraint a column puts on a new row, if the row breaks it. *)
Definition violation (db : Database) (row : gmap string Cell)
    (c : string * Field) : option DbError :=
  match row !! c.1 with
  | None | Some NULL =>
      if null c.2 && negb (primary_key c.2) then None
      else Some (IntegrityError c.1)
  | Some v =>
      if (unique c.2 || primary_key c.2)
         && bool_decide (Exists (λ r, r !! c.1 = Some v) (rows db))
      then Some (IntegrityError c.1)
      else match kind c.2, v with
           | CharField n, Str s =>
               if bool_decide (String.length s ≤ n)%nat then None
               else Some (DataError c.1)
           | ForeignKey _ _, Uuid u =>
               if bool_decide (u ∈ task db) then None
               else Some (IntegrityError c.1)
           | _, _ => None
           end
  end.

(** [TaskSchedule.objects.create] with the keyword arguments [given], at
    time [now]: the row is stored
    only if it breaks no constraint; otherwise the first violation is
    raised and the database is as before. *)
Definition create (now : Z) (fresh : N) (given : gmap string Cell)
    (db : Database) : (DbError + gmap string Cell) * Database :=
  let row := new_row now fresh given in
  match omap (violation db row) schema with
  | e :: _ => (inl e, db)
  | [] => (inr row, mkDatabase (task db) (rows db ++ [row]))
  end.

(** The columns that refer to [core.task] with a given [on_delete]. *)
Definition references (a : OnDelete) : list string :=
  omap (λ c : string * Field,
          match kind c.2 with
          | ForeignKey to a' =>
              if bool_decide (to = "core.task") && bool_decide (a' = a)
              then Some c.1 else None
          | _ => None
          end) schema.

Definition refers (u : N) (cols : list string) (r : gmap string Cell)
  : bool :=
  bool_decide (Exists (λ col, r !! col = Some (Uuid u)) cols).

Definition set_null (u : N) (cols : list string) (r : gmap string Cell)
  : gmap string Cell :=
  foldr (λ col r, if bool_decide (r !! col = Some (Uuid u))
                  then <[col := NULL]> r else r) r cols.

(** Deleting the [core.task] row [u]: a [PROTECT] reference forbids it,
    [CASCADE] deletes the referring rows, [SET_NULL] clears the
    reference. *)
Definition delete_task (u : N) (db : Database)
  : option DbError * Database :=
  match filter (λ col, Exists (λ r, r !! col = Some (Uuid u)) (rows db))
               (references PROTECT) with
  | col :: _ => (Some (ProtectedError col), db)
  | [] =>
      (None,
       mkDatabase
         (filter (λ v, v ≠ u) (task db))
         (set_null u (references SET_NULL)
            <$> filter (λ r, refers u (references CASCADE) r = false)
                       (rows db)))
  end.

Definition follow (db : Database) (col : string) (r : gmap string Cell)
  : Lookup :=
  match r !! col with
  | Some (Uuid u) => if bool_decide (u ∈ task db) then Found u else DoesNotExist
  | _ => NoTask
  end.
End Table.
End Migration.

(** ** Notions used in the statements *)

Section Notions.
Context {Db Req : Type} `{!Collaborators Db Req}.

(** The arguments [sync] passes to [api.sync]. *)
Definition sync_timeout (req : Req) : Value := timeout req (params req).
Definition sync_skip (req : Req) : Value :=
  dict_get (params req) "skip" (VDict ∅).

(** The response [sync] gives for what [api.sync] returned. *)
Definition sync_response (req : Req) (id : string) (task : option Task)
  : Response :=
  match task with
  | None => conflict "Sync already in process for repo [%s]" [VStr id]
  | Some task =>
      accepted (VDict (<["status_path" := _status_path req (task_id task)]>
                         (_task_to_dict task)))
  end.

(** A logged call to [api.clone]. *)
Definition is_call_clone (c : Call) : bool :=
  match c with
  | call_clone _ _ _ _ _ _ _ _ => true
  | _ => false
  end.

(** The state in which the task object [task] has been canceled. *)
Definition canceled (task : nat) (st : St Db) : St Db :=
  mkSt (mkWorld (db (world st))
          (alter (set_state CANCELED) task (tasks (world st))))
       (calls st).

(** The tasks of the queue that ran [_sync] on a repository: the method
    name is [_sync], and the id is among the arguments or among the values
    of the keyword arguments. *)
Definition synced (id : string) (t : Task) : Prop :=
  method_name t = "_sync"
  ∧ (VStr id ∈ args t ∨ ∃ k, kwargs t !! k = Some (VStr id)).

(** The same, as the controller tests it. *)
Definition syncedb (id : string) (t : Task) : bool :=
  by_method_name "_sync" t && RepositoryActions.mentions id t.

(** The sequence of tasks [RepositoryActions.GET] selects. *)
Definition sync_history (id : string) (w : World Db) : list Task :=
  filter (λ t, RepositoryActions.mentions id t = true)
         (find_async (by_method_name "_sync") w).

(** The entry of a task in the history. *)
Definition history_entry (req : Req) (t : Task) : Value :=
  VDict (<["status_path" := _status_path req (task_id t)]> (_task_to_dict t)).
End Notions.

(** What [SET_NULL] does to a row of [TaskSchedule] when the task [u] is
    deleted. *)
Definition clear_last_task (u : N) (r : gmap string Migration.Cell)
  : gmap string Migration.Cell :=
  if bool_decide (r !! "last_task" = Some (Migration.Uuid u))
  then <["last_task" := Migration.NULL]> r else r.

(** The keyword arguments of a creation that gives the two columns without
    a default and nothing else. *)
Definition named (s task_name : string) : gmap string Migration.Cell :=
  <["name" := Migration.Str s]> (<["task_name" := Migration.Str task_name]> ∅).

(** ** A reference implementation of the collaborators *)

(** Modelled from the spec: a small instance of what the sources leave out,
    after sections 4.1 and 4.2: the resource store maps repository ids to
    documents, and the dispatcher behind [api.sync] and [api.clone] refuses
    a request when the Conflict Guard finds an active task of the same
    method on the same repository, and otherwise registers a new [QUEUED]
    task at the end of the registry.  The general statements below do not
    depend on it; it gives them concrete inputs to run on. *)
Module Reference.

(** A request, as far as the handlers read it: its de-serialized body. *)
Record Req : Type := mkReq { data : gmap string Value }.

(** Modelled from the spec: [RepoApi.repository], the lookup in the
    resource store; the document found is cut down to the fields asked
    for. *)
Definition repository (id : Value) (fields : list string)
    (w : World (gmap string (gmap string Value)))
  : option (gmap string Value) :=
  match id with
  | VStr id => filter (λ kv, kv.1 ∈ fields) <$> db w !! id
  | _ => None
  end.

(** Modelled from the spec: the Conflict Guard of section 4.2; a task is
    active while it is [QUEUED] or [RUNNING], and a request conflicts with
    an active task of the same method on the same repository. *)
Definition active (t : Task) : bool := negb (task_complete (state t)).

Definition is_conflicting (method : string) (id : string) (ts : list Task)
  : bool :=
  existsb (λ t, active t && bool_decide (method_name t = method)
                && str_in id (args t)) ts.

(** Modelled from the spec: the Dispatcher of section 4.1 behind
    [RepoApi.sync] and [RepoApi.clone]. *)
Definition dispatch (method : string) (id : string) (a : list Value)
    (w : World (gmap string (gmap string Value)))
  : option Task * World (gmap string (gmap string Value)) :=
  if is_conflicting method id (tasks w) then (None, w)
  else
    let n := length (tasks w) in
    let t := mkTask ("task-" +:+ pretty n) method (VStr id :: a) ∅ QUEUED
                    VNone VNone (Z.of_nat n) None None in
    (Some t, mkWorld (db w) (tasks w ++ [t])).

#[global] Instance collaborators
  : Collaborators (gmap string (gmap string Value)) Req := {
  api_repository := repository;
  api_sync id tmo skip := dispatch "_sync" id [skip];
  api_clone id clone_id clone_name feed relative_path groupid filters :=
    dispatch "_clone" id [clone_id; clone_name; feed];
  params := data;
  timeout _ p := dict_get p "timeout" VNone;
  _status_path _ task_id := VStr ("/tasks/" +:+ task_id +:+ "/");
  inherited _ := None;
  action_body _ _ _ := mret (ok (VBool true))
}.

(** Two repositories: [repo-a] has an upstream source, [repo-b] has
    none. *)
Definition repo_a : gmap string Value :=
  <["id" := VStr "repo-a"]>
  (<["source" := VDict (<["type" := VStr "yum"]>
                       (<["url" := VStr "http://example.com/a"]> ∅))]>
  (<["name" := VStr "A"]> ∅)).

Definition repo_b : gmap string Value :=
  <["id" := VStr "repo-b"]> (<["source" := VNone]> (<["name" := VStr "B"]> ∅)).

Definition store : gmap string (gmap string Value) :=
  <["repo-a" := repo_a]> (<["repo-b" := repo_b]> ∅).

Definition st0 : St (gmap string (gmap string Value)) :=
  mkSt (mkWorld store []) [].

Definition sync_req : Req := mkReq ∅.

(** The state after one accepted sync of [repo-a]. *)
Definition st1 : St (gmap string (gmap string Value)) :=
  (RepositoryActions.POST sync_req "repo-a" "sync" st0).2.

Definition clone_req (clone_id : string) : Req :=
  mkReq (<["clone_id" := VStr clone_id]>
        (<["clone_name" := VStr "copy"]>
        (<["feed" := VStr "yum:http://example.com/a"]> ∅))).

Definition status_req : Req := mkReq ∅.

(** The state after that sync is canceled and a second one accepted. *)
Definition st2 : St (gmap string (gmap string Value)) :=
  (RepositoryActions.POST sync_req "repo-a" "sync"
     (RepositoryActionStatus.DELETE status_req "repo-a" "sync" "task-0" st1).2).2.

(** A database with one task and one schedule that refers to it. *)
Definition schedules : Migration.Database :=
  (Migration.create Migration.TaskSchedule 100 1
     (<["last_task" := Migration.Uuid 7]> (named "nightly" "sync"))
     (Migration.mkDatabase [7%N] [])).2.
End Reference.

(** ** The other controllers: values, answers, and their monad *)

(** Truth value of a Python value ([bool(v)], [v or w]). *)
Definition truthy (v : Value) : bool :=
  match v with
  | VNone => false
  | VBool b => b
  | VInt z => negb (z =? 0)%Z
  | VStr s => negb (bool_decide (s = ""))
  | VList l => list_truthy l
  | VDict d => dict_truthy d
  end.

(** [isinstance(v, basestring)] *)
Definition is_basestring (v : Value) : bool :=
  match v with VStr _ => true | _ => false end.

(** What the controllers below answer: a response with one of the statuses
    above, [self.created(location, body)] (201 Created, as the docstring of
    [Repositories.POST] has it) or [self.bad_request(msg)] (400 Bad Request,
    as the docstring of [Repository.PUT] has it). *)
Inductive Answer : Type :=
  | answer (r : Response)
  | created (location : string) (v : Value)
  | bad_request (fmt : string) (a : list Value).

Definition answer_code (a : Answer) : Z :=
  match a with
  | answer r => status_code (status r)
  | created _ _ => 201
  | bad_request _ _ => 400
  end.

(** Exceptions: those of the handlers' own code, and the [PulpException] an
    API method raises. *)
Inductive Exn : Type :=
  | Builtin (e : PyExn)
  | PulpException.

Inductive Result (A : Type) : Type :=
  | Done (a : A)
  | Failed (e : Exn).
Arguments Done {A} _.
Arguments Failed {A} _.

(** A call [api.name(args, kwargs)] (or a call to a function of another
    module, under its name). *)
Record Invocation : Type := invocation {
  inv_name : string;
  inv_args : list Value;
  inv_kwargs : list (string * Value)
}.

(** The state a handler runs in: the server state and the calls made. *)
Record Session (Db : Type) : Type :=
  mkSession { server : World Db; invoked : list Invocation }.
Arguments mkSession {Db} _ _.
Arguments server {Db} _.
Arguments invoked {Db} _.

Definition H (Db A : Type) : Type := Session Db → Result A * Session Db.

#[global] Instance H_ret Db : MRet (H Db) := λ A a s, (Done a, s).
#[global] Instance H_bind Db : MBind (H Db) := λ A B f m s,
  match m s with
  | (Done a, s') => f a s'
  | (Failed e, s') => (Failed e, s')
  end.

Definition fail {Db A} (e : Exn) : H Db A := λ s, (Failed e, s).

(** [d[k]] for a dict [d]. *)
Definition sub {Db} (d : gmap string Value) (k : string) : H Db Value :=
  match d !! k with
  | Some v => mret v
  | None => fail (Builtin (KeyError k))
  end.

(** [v[k]] for any value [v]: only a dict can be subscripted by a key. *)
Definition item {Db} (v : Value) (k : string) : H Db Value :=
  match v with
  | VDict d => sub d k
  | _ => fail (Builtin (TypeError "object is not subscriptable"))
  end.

(** [len(v)] *)
Definition len {Db} (v : Value) : H Db Z :=
  match v with
  | VStr s => mret (Z.of_nat (String.length s))
  | VList l => mret (Z.of_nat (length l))
  | VDict d => mret (Z.of_nat (size d))
  | _ => fail (Builtin (TypeError "object has no len()"))
  end.

(** The items a [for] loop over a value visits: the elements of a list, the
    keys of a dict, the characters of a string. *)
Definition iterate {Db} (v : Value) : H Db (list Value) :=
  match v with
  | VList l => mret l
  | VDict d => mret (VStr <$> (map_to_list d).*1)
  | VStr s => mret ((λ c, VStr (String c EmptyString)) <$> String.list_ascii_of_string s)
  | _ => fail (Builtin (TypeError "object is not iterable"))
  end.

(** ['/'.join((a, b))] for a string [b]. *)
Definition join_slash {Db} (a : Value) (b : string) : H Db string :=
  match a with
  | VStr a => mret (a +:+ "/" +:+ b)
  | _ => fail (Builtin (TypeError "sequence item 0: expected string"))
  end.

(** Run the loop body on each item in turn. *)
Fixpoint for_each {Db A B} (f : A → H Db B) (l : list A) : H Db (list B) :=
  match l with
  | [] => mret []
  | x :: l => y ← f x; ys ← for_each f l; mret (y :: ys)
  end.

(** A loop that updates one value. *)
Fixpoint fold_each {Db A B} (f : B → A → H Db B) (b : B) (l : list A) : H Db B :=
  match l with
  | [] => mret b
  | x :: l => b ← f b x; fold_each f b l
  end.

(** What these controllers call but the sources do not define, taken as
    parameters: the methods of the repository API by name, the query
    filters of the request, the functions of [http] and [mongo], the
    granting of permissions, and the attributes the base classes
    contribute to name lookup. *)
Class Services (Db Req : Type) : Type := {
  (** [api.name(args, kwargs)]: what it returns or raises *)
  api_invoke : string → list Value → list (string * Value) → World Db →
               Result Value * World Db;
  (** [self.filters(valid_filters)] *)
  filters : Req → Value → gmap string Value;
  (** [mongo.filters_to_re_spec(filters)] *)
  filters_to_re_spec : gmap string Value → Value;
  (** [http.extend_uri_path(path)] *)
  extend_uri_path : Req → Value → string;
  (** [http.uri_path()] *)
  uri_path : Req → string;
  (** [http.resource_path(path)] *)
  resource_path : string → Value;
  (** [grant_automatic_permissions_for_created_resource(resource)] *)
  grant_permissions : Value → World Db → Result unit * World Db;
  (** attributes found on the base classes of [RepositoryDeferredFields] *)
  inherited_field : string → option (Req → string → H Db Answer)
}.

Section Invocations.
Context {Db Req : Type} `{!Collaborators Db Req} `{!Services Db Req}.

(** [api.name(args, kwargs)], recorded. *)
Definition call (name : string) (args : list Value)
    (kwargs : list (string * Value)) : H Db Value :=
  λ s, let '(r, w) := api_invoke name args kwargs (server s) in
       (r, mkSession w (invoked s ++ [invocation name args kwargs])).

(** [api.repository(id, fields)], recorded. *)
Definition find_repository (id : Value) (fields : list string)
  : H Db (option (gmap string Value)) :=
  λ s, (Done (api_repository id fields (server s)),
        mkSession (server s)
          (invoked s ++ [invocation "repository" [id; VList (VStr <$> fields)] []])).

(** [grant_automatic_permissions_for_created_resource(resource)],
    recorded. *)
Definition grant (resource : Value) : H Db unit :=
  λ s, let '(r, w) := grant_permissions resource (server s) in
       (r, mkSession w
             (invoked s ++
              [invocation "grant_automatic_permissions_for_created_resource"
                          [resource] []])).
End Invocations.

(** ** [class RepositoryDeferredFields(JSONController)] *)

(** The [def]s of the class body. *)
Inductive FieldMethod : Type :=
  | def_packages | def_packagegroups | def_packagegroupcategories
  | def_errata | def_distribution | def_files | def_keys | def_comps.

Module RepositoryDeferredFields.

Definition exposed_fields : list string :=
  ["packages"; "packagegroups"; "packagegroupcategories"; "errata";
   "distribution"; "files"; "keys"; "comps"].

Inductive Attr : Type :=
  | attr_exposed_fields
  | attr_def (f : FieldMethod)
  | attr_GET.

(** The class body, binding by binding. *)
Definition class_body : list (string * Attr) :=
  [("exposed_fields", attr_exposed_fields);
   ("packages", attr_def def_packages);
   ("packagegroups", attr_def def_packagegroups);
   ("packagegroupcategories", attr_def def_packagegroupcategories);
   ("errata", attr_def def_errata);
   ("distribution", attr_def def_distribution);
   ("files", attr_def def_files);
   ("keys", attr_def def_keys);
   ("comps", attr_def def_comps);
   ("GET", attr_GET)].

Definition namespace : gmap string Attr :=
  foldl (λ ns b, <[b.1 := b.2]> ns) ∅ class_body.

Section Handlers.
Context {Db Req : Type} `{!Collaborators Db Req} `{!Services Db Req}.

Definition packages (req : Req) (id : string) : H Db Answer :=
  let valid_filters :=
    VList (VStr <$> ["name"; "version"; "release"; "epoch"; "arch";
                     "filename"; "field"]) in
  let filters := filters req valid_filters in
  let fields := dict_get filters "filed" VNone in
  let filters := delete "filed" filters in
  let spec := let spec := filters_to_re_spec filters in
              if truthy spec then spec else VDict ∅ in
  λ s, match call "get_packages" [VStr id; spec; fields] [] s with
       | (Done packages, s') => (Done (answer (ok packages)), s')
       | (Failed PulpException, s') =>
           (Done (answer (not_found "No repository %s" [VStr id])), s')
       | (Failed e, s') => (Failed e, s')
       end.

Definition packagegroups (req : Req) (id : string) : H Db Answer :=
  repo ← find_repository (VStr id) ["id"; "packagegroups"];
  match repo with
  | None => mret (answer (not_found "No repository %s" [VStr id]))
  | Some repo => mret (answer (ok (dict_get repo "packagegroups" VNone)))
  end.

Definition packagegroupcategories (req : Req) (id : string) : H Db Answer :=
  repo ← find_repository (VStr id) ["id"; "packagegroupcategories"];
  match repo with
  | None => mret (answer (not_found "No repository %s" [VStr id]))
  | Some repo =>
      mret (answer (ok (dict_get repo "packagegroupcategories" (VList []))))
  end.

Definition errata (req : Req) (id : string) : H Db Answer :=
  let valid_filters := VStr "type" in
  let types := dict_get (filters req valid_filters) "type" (VList []) in
  r ← call "errata" [VStr id; types] [];
  mret (answer (ok r)).

Definition distribution (req : Req) (id : string) : H Db Answer :=
  r ← call "list_distributions" [VStr id] [];
  mret (answer (ok r)).

Definition files (req : Req) (id : string) : H Db Answer :=
  r ← call "list_files" [VStr id] [];
  mret (answer (ok r)).

Definition keys (req : Req) (id : string) : H Db Answer :=
  keylist ← call "listkeys" [VStr id] [];
  mret (answer (ok keylist)).

Definition comps (req : Req) (id : string) : H Db Answer :=
  r ← call "export_comps" [VStr id] [];
  mret (answer (ok r)).

(** The function a [def] of the class body defines. *)
Definition method (f : FieldMethod) : Req → string → H Db Answer :=
  match f with
  | def_packages => packages
  | def_packagegroups => packagegroups
  | def_packagegroupcategories => packagegroupcategories
  | def_errata => errata
  | def_distribution => distribution
  | def_files => files
  | def_keys => keys
  | def_comps => comps
  end.

(** Calling the value of an attribute with the one argument [id]. *)
Definition call_attr (a : Attr) : Req → string → H Db Answer :=
  match a with
  | attr_def f => method f
  | attr_exposed_fields =>
      λ _ _, fail (Builtin (TypeError "'tuple' object is not callable"))
  | attr_GET =>
      λ _ _, fail (Builtin (TypeError "missing 1 required positional argument"))
  end.

(** [getattr(self, name, None)] *)
Definition getattr (name : string) : option (Req → string → H Db Answer) :=
  match namespace !! name with
  | Some a => Some (call_attr a)
  | None => inherited_field name
  end.

Definition GET (req : Req) (id field_name : string) : H Db Answer :=
  match getattr field_name with
  | None =>
      mret (answer (internal_server_error "No implementation for %s found"
                                          [VStr field_name]))
  | Some field => field req id
  end.
End Handlers.
End RepositoryDeferredFields.

(** ** [class Repositories(JSONController)] *)

Module Repositories.
Section Handlers.
Context {Db Req : Type} `{!Collaborators Db Req} `{!Services Db Req}.

(** The body of the loop of [GET], run on one element of the list. *)
Definition describe (req : Req) (repo : Value) : H Db Value :=
  id ← item repo "id";
  repo ← match repo with
         | VDict d => mret (<["uri_ref" := VStr (extend_uri_path req id)]> d)
         | _ => fail (Builtin (TypeError "object does not support item assignment"))
         end;
  id ← sub repo "id";
  package_count ← call "package_count" [id] [];
  let repo := <["package_count" := package_count]> repo in
  files ← sub repo "files";
  files_count ← len files;
  let repo := <["files_count" := VInt files_count]> repo in
  repo ← fold_each
           (λ repo field,
              id ← sub repo "id";
              path ← join_slash id field;
              mret (<[field := VStr (extend_uri_path req (VStr path))]> repo))
           repo RepositoryDeferredFields.exposed_fields;
  mret (VDict repo).

Definition GET (req : Req) : H Db Answer :=
  let valid_filters :=
    VList (VStr <$> ["id"; "name"; "arch"; "groupid"; "relative_path"]) in
  let filters := filters req valid_filters in
  let spec := filters_to_re_spec filters in
  repositories ←
    call "repositories"
         [spec; VList (VStr <$> RepositoryActions.default_fields)] [];
  items ← iterate repositories;
  described ← for_each (describe req) items;
  mret (answer (ok (match repositories with
                    | VList _ => VList described
                    | _ => repositories
                    end))).

Definition POST (req : Req) : H Db Answer :=
  let repo_data := params req in
  id ← sub repo_data "id";
  existing ← find_repository id RepositoryActions.default_fields;
  match existing with
  | Some _ =>
      mret (answer (conflict "A repository with the id, %s, already exists"
                             [id]))
  | None =>
      name ← sub repo_data "name";
      arch ← sub repo_data "arch";
      repo ← call "create" [id; name; arch]
               [("feed", dict_get repo_data "feed" VNone);
                ("symlinks", dict_get repo_data "use_symlinks" (VBool false));
                ("sync_schedule", dict_get repo_data "sync_schedule" VNone);
                ("cert_data", dict_get repo_data "cert_data" VNone);
                ("relative_path", dict_get repo_data "relative_path" VNone);
                ("groupid", dict_get repo_data "groupid" VNone);
                ("gpgkeys", dict_get repo_data "gpgkeys" VNone);
                ("checksum_type",
                   dict_get repo_data "checksum_type" (VStr "sha256"))];
      repo_id ← item repo "id";
      let path := extend_uri_path req repo_id in
      repo ← match repo with
             | VDict d => mret (VDict (<["uri_ref" := VStr path]> d))
             | _ => fail (Builtin (TypeError "object does not support item assignment"))
             end;
      _ ← grant (resource_path path);
      mret (created path repo)
  end.

Definition PUT (req : Req) : H Db Answer := POST req.

Definition DELETE (req : Req) : H Db Answer :=
  _ ← call "clean" [] [];
  mret (answer (ok (VBool true))).
End Handlers.
End Repositories.

(** ** [class Repository(JSONController)] *)

Module Repository.
Section Handlers.
Context {Db Req : Type} `{!Collaborators Db Req} `{!Services Db Req}.

Definition GET (req : Req) (id : string) : H Db Answer :=
  repo ← find_repository (VStr id) RepositoryActions.default_fields;
  match repo with
  | None => mret (answer (not_found "No repository %s" [VStr id]))
  | Some repo =>
      let repo :=
        foldl (λ repo field,
                 <[field := VStr (extend_uri_path req (VStr field))]> repo)
              repo RepositoryDeferredFields.exposed_fields in
      let repo := <["uri_ref" := VStr (uri_path req)]> repo in
      files ← sub repo "files";
      files_count ← len files;
      let repo := <["files_count" := VInt files_count]> repo in
      mret (answer (ok (VDict repo)))
  end.

(** One step of the loop of [PUT]: a substituted uri reference is
    removed. *)
Definition drop_reference (delta : gmap string Value) (field : string)
  : gmap string Value :=
  match delta !! field with
  | Some v => if is_basestring v then delete field delta else delta
  | None => delta
  end.

Definition PUT (req : Req) (id : string) : H Db Answer :=
  let delta := params req in
  let popped := dict_get delta "id" (VStr id) in
  let delta := delete "id" delta in
  if negb (str_eq id popped) then
    mret (bad_request "You cannot change a repository id" [])
  else
    let delta :=
      foldl drop_reference delta
            ("uri_ref" :: RepositoryDeferredFields.exposed_fields) in
    _ ← call "update" [VStr id; VDict delta] [];
    mret (answer (ok (VBool true))).

Definition DELETE (req : Req) (id : string) : H Db Answer :=
  _ ← call "delete" [] [("id", VStr id)];
  mret (answer (ok (VBool true))).
End Handlers.
End Repository.

(** ** [class Schedules(JSONController)] *)

Module Schedules.
Section Handlers.
Context {Db Req : Type} `{!Collaborators Db Req} `{!Services Db Req}.

Definition GET (req : Req) : H Db Answer :=
  schedules ← call "all_schedules" [] [];
  mret (answer (ok schedules)).
End Handlers.
End Schedules.

(** ** The other action methods of [class RepositoryActions] *)

Module Actions.
Section Handlers.
Context {Db Req : Type} `{!Collaborators Db Req} `{!Services Db Req}.

(** [k in p], [p.has_key(k)] *)
Definition has (p : gmap string Value) (k : string) : bool :=
  bool_decide (is_Some (p !! k)).

(** [self.not_found(msg)] with a message that has no argument *)
Definition missing (msg : string) : H Db Answer :=
  mret (answer (not_found msg [])).

Definition upload (req : Req) (id : string) : H Db Answer :=
  let data := params req in
  pkginfo ← sub data "pkginfo";
  pkgstream ← sub data "pkgstream";
  _ ← call "upload" [VStr id; pkginfo; pkgstream] [];
  mret (answer (ok (VBool true))).

Definition add_package (req : Req) (id : string) : H Db Answer :=
  let data := params req in
  packageid ← sub data "packageid";
  errors ← call "add_package" [VStr id; packageid] [];
  mret (answer (ok errors)).

Definition delete_package (req : Req) (id : string) : H Db Answer :=
  let data := params req in
  package ← sub data "package";
  _ ← call "remove_packages" [VStr id; package] [];
  mret (answer (ok (VBool true))).

Definition get_package (req : Req) (id : string) : H Db Answer :=
  let name := params req in
  r ← call "get_package" [VStr id; VDict name] [];
  mret (answer (ok r)).

Definition add_packages_to_group (req : Req) (id : string) : H Db Answer :=
  let p := params req in
  if negb (has p "groupid") then missing "No groupid specified"
  else if negb (has p "packagenames") then missing "No package name specified"
  else
    groupid ← sub p "groupid";
    let pkg_names := dict_get p "packagenames" (VList []) in
    let gtype := VStr "default" in
    let requires := VNone in
    gtype ← (if has p "type" then sub p "type" else mret gtype);
    requires ← (if has p "requires" then sub p "requires" else mret requires);
    r ← call "add_packages_to_group"
             [VStr id; groupid; pkg_names; gtype; requires] [];
    mret (answer (ok r)).

Definition delete_package_from_group (req : Req) (id : string) : H Db Answer :=
  let p := params req in
  if negb (has p "groupid") then missing "No groupid specified"
  else if negb (has p "name") then missing "No package name specified"
  else
    groupid ← sub p "groupid";
    pkg_name ← sub p "name";
    let gtype := VStr "default" in
    gtype ← (if has p "type" then sub p "type" else mret gtype);
    r ← call "delete_package_from_group" [VStr id; groupid; pkg_name; gtype] [];
    mret (answer (ok r)).

Definition create_packagegroup (req : Req) (id : string) : H Db Answer :=
  let p := params req in
  if negb (has p "groupid") then missing "No groupid specified"
  else
    groupid ← sub p "groupid";
    if negb (has p "groupname") then missing "No groupname specified"
    else
      groupname ← sub p "groupname";
      if negb (has p "description") then missing "No description specified"
      else
        descrp ← sub p "description";
        r ← call "create_packagegroup" [VStr id; groupid; groupname; descrp] [];
        mret (answer (ok r)).

Definition import_comps (req : Req) (id : string) : H Db Answer :=
  let comps_data := params req in
  r ← call "import_comps" [VStr id; VDict comps_data] [];
  mret (answer (ok r)).

Definition delete_packagegroup (req : Req) (id : string) : H Db Answer :=
  let p := params req in
  if negb (has p "groupid") then missing "No groupid specified"
  else
    groupid ← sub p "groupid";
    r ← call "delete_packagegroup" [VStr id; groupid] [];
    mret (answer (ok r)).

Definition create_packagegroupcategory (req : Req) (id : string)
  : H Db Answer :=
  let p := params req in
  if negb (has p "categoryid") then missing "No categoryid specified"
  else
    categoryid ← sub p "categoryid";
    if negb (has p "categoryname") then missing "No categoryname specified"
    else
      categoryname ← sub p "categoryname";
      if negb (has p "description") then missing "No description specified"
      else
        descrp ← sub p "description";
        r ← call "create_packagegroupcategory"
                 [VStr id; categoryid; categoryname; descrp] [];
        mret (answer (ok r)).

Definition delete_packagegroupcategory (req : Req) (id : string)
  : H Db Answer :=
  let p := params req in
  if negb (has p "categoryid") then missing "No categoryid specified"
  else
    categoryid ← sub p "categoryid";
    r ← call "delete_packagegroupcategory" [VStr id; categoryid] [];
    mret (answer (ok r)).

Definition add_packagegroup_to_category (req : Req) (id : string)
  : H Db Answer :=
  let p := params req in
  if negb (has p "categoryid") then missing "No categoryid specified"
  else if negb (has p "groupid") then missing "No groupid specified"
  else
    groupid ← sub p "groupid";
    categoryid ← sub p "categoryid";
    r ← call "add_packagegroup_to_category" [VStr id; categoryid; groupid] [];
    mret (answer (ok r)).

Definition delete_packagegroup_from_category (req : Req) (id : string)
  : H Db Answer :=
  let p := params req in
  if negb (has p "categoryid") then missing "No categoryid specified"
  else if negb (has p "groupid") then missing "No groupid specified"
  else
    groupid ← sub p "groupid";
    categoryid ← sub p "categoryid";
    r ← call "delete_packagegroup_from_category"
             [VStr id; categoryid; groupid] [];
    mret (answer (ok r)).

Definition add_errata (req : Req) (id : string) : H Db Answer :=
  let data := params req in
  errataid ← sub data "errataid";
  _ ← call "add_errata" [VStr id; errataid] [];
  mret (answer (ok (VBool true))).

Definition delete_errata (req : Req) (id : string) : H Db Answer :=
  let data := params req in
  errataid ← sub data "errataid";
  _ ← call "delete_errata" [VStr id; errataid] [];
  mret (answer (ok (VBool true))).

Definition add_file (req : Req) (id : string) : H Db Answer :=
  let data := params req in
  fileids ← sub data "fileids";
  _ ← call "add_file" [VStr id; fileids] [];
  mret (answer (ok (VBool true))).

Definition remove_file (req : Req) (id : string) : H Db Answer :=
  let data := params req in
  fileids ← sub data "fileids";
  _ ← call "remove_file" [VStr id; fileids] [];
  mret (answer (ok (VBool true))).

Definition addkeys (req : Req) (id : string) : H Db Answer :=
  let data := params req in
  keylist ← sub data "keylist";
  _ ← call "addkeys" [VStr id; keylist] [];
  mret (answer (ok (VBool true))).

Definition get_package_by_nvrea (req : Req) (id : string) : H Db Answer :=
  let data := params req in
  nvrea ← sub data "nvrea";
  r ← call "get_packages_by_nvrea" [VStr id; nvrea] [];
  mret (answer (ok r)).

Definition get_package_by_filename (req : Req) (id : string) : H Db Answer :=
  let data := params req in
  filename ← sub data "filename";
  r ← call "get_packages_by_filename" [VStr id; filename] [];
  mret (answer (ok r)).

Definition rmkeys (req : Req) (id : string) : H Db Answer :=
  let data := params req in
  keylist ← sub data "keylist";
  _ ← call "rmkeys" [VStr id; keylist] [];
  mret (answer (ok (VBool true))).

Definition add_filters (req : Req) (id : string) : H Db Answer :=
  let data := params req in
  filter_ids ← sub data "filters";
  _ ← call "add_filters" [] [("id", VStr id); ("filter_ids", filter_ids)];
  mret (answer (ok (VBool true))).

Definition remove_filters (req : Req) (id : string) : H Db Answer :=
  let data := params req in
  filter_ids ← sub data "filters";
  _ ← call "remove_filters" [] [("id", VStr id); ("filter_ids", filter_ids)];
  mret (answer (ok (VBool true))).

Definition add_group (req : Req) (id : string) : H Db Answer :=
  let data := params req in
  addgrp ← sub data "addgrp";
  _ ← call "add_group" [] [("id", VStr id); ("addgrp", addgrp)];
  mret (answer (ok (VBool true))).

Definition remove_group (req : Req) (id : string) : H Db Answer :=
  let data := params req in
  rmgrp ← sub data "rmgrp";
  _ ← call "remove_group" [] [("id", VStr id); ("rmgrp", rmgrp)];
  mret (answer (ok (VBool true))).

Definition update_publish (req : Req) (id : string) : H Db Answer :=
  let data := params req in
  state ← sub data "state";
  r ← call "publish" [VStr id; VBool (truthy state)] [];
  mret (answer (ok r)).

(** The body of a [def] of the class, for the methods other than [sync]
    and [clone]. *)
Definition body (m : Method) : option (Req → string → H Db Answer) :=
  match m with
  | def_sync | def_clone => None
  | def_upload => Some upload
  | def_add_package => Some add_package
  | def_delete_package => Some delete_package
  | def_get_package => Some get_package
  | def_add_packages_to_group => Some add_packages_to_group
  | def_delete_package_from_group => Some delete_package_from_group
  | def_create_packagegroup => Some create_packagegroup
  | def_import_comps => Some import_comps
  | def_delete_packagegroup => Some delete_packagegroup
  | def_create_packagegroupcategory => Some create_packagegroupcategory
  | def_delete_packagegroupcategory => Some delete_packagegroupcategory
  | def_add_packagegroup_to_category => Some add_packagegroup_to_category
  | def_delete_packagegroup_from_category =>
      Some delete_packagegroup_from_category
  | def_add_errata => Some add_errata
  | def_delete_errata => Some delete_errata
  | def_add_file => Some add_file
  | def_remove_file => Some remove_file
  | def_addkeys => Some addkeys
  | def_get_package_by_nvrea => Some get_package_by_nvrea
  | def_get_package_by_filename => Some get_package_by_filename
  | def_rmkeys => Some rmkeys
  | def_add_filters => Some add_filters
  | def_remove_filters => Some remove_filters
  | def_add_group => Some add_group
  | def_remove_group => Some remove_group
  | def_update_publish => Some update_publish
  end.
End Handlers.
End Actions.

(** ** Notions used in the statements about the other controllers *)

(** The parameters an action tests for, in the order it tests them, each
    with the message of the answer when it is not there. *)
Definition tested_parameters (m : Method) : list (string * string) :=
  match m with
  | def_add_packages_to_group =>
      [("groupid", "No groupid specified");
       ("packagenames", "No package name specified")]
  | def_delete_package_from_group =>
      [("groupid", "No groupid specified");
       ("name", "No package name specified")]
  | def_create_packagegroup =>
      [("groupid", "No groupid specified");
       ("groupname", "No groupname specified");
       ("description", "No description specified")]
  | def_delete_packagegroup => [("groupid", "No groupid specified")]
  | def_create_packagegroupcategory =>
      [("categoryid", "No categoryid specified");
       ("categoryname", "No categoryname specified");
       ("description", "No description specified")]
  | def_delete_packagegroupcategory =>
      [("categoryid", "No categoryid specified")]
  | def_add_packagegroup_to_category
  | def_delete_packagegroup_from_category =>
      [("categoryid", "No categoryid specified");
       ("groupid", "No groupid specified")]
  | _ => []
  end.

(** The parameters an action subscripts without testing for them, in the
    order it reads them. *)
Definition subscripted_parameters (m : Method) : list string :=
  match m with
  | def_upload => ["pkginfo"; "pkgstream"]
  | def_add_package => ["packageid"]
  | def_delete_package => ["package"]
  | def_add_errata | def_delete_errata => ["errataid"]
  | def_add_file | def_remove_file => ["fileids"]
  | def_addkeys | def_rmkeys => ["keylist"]
  | def_get_package_by_nvrea => ["nvrea"]
  | def_get_package_by_filename => ["filename"]
  | def_add_filters | def_remove_filters => ["filters"]
  | def_add_group => ["addgrp"]
  | def_remove_group => ["rmgrp"]
  | def_update_publish => ["state"]
  | _ => []
  end.

(** The first of a list of keys that a dict does not have. *)
Definition first_absent {A} (p : gmap string Value) (key : A → string)
    (l : list A) : option A :=
  snd <$> list_find (λ a, p !! key a = None) l.

(** An API call is about the repository [id] when [id] is its first
    argument or its [id] keyword. *)
Definition about (id : string) (i : Invocation) : Prop :=
  head (inv_args i) = Some (VStr id)
  ∨ (inv_args i = [] ∧ head (inv_kwargs i) = Some ("id", VStr id)).

(** The calls a run added. *)
Definition new_invocations {Db} (s s' : Session Db) : list Invocation :=
  drop (length (invoked s)) (invoked s').

(** The entry [Repositories.GET] makes of a document that has the id [i]
    and the files [fl], when the repository has [count] packages. *)
Definition listing {Db Req} `{!Services Db Req} (req : Req) (count : Value)
    (i : string) (fl : list Value) (d : gmap string Value)
  : gmap string Value :=
  foldl (λ repo field,
           <[field := VStr (extend_uri_path req (VStr (i +:+ "/" +:+ field)))]>
             repo)
        (<["files_count" := VInt (Z.of_nat (length fl))]>
        (<["package_count" := count]>
        (<["uri_ref" := VStr (extend_uri_path req (VStr i))]> d)))
        RepositoryDeferredFields.exposed_fields.

(** A document [Repositories.GET] can list: it has a string [id] and a
    list of [files]. *)
Definition listable (d : gmap string Value) : option (string * list Value) :=
  match d !! "id", d !! "files" with
  | Some (VStr i), Some (VList fl) => Some (i, fl)
  | _, _ => None
  end.

(** No two rows hold the same value, other than NULL, in a column. *)
Definition distinct_in (col : string) (rows : list (gmap string Migration.Cell))
  : Prop :=
  ∀ i j r r' v,
    rows !! i = Some r → rows !! j = Some r' →
    r !! col = Some v → r' !! col = Some v → v ≠ Migration.NULL → i = j.

(** No row refers to a task that is not there. *)
Definition no_dangling (db : Migration.Database) : Prop :=
  Forall (λ r, Migration.follow db "last_task" r ≠ Migration.DoesNotExist)
         (Migration.rows db).

(** ** A reference implementation of the services *)

(** Modelled from the spec: a small instance of the services, over the
    resource store of [Reference]: [create] stores a document, [update]
    merges a delta into one, [get_packages] raises for a repository that
    is not there, and the other methods return [None].  The general
    statements do not depend on it; it gives them inputs to run on. *)
Module Demo.

Definition document (id name arch : Value) (kwargs : list (string * Value))
  : gmap string Value :=
  <["id" := id]> (<["name" := name]> (<["arch" := arch]>
  (<["source" := default VNone (kwargs.*2 !! 0)]>
  (<["files" := VList []]> ∅)))).

Definition invoke (name : string) (args : list Value)
    (kwargs : list (string * Value))
    (w : World (gmap string (gmap string Value)))
  : Result Value * World (gmap string (gmap string Value)) :=
  if bool_decide (name = "repositories") then
    (Done (VList (VDict <$> (map_to_list (db w)).*2)), w)
  else if bool_decide (name = "package_count") then (Done (VInt 0), w)
  else if bool_decide (name = "create") then
    match args with
    | [VStr id; name; arch] =>
        let doc := document (VStr id) name arch kwargs in
        (Done (VDict doc), mkWorld (<[id := doc]> (db w)) (tasks w))
    | _ => (Failed PulpException, w)
    end
  else if bool_decide (name = "update") then
    match args with
    | [VStr id; VDict delta] =>
        (Done VNone, mkWorld (alter (λ doc, delta ∪ doc) id (db w)) (tasks w))
    | _ => (Failed PulpException, w)
    end
  else if bool_decide (name = "get_packages") then
    match args with
    | VStr id :: _ =>
        if bool_decide (is_Some (db w !! id)) then (Done (VList []), w)
        else (Failed PulpException, w)
    | _ => (Failed PulpException, w)
    end
  else (Done VNone, w).

#[global] Instance services
  : Services (gmap string (gmap string Value)) Reference.Req := {
  api_invoke := invoke;
  filters req valid :=
    match valid with
    | VList l => filter (λ kv, str_in kv.1 l = true) (Reference.data req)
    | _ => ∅
    end;
  filters_to_re_spec d := VDict d;
  extend_uri_path _ v :=
    match v with
    | VStr s => "/pulp/api/repositories/" +:+ s +:+ "/"
    | _ => "/pulp/api/repositories/"
    end;
  uri_path _ := "/pulp/api/repositories/";
  resource_path p := VStr p;
  grant_permissions _ w := (Done tt, w);
  inherited_field _ := None
}.

(** A session on the store of [Reference], with no call made yet. *)
Definition s0 : Session (gmap string (gmap string Value)) :=
  mkSession (mkWorld Reference.store []) [].

(** A store in which [repo-a] has three files. *)
Definition s3 : Session (gmap string (gmap string Value)) :=
  mkSession
    (mkWorld (<["repo-a" := <["files" := VList [VStr "f1"; VStr "f2"; VStr "f3"]]>
                              Reference.repo_a]> ∅) []) [].

Definition body (d : gmap string Value) : Reference.Req := Reference.mkReq d.
End Demo.

(** * Properties *)

(** ** Running a handler step by step *)

Section Steps.
Context {Db Req : Type} `{!Collaborators Db Req}.

Lemma new_calls_app (st : St Db) (w : World Db) (l : list Call) :
  new_calls st (mkSt w (calls st ++ l)) = l.
Proof. unfold new_calls. simpl. by rewrite drop_app_length. Qed.

Lemma bind_ret {A B} (a : A) (k : A → M Db B) (st : St Db) :
  (mret a ≫= k) st = k a st.
Proof. reflexivity. Qed.

Lemma bind_raise {A B} (e : PyExn) (k : A → M Db B) (st : St Db) :
  (raise e ≫= k) st = (Raise e, st).
Proof. reflexivity. Qed.

Lemma bind_repository {B} id fields (k : _ → M Db B) (st : St Db) :
  (repository id fields ≫= k) st =
  k (api_repository id fields (world st))
    (mkSt (world st) (calls st ++ [call_repository id fields])).
Proof. reflexivity. Qed.

Lemma bind_read_params {B} (req : Req) (k : _ → M Db B) (st : St Db) :
  (read_params req ≫= k) st =
  k (params req) (mkSt (world st) (calls st ++ [call_params])).
Proof. reflexivity. Qed.

Lemma bind_read_timeout {B} (req : Req) p (k : _ → M Db B) (st : St Db) :
  (read_timeout req p ≫= k) st =
  k (timeout req p) (mkSt (world st) (calls st ++ [call_timeout])).
Proof. reflexivity. Qed.

Lemma bind_run_sync {B} id tmo skip (k : _ → M Db B) (st : St Db) :
  (run_sync id tmo skip ≫= k) st =
  k (api_sync id tmo skip (world st)).1
    (mkSt (api_sync id tmo skip (world st)).2
          (calls st ++ [call_sync id tmo skip
                          (api_sync id tmo skip (world st)).1])).
Proof.
  unfold mbind, M_bind, run_sync.
  by destruct (api_sync id tmo skip (world st)).
Qed.

Lemma bind_logged {B} c (k : unit → M Db B) (st : St Db) :
  (logged c ≫= k) st = k tt (mkSt (world st) (calls st ++ [c])).
Proof. reflexivity. Qed.

Lemma bind_get_world {B} (k : World Db → M Db B) (st : St Db) :
  (get_world ≫= k) st = k (world st) st.
Proof. reflexivity. Qed.

Lemma bind_subscript {B} d key (k : Value → M Db B) (st : St Db) :
  (subscript d key ≫= k) st =
  match d !! key with
  | Some v => k v st
  | None => (Raise (KeyError key), st)
  end.
Proof. unfold subscript. by destruct (d !! key). Qed.
End Steps.

(** ** The action dispatcher *)

Section Dispatch.
Context {Db Req : Type} `{!Collaborators Db Req}.
Import RepositoryActions.

(** C6.  POSTing any action, in particular any exposed one, on a
    repository id for which [api.repository] finds nothing answers 404
    Not Found; the run consists of that one lookup: no action is
    called, the server state is as before and no task is created. *)
Theorem POST_unknown_repository (req : Req) (id action_name : string)
    (st : St Db) :
  api_repository (VStr id) ["id"] (world st) = None →
  ∃ r st',
    POST req id action_name st = (Return r, st')
    ∧ status_code (status r) = 404%Z
    ∧ world st' = world st
    ∧ new_calls st st' = [call_repository (VStr id) ["id"]]
    ∧ (call_action id ∉ new_calls st st')
    ∧ created_tasks (new_calls st st') = [].
Proof.
  intros Hrepo. unfold POST. rewrite bind_repository, Hrepo. simpl.
  eexists _, _. split; [reflexivity|]. rewrite new_calls_app.
  repeat split; try done.
  intros Hin. apply list_elem_of_singleton in Hin. discriminate.
Qed.

(** C9.  On the same request and server state, POSTing [_sync] and
    POSTing [sync] are the same computation: same response (or
    exception), same resulting state, same calls. *)
Theorem POST__sync_is_POST_sync (req : Req) (id : string) (st : St Db) :
  getattr "_sync" = Some _sync
  ∧ getattr "sync" = Some sync
  ∧ _sync = sync
  ∧ POST req id "_sync" st = POST req id "sync" st.
Proof. repeat split. Qed.

(** C10.  Every name in [exposed_actions] is bound in the class body to
    one of its [def]s, so [getattr] finds that method.  A POST of an
    exposed action therefore either answers 404 Not Found, when there is
    no such repository, or calls the method: it never takes the
    "No implementation for %s found" branch. *)
Theorem exposed_actions_are_implemented (action_name : string) :
  action_name ∈ exposed_actions →
  ∃ m : Method,
    namespace !! action_name = Some (attr_def m)
    ∧ getattr action_name = Some (method m)
    ∧ ∀ (req : Req) (id : string) (st : St Db),
        POST req id action_name st =
        let st' := mkSt (world st)
                        (calls st ++ [call_repository (VStr id) ["id"]]) in
        if falsy (api_repository (VStr id) ["id"] (world st)) then
          (Return (not_found "No repository with id %s found" [VStr id]), st')
        else
          method m req id (mkSt (world st') (calls st' ++ [call_action id])).
Proof.
  intros Hin.
  assert (∃ m, namespace !! action_name = Some (attr_def m)) as [m Hm].
  { unfold exposed_actions in Hin.
    repeat (apply elem_of_cons in Hin as [->|Hin];
            [eexists; vm_compute; reflexivity|]).
    by apply elem_of_nil in Hin. }
  exists m. split; [exact Hm|].
  assert (getattr action_name = Some (method m)) as Hget.
  { unfold getattr. by rewrite Hm. }
  split; [exact Hget|].
  intros req id st. unfold POST. rewrite bind_repository.
  destruct (falsy _); [reflexivity|]. by rewrite Hget, bind_logged.
Qed.
End Dispatch.

(** ** [sync] *)

Section Sync.
Context {Db Req : Type} `{!Collaborators Db Req}.
Import RepositoryActions.

(** The runs of [sync], path by path. *)
Lemma sync_run (req : Req) (id : string) (st : St Db) :
  sync req id st =
  let lookup := call_repository (VStr id) ["source"] in
  match api_repository (VStr id) ["source"] (world st) with
  | None =>
      (Raise (TypeError "'NoneType' object is not subscriptable"),
       mkSt (world st) (calls st ++ [lookup]))
  | Some repo =>
      match repo !! "source" with
      | None =>
          (Raise (KeyError "source"), mkSt (world st) (calls st ++ [lookup]))
      | Some VNone =>
          (Return (not_acceptable
             "Repo [%s] is not setup for sync. Please add packages using upload."
             [VStr id]),
           mkSt (world st) (calls st ++ [lookup]))
      | Some _ =>
          let r := api_sync id (sync_timeout req) (sync_skip req) (world st) in
          (Return (sync_response req id r.1),
           mkSt r.2
                (calls st ++
                 [lookup; call_params; call_timeout;
                  call_sync id (sync_timeout req) (sync_skip req) r.1]))
      end
  end.
Proof.
  unfold sync. rewrite bind_repository.
  destruct (api_repository _ _ _) as [repo|]; [|reflexivity].
  rewrite bind_subscript.
  destruct (repo !! "source") as [src|]; [|reflexivity].
  assert (∀ k : M Db Response,
    k (mkSt (world st) (calls st ++ [call_repository (VStr id) ["source"]]))
    = (read_params req ≫= λ repo_params,
       read_timeout req repo_params ≫= λ timeout,
       run_sync id timeout (dict_get repo_params "skip" (VDict ∅)) ≫= λ task,
       match task with
       | None => mret (conflict "Sync already in process for repo [%s]" [VStr id])
       | Some task =>
           mret (accepted (VDict (<["status_path" :=
                    _status_path req (task_id task)]> (_task_to_dict task))))
       end)
      (mkSt (world st) (calls st ++ [call_repository (VStr id) ["source"]]))
    → k (mkSt (world st) (calls st ++ [call_repository (VStr id) ["source"]]))
      = (let r := api_sync id (sync_timeout req) (sync_skip req) (world st) in
         (Return (sync_response req id r.1),
          mkSt r.2
            (calls st ++
             [call_repository (VStr id) ["source"]; call_params; call_timeout;
              call_sync id (sync_timeout req) (sync_skip req) r.1])))) as Hrest.
  { intros k ->.
    rewrite bind_read_params, bind_read_timeout, bind_run_sync. simpl.
    unfold sync_timeout, sync_skip, sync_response.
    rewrite <- !app_assoc. simpl.
    by destruct (api_sync _ _ _ _).1. }
  destruct src; first [reflexivity | by apply Hrest].
Qed.

(** C1, as amended.  For a repository that has a source, [sync] looks the
    repository up, reads the parameters and the timeout and calls
    [api.sync].  If the call yields no task (a conflicting sync is active)
    the response is 409 Conflict and the run has created no task; if it
    yields a task the response is 202 Accepted and its body is a document
    holding the task's id and a [status_path].  Either way the state left
    is the one [api.sync] left. *)
Theorem sync_conflict_or_accepted (req : Req) (id : string) (st : St Db)
    (repo : gmap string Value) (src : Value)
    (yielded : option Task) (w' : World Db) :
  api_repository (VStr id) ["source"] (world st) = Some repo →
  repo !! "source" = Some src →
  src ≠ VNone →
  api_sync id (sync_timeout req) (sync_skip req) (world st) = (yielded, w') →
  ∃ r st',
    sync req id st = (Return r, st')
    ∧ world st' = w'
    ∧ new_calls st st' =
        [call_repository (VStr id) ["source"]; call_params; call_timeout;
         call_sync id (sync_timeout req) (sync_skip req) yielded]
    ∧ created_tasks (new_calls st st') = option_list yielded
    ∧ match yielded with
      | None => status_code (status r) = 409%Z
      | Some task =>
          status_code (status r) = 202%Z
          ∧ ∃ d, body r = Json (VDict d)
                 ∧ d = <["status_path" := _status_path req (task_id task)]>
                         (_task_to_dict task)
                 ∧ d !! "id" = Some (VStr (task_id task))
                 ∧ d !! "status_path" = Some (_status_path req (task_id task))
      end.
Proof.
  intros Hrepo Hsrc Hsome Hsync. rewrite sync_run, Hrepo, Hsrc, Hsync.
  cbn [fst snd].
  assert (created_tasks
            [call_repository (VStr id) ["source"]; call_params; call_timeout;
             call_sync id (sync_timeout req) (sync_skip req) yielded]
          = option_list yielded) as Hcreated by (by destruct yielded).
  destruct src; try done;
    (eexists _, _; split; [reflexivity|]; rewrite new_calls_app;
     split; [done|split; [done|split; [exact Hcreated|]]];
     destruct yielded as [task|]; [|done]; split; [done|];
     eexists; split; [reflexivity|]; split; [reflexivity|]; split;
     [rewrite lookup_insert_ne by done; apply lookup_insert_eq
     |apply lookup_insert_eq]).
Qed.

(** C2.  For a repository whose [source] is [None], [sync] answers 406
    Not Acceptable after the one lookup of the repository: the request
    parameters are not read, [api.sync] is not called, the server state
    is as before and no task is created.  Conversely a run of [sync] in
    which the parameters or the timeout are read, or [api.sync] is
    called, is a run on a repository that has a source. *)
Theorem sync_requires_source (req : Req) (id : string) (st : St Db) :
  (∀ repo,
     api_repository (VStr id) ["source"] (world st) = Some repo →
     repo !! "source" = Some VNone →
     ∃ r st',
       sync req id st = (Return r, st')
       ∧ status_code (status r) = 406%Z
       ∧ world st' = world st
       ∧ new_calls st st' = [call_repository (VStr id) ["source"]]
       ∧ created_tasks (new_calls st st') = [])
  ∧ (∀ c,
       c ∈ new_calls st (sync req id st).2 →
       c = call_params ∨ c = call_timeout
       ∨ (∃ i t s y, c = call_sync i t s y) →
       ∃ repo src,
         api_repository (VStr id) ["source"] (world st) = Some repo
         ∧ repo !! "source" = Some src
         ∧ src ≠ VNone).
Proof.
  split.
  - intros repo Hrepo Hsrc. rewrite sync_run, Hrepo, Hsrc. simpl.
    eexists _, _. split; [reflexivity|]. by rewrite new_calls_app.
  - intros c. rewrite sync_run.
    assert (c ∈ [call_repository (VStr id) ["source"]] →
            c = call_params ∨ c = call_timeout
            ∨ (∃ i t s y, c = call_sync i t s y) → False) as Hlookup.
    { intros Hin%list_elem_of_singleton [->|[->|(?&?&?&?&->)]];
        discriminate. }
    destruct (api_repository _ _ _) as [repo|] eqn:Hrepo; cbn [snd];
      [|rewrite new_calls_app; intros Hin Hc; destruct (Hlookup Hin Hc)].
    destruct (repo !! "source") as [src|] eqn:Hsrc; cbn [snd];
      [|rewrite new_calls_app; intros Hin Hc; destruct (Hlookup Hin Hc)].
    destruct src; cbn [snd]; rewrite new_calls_app; intros Hin Hc;
      try (by destruct (Hlookup Hin Hc));
      (eexists _, _; split; [reflexivity|]; split; [exact Hsrc|];
       discriminate).
Qed.
End Sync.

(** ** [clone] *)

Section Clone.
Context {Db Req : Type} `{!Collaborators Db Req}.
Import RepositoryActions.

(** C5, as amended.  [clone] answers 404 Not Found when [api.repository]
    finds no repository for the id, and 409 Conflict when it finds one
    for the id and one for the requested [clone_id].  In both cases the
    run reads the parameters and looks repositories up, and that is
    all: [api.clone] is not called, the server state is as before and no
    task is created. *)
Theorem clone_rejections (req : Req) (id : string) (st : St Db) :
  (api_repository (VStr id) default_fields (world st) = None →
   ∃ r st',
     clone req id st = (Return r, st')
     ∧ status_code (status r) = 404%Z
     ∧ world st' = world st
     ∧ new_calls st st' =
         [call_params; call_repository (VStr id) default_fields]
     ∧ Forall (λ c, is_call_clone c = false) (new_calls st st')
     ∧ created_tasks (new_calls st st') = [])
  ∧ (∀ repo clone_id existing,
       api_repository (VStr id) default_fields (world st) = Some repo →
       params req !! "clone_id" = Some clone_id →
       api_repository clone_id default_fields (world st) = Some existing →
       ∃ r st',
         clone req id st = (Return r, st')
         ∧ status_code (status r) = 409%Z
         ∧ world st' = world st
         ∧ new_calls st st' =
             [call_params; call_repository (VStr id) default_fields;
              call_repository clone_id default_fields]
         ∧ Forall (λ c, is_call_clone c = false) (new_calls st st')
         ∧ created_tasks (new_calls st st') = []).
Proof.
  split.
  - intros Hrepo. unfold clone.
    rewrite bind_read_params, bind_repository. cbn [world calls].
    rewrite Hrepo. cbn [mret M_ret].
    eexists _, _. split; [reflexivity|].
    rewrite <- app_assoc, new_calls_app. cbn [app].
    repeat split; try done. by repeat constructor.
  - intros repo clone_id existing Hrepo Hid Hexisting. unfold clone.
    rewrite bind_read_params, bind_repository. cbn [world calls].
    rewrite Hrepo, bind_subscript, Hid, bind_repository. cbn [world calls].
    rewrite Hexisting, bind_subscript, Hid. cbn [mret M_ret].
    eexists _, _. split; [reflexivity|].
    rewrite <- !app_assoc, new_calls_app. cbn [app].
    repeat split; try done. by repeat constructor.
Qed.
End Clone.

(** ** Task status and cancellation *)

Section Status.
Context {Db Req : Type} `{!Collaborators Db Req}.
Import RepositoryActionStatus.

Lemma find_task_None (action_id : string) (w : World Db) :
  find_task action_id w = None ↔
  Forall (λ t, task_id t ≠ action_id) (tasks w).
Proof.
  unfold find_task. rewrite fmap_None. apply list_find_None.
Qed.

Lemma find_task_Some (action_id : string) (w : World Db) (i : nat) :
  find_task action_id w = Some i ↔
  ∃ t, tasks w !! i = Some t ∧ task_id t = action_id
       ∧ ∀ j t', tasks w !! j = Some t' → j < i → task_id t' ≠ action_id.
Proof.
  unfold find_task. rewrite fmap_Some. split.
  - intros [[i' t] [Hfind ->]]. apply list_find_Some in Hfind. eauto.
  - intros (t & Hfind). exists (i, t). split; [|done].
    by apply list_find_Some.
Qed.

Lemma find_task_is_Some (action_id : string) (w : World Db) (t : Task) :
  t ∈ tasks w → task_id t = action_id → is_Some (find_task action_id w).
Proof.
  intros Hin Hid. destruct (find_task action_id w) eqn:Hnone; [done|].
  apply find_task_None in Hnone. rewrite Forall_forall in Hnone.
  destruct (Hnone t Hin Hid).
Qed.

(** Canceling a task does not change which task an id finds. *)
Lemma find_task_canceled (action_id : string) (st : St Db) (i : nat) :
  find_task action_id (world st) = Some i →
  find_task action_id (world (canceled i st)) = Some i.
Proof.
  intros (t & Hi & Hid & Hfirst)%find_task_Some. apply find_task_Some.
  exists (set_state CANCELED t). simpl. split; [|split; [done|]].
  - by rewrite list_lookup_alter_eq, Hi.
  - intros j t' Hj Hlt. rewrite list_lookup_alter_ne in Hj by lia. eauto.
Qed.
End Status.

Section Cancel.
Context {Db Req : Type} `{!Collaborators Db Req}.
Import RepositoryActionStatus.

(** C4.  The status query answers 404 Not Found, with a message and no
    record, when no task of the queue has the id; when some task has it,
    the answer is 200 OK with the record of the task that id finds, whose
    [id] field is the id asked for.  The query changes nothing. *)
Theorem status_GET_found_or_404 (req : Req)
    (id action_name action_id : string) (st : St Db) :
  (Forall (λ t, task_id t ≠ action_id) (tasks (world st)) →
   ∃ r,
     GET req id action_name action_id st = (Return r, st)
     ∧ status_code (status r) = 404%Z
     ∧ body r = Message "No %s with id %s found"
                        [VStr action_name; VStr action_id])
  ∧ (∀ t,
       t ∈ tasks (world st) → task_id t = action_id →
       ∃ i t0,
         find_task action_id (world st) = Some i
         ∧ tasks (world st) !! i = Some t0
         ∧ task_id t0 = action_id
         ∧ GET req id action_name action_id st
           = (Return (mkResponse OK (Json (VDict (_task_to_dict t0)))), st)
         ∧ status_code OK = 200%Z
         ∧ _task_to_dict t0 !! "id" = Some (VStr action_id)).
Proof.
  unfold GET. rewrite bind_get_world. unfold task_status. split.
  - intros Hnone%find_task_None. rewrite Hnone. simpl. by eexists.
  - intros t Hin Hid.
    destruct (find_task_is_Some _ _ _ Hin Hid) as [i Hi].
    pose proof Hi as (t0 & Ht0 & Hid0 & _)%find_task_Some.
    exists i, t0. rewrite Hi. simpl. rewrite Ht0. simpl.
    repeat split; try done.
    unfold _task_to_dict. by rewrite lookup_insert_eq, Hid0.
Qed.

Lemma DELETE_not_found (req : Req) (id action_name action_id : string)
    (st : St Db) :
  find_task action_id (world st) = None →
  DELETE req id action_name action_id st
  = (Return (not_found "No %s with id %s found"
                       [VStr action_name; VStr action_id]), st).
Proof. intros Hnone. unfold DELETE. by rewrite bind_get_world, Hnone. Qed.

Lemma DELETE_cancels (req : Req) (id action_name action_id : string)
    (st : St Db) (i : nat) (t : Task) :
  find_task action_id (world st) = Some i →
  tasks (world st) !! i = Some t →
  task_complete (state t) = false →
  DELETE req id action_name action_id st
  = (Return (accepted (VDict (_task_to_dict (set_state CANCELED t)))),
     canceled i st).
Proof.
  intros Hi Ht Hstate. unfold DELETE. rewrite bind_get_world, Hi.
  unfold mbind, M_bind, cancel_task, deref. rewrite Ht, Hstate.
  cbn [world tasks]. by rewrite list_lookup_alter_eq, Ht.
Qed.

Lemma DELETE_complete (req : Req) (id action_name action_id : string)
    (st : St Db) (i : nat) (t : Task) :
  find_task action_id (world st) = Some i →
  tasks (world st) !! i = Some t →
  task_complete (state t) = true →
  DELETE req id action_name action_id st = (Return no_content, st).
Proof.
  intros Hi Ht Hstate. unfold DELETE. rewrite bind_get_world, Hi.
  unfold mbind, M_bind, cancel_task. by rewrite Ht, Hstate.
Qed.

(** C3.  Canceling has three outcomes.  If no task of the queue has the
    id: 404 Not Found, nothing changes.  If the task the id finds is
    [QUEUED] or [RUNNING]: it is canceled and the answer is 202 Accepted
    with the record of the task as it is after that; canceling it again
    is then answered 204 No Content and changes nothing.  If the task is
    [FINISHED], [FAILED] or [CANCELED]: 204 No Content, nothing
    changes. *)
Theorem DELETE_outcomes (req : Req) (id action_name action_id : string)
    (st : St Db) :
  (Forall (λ t, task_id t ≠ action_id) (tasks (world st)) →
   ∃ r,
     DELETE req id action_name action_id st = (Return r, st)
     ∧ status_code (status r) = 404%Z)
  ∧ (∀ i t,
       find_task action_id (world st) = Some i →
       tasks (world st) !! i = Some t →
       state t = QUEUED ∨ state t = RUNNING →
       DELETE req id action_name action_id st
       = (Return (mkResponse Accepted
                    (Json (VDict (_task_to_dict (set_state CANCELED t))))),
          canceled i st)
       ∧ status_code Accepted = 202%Z
       ∧ tasks (world (canceled i st)) !! i = Some (set_state CANCELED t)
       ∧ DELETE req id action_name action_id (canceled i st)
         = (Return (mkResponse NoContent NoBody), canceled i st))
  ∧ (∀ i t,
       find_task action_id (world st) = Some i →
       tasks (world st) !! i = Some t →
       state t = FINISHED ∨ state t = FAILED ∨ state t = CANCELED →
       DELETE req id action_name action_id st
       = (Return (mkResponse NoContent NoBody), st)
       ∧ status_code NoContent = 204%Z)
  ∧ (∃ r st',
       DELETE req id action_name action_id st = (Return r, st')
       ∧ (status_code (status r) = 404%Z
          ∨ status_code (status r) = 202%Z
          ∨ status_code (status r) = 204%Z)).
Proof.
  split; [|split; [|split]].
  - intros Hnone%find_task_None. rewrite DELETE_not_found by done.
    by eexists.
  - intros i t Hi Ht Hstate.
    assert (tasks (world (canceled i st)) !! i = Some (set_state CANCELED t))
      as Ht'.
    { simpl. by rewrite list_lookup_alter_eq, Ht. }
    split; [|split; [done|split; [done|]]].
    + apply DELETE_cancels; [done..|]. by destruct Hstate as [->| ->].
    + by apply (DELETE_complete _ _ _ _ _ i (set_state CANCELED t));
        [apply find_task_canceled|..].
  - intros i t Hi Ht Hstate. split; [|done].
    apply (DELETE_complete _ _ _ _ _ i t); [done..|].
    by destruct Hstate as [->|[->| ->]].
  - destruct (find_task action_id (world st)) as [i|] eqn:Hi.
    + pose proof Hi as (t & Ht & _)%find_task_Some.
      destruct (task_complete (state t)) eqn:Hstate.
      * rewrite (DELETE_complete _ _ _ _ _ i t) by done.
        eexists _, _. split; [done|]. by right; right.
      * rewrite (DELETE_cancels _ _ _ _ _ i t) by done.
        eexists _, _. split; [done|]. by right; left.
    + rewrite DELETE_not_found by done.
      eexists _, _. split; [done|]. by left.
Qed.
End Cancel.

(** ** Task history *)

Section History.
Context {Db Req : Type} `{!Collaborators Db Req}.
Import RepositoryActions.

Lemma str_in_spec (s : string) (l : list Value) :
  str_in s l = true ↔ VStr s ∈ l.
Proof.
  unfold str_in. rewrite existsb_exists. split.
  - intros (v & Hin%list_elem_of_In & Heq). destruct v; try discriminate.
    simpl in Heq. by apply bool_decide_eq_true in Heq as ->.
  - intros Hin. exists (VStr s). split; [by apply list_elem_of_In|].
    simpl. by apply bool_decide_eq_true.
Qed.

Lemma truthy_of_elem {A} (x : A) (l : list A) : x ∈ l → list_truthy l = true.
Proof. by intros [|]. Qed.

Lemma mentions_spec (id : string) (t : Task) :
  mentions id t = true ↔
  VStr id ∈ args t ∨ ∃ k, kwargs t !! k = Some (VStr id).
Proof.
  unfold mentions, dict_truthy.
  rewrite orb_true_iff, !andb_true_iff, !str_in_spec. split.
  - intros [[_ Hin]|[_ Hin]]; [by left|right].
    apply list_elem_of_fmap in Hin as ([k v] & -> & Hin).
    exists k. by apply elem_of_map_to_list.
  - intros [Hin|[k Hk]]; [left|right].
    + split; [|done]. by eapply truthy_of_elem.
    + apply elem_of_map_to_list in Hk. split.
      * by eapply truthy_of_elem.
      * apply list_elem_of_fmap. by exists (k, VStr id).
Qed.

Lemma syncedb_spec (id : string) (t : Task) :
  syncedb id t = true ↔ synced id t.
Proof.
  unfold syncedb, synced, by_method_name.
  by rewrite andb_true_iff, bool_decide_eq_true, mentions_spec.
Qed.

#[local] Instance created_le_total : Total created_le.
Proof. intros a b. unfold created_le. lia. Qed.

#[local] Instance created_le_trans : Transitive created_le.
Proof. intros a b c. unfold created_le. lia. Qed.

Lemma StronglySorted_filter {A} (R : relation A) (P : A → Prop)
    `{!∀ x, Decision (P x)} (l : list A) :
  StronglySorted R l → StronglySorted R (filter P l).
Proof.
  induction 1 as [|x l Hl IH Hx]; [constructor|].
  rewrite filter_cons. destruct (decide (P x)); [|done].
  constructor; [done|].
  rewrite Forall_forall in Hx |- *.
  intros y [_ Hy]%list_elem_of_filter. by apply Hx.
Qed.

Lemma filter_filter_and {A} (P Q : A → bool) (l : list A) :
  filter (λ x, P x = true) (filter (λ x, Q x = true) l)
  = filter (λ x, Q x && P x = true) l.
Proof.
  induction l as [|x l IH]; [done|].
  rewrite !filter_cons. destruct (Q x) eqn:HQ; simpl.
  - rewrite filter_cons. by destruct (decide (P x = true)); rewrite IH.
  - exact IH.
Qed.

(** The history holds the tasks that ran [_sync] on the repository, each
    as often as the queue does. *)
Lemma sync_history_Permutation (id : string) (w : World Db) :
  sync_history id w ≡ₚ filter (λ t, syncedb id t = true) (tasks w).
Proof.
  unfold sync_history, find_async, syncedb.
  rewrite merge_sort_Permutation. by rewrite filter_filter_and.
Qed.

Lemma sync_history_spec (id : string) (w : World Db) (t : Task) :
  t ∈ sync_history id w ↔ t ∈ tasks w ∧ synced id t.
Proof.
  rewrite sync_history_Permutation, list_elem_of_filter, syncedb_spec. tauto.
Qed.

Lemma sync_history_sorted (id : string) (w : World Db) :
  StronglySorted created_le (sync_history id w).
Proof.
  apply StronglySorted_filter, StronglySorted_merge_sort; apply _.
Qed.

Lemma action_methods_lookup (action_name : string) :
  action_methods !! action_name =
  if bool_decide (action_name = "sync" ∨ action_name = "_sync")
  then Some "_sync" else None.
Proof.
  unfold action_methods. simpl. case_bool_decide as Hname.
  - destruct Hname as [->| ->]; reflexivity.
  - rewrite !lookup_insert_ne by (intros <-; tauto). apply lookup_empty.
Qed.

Lemma GET_run (req : Req) (id action_name : string) (st : St Db) :
  GET req id action_name st =
  (Return
     (if bool_decide (action_name = "sync" ∨ action_name = "_sync") then
        match sync_history id (world st) with
        | [] => not_found "No recent %s on repository %s found"
                          [VStr action_name; VStr id]
        | _ => ok (VList (history_entry req <$> sync_history id (world st)))
        end
      else not_found "No information for %s on repository %s"
                     [VStr action_name; VStr id]),
   st).
Proof.
  unfold GET. rewrite action_methods_lookup.
  case_bool_decide; [|reflexivity].
  rewrite bind_get_world. fold (sync_history id (world st)).
  by destruct (sync_history id (world st)).
Qed.

(** C7.  The history query answers 404 Not Found for every action name
    other than [sync] and [_sync].  For these two it selects the tasks of
    the queue whose method name is [_sync] and whose [args] hold the
    repository id or whose [kwargs] hold it as a value: each of them, as
    often as it is in the queue, and no other, as a sequence ordered by
    creation time; the answer is 200 OK with their entries in that order,
    or 404 Not Found when there is none.  The query changes nothing. *)
Theorem history_GET (req : Req) (id action_name : string) (st : St Db) :
  (∀ t, t ∈ sync_history id (world st) ↔ t ∈ tasks (world st) ∧ synced id t)
  ∧ sync_history id (world st)
    ≡ₚ filter (λ t, syncedb id t = true) (tasks (world st))
  ∧ (∀ t, syncedb id t = true ↔ synced id t)
  ∧ StronglySorted created_le (sync_history id (world st))
  ∧ (action_name ≠ "sync" → action_name ≠ "_sync" →
     ∃ r, GET req id action_name st = (Return r, st)
          ∧ status_code (status r) = 404%Z)
  ∧ (action_name = "sync" ∨ action_name = "_sync" →
     (∀ t, t ∈ tasks (world st) → ¬ synced id t) →
     ∃ r, GET req id action_name st = (Return r, st)
          ∧ status_code (status r) = 404%Z)
  ∧ (action_name = "sync" ∨ action_name = "_sync" →
     (∃ t, t ∈ tasks (world st) ∧ synced id t) →
     GET req id action_name st
     = (Return (mkResponse OK
          (Json (VList (history_entry req <$> sync_history id (world st))))),
        st)
     ∧ status_code OK = 200%Z).
Proof.
  split; [apply sync_history_spec|].
  split; [apply sync_history_Permutation|].
  split; [apply syncedb_spec|].
  split; [apply sync_history_sorted|].
  rewrite GET_run. split; [|split].
  - intros Hsync H_sync. rewrite bool_decide_eq_false_2 by tauto.
    by eexists.
  - intros Hname Hnone. rewrite bool_decide_eq_true_2 by done.
    destruct (sync_history id (world st)) as [|t l] eqn:Hhistory;
      [by eexists|].
    destruct (Hnone t); apply (sync_history_spec id (world st) t);
      rewrite Hhistory; apply list_elem_of_here.
  - intros Hname (t & Hin & Ht). rewrite bool_decide_eq_true_2 by done.
    destruct (sync_history id (world st)) as [|t' l] eqn:Hhistory; [|done].
    assert (t ∈ sync_history id (world st)) as Ht'
      by (by apply sync_history_spec).
    rewrite Hhistory in Ht'. by apply elem_of_nil in Ht'.
Qed.
End History.

(** ** The [TaskSchedule] table *)

Section Schedule.
Import Migration.

Lemma omap_head_error {A B} (f : A → option B) (l : list A) (x : A) :
  x ∈ l → is_Some (f x) → ∃ e l', omap f l = e :: l'.
Proof.
  intros Hin [y Hy].
  assert (y ∈ omap f l) as Hy' by (apply list_elem_of_omap; eauto).
  destruct (omap f l); [by apply elem_of_nil in Hy'|eauto].
Qed.

Lemma new_row_name (now : Z) (fresh : N) (given : gmap string Cell) :
  new_row TaskSchedule now fresh given !! "name"
  = Some (match given !! "name" with Some v => v | None => Str "" end).
Proof. reflexivity. Qed.

Lemma new_row_named (now : Z) (fresh : N) (s tn : string) :
  new_row TaskSchedule now fresh (named s tn)
  = list_to_map
      [("pulp_id", Uuid fresh); ("pulp_created", Timestamp now);
       ("pulp_last_updated", Timestamp now); ("dispatch_interval", NULL);
       ("name", Str s); ("next_dispatch", Timestamp now);
       ("task_name", Str tn); ("last_task", NULL)].
Proof. reflexivity. Qed.

(** A name that is taken is refused, whatever else is given. *)
Lemma create_name_taken (now : Z) (fresh : N) (given : gmap string Cell)
    (db : Database) (s : string) :
  given !! "name" = Some (Str s) →
  Exists (λ r, r !! "name" = Some (Str s)) (rows db) →
  ∃ e, create TaskSchedule now fresh given db = (inl e, db).
Proof.
  intros Hname Htaken. unfold create.
  destruct (omap_head_error
              (violation db (new_row TaskSchedule now fresh given))
              TaskSchedule
              ("name", mkField (CharField 256) None false true false false
                               false true true)) as (e & l' & ->).
  - unfold TaskSchedule. simpl. do 4 apply list_elem_of_further.
    apply list_elem_of_here.
  - unfold violation. cbn [fst snd]. rewrite new_row_name, Hname.
    cbn [unique primary_key orb andb]. by rewrite bool_decide_eq_true_2.
  - by exists e.
Qed.

Lemma violation_null (db : Database) (row : gmap string Cell)
    (c : string * Field) :
  row !! c.1 = Some NULL → null c.2 = true → primary_key c.2 = false →
  violation db row c = None.
Proof. intros Hrow Hnull Hpk. unfold violation. by rewrite Hrow, Hnull, Hpk. Qed.

Lemma violation_value (db : Database) (row : gmap string Cell)
    (c : string * Field) (v : Cell) :
  row !! c.1 = Some v → v ≠ NULL →
  unique c.2 || primary_key c.2 = false
  ∨ ¬ Exists (λ r, r !! c.1 = Some v) (rows db) →
  match kind c.2, v with
  | CharField n, Str s => (String.length s ≤ n)%nat
  | ForeignKey _ _, Uuid u => u ∈ task db
  | _, _ => True
  end →
  violation db row c = None.
Proof.
  intros Hrow Hv Hfree Hkind. unfold violation. rewrite Hrow.
  assert ((unique c.2 || primary_key c.2)
          && bool_decide (Exists (λ r, r !! c.1 = Some v) (rows db)) = false)
    as ->.
  { destruct Hfree as [->|Hfree]; [done|].
    rewrite (bool_decide_eq_false_2 _ Hfree). apply andb_false_r. }
  destruct v; try done; destruct (kind c.2); try done;
    by rewrite bool_decide_eq_true_2.
Qed.

(** A creation that gives a free name and a task name succeeds. *)
Lemma create_named (now : Z) (fresh : N) (db : Database) (s tn : string) :
  Forall (λ r, r !! "name" ≠ Some (Str s)) (rows db) →
  Forall (λ r, r !! "pulp_id" ≠ Some (Uuid fresh)) (rows db) →
  (String.length s ≤ 256)%nat →
  (String.length tn ≤ 256)%nat →
  create TaskSchedule now fresh (named s tn) db
  = (inr (new_row TaskSchedule now fresh (named s tn)),
     mkDatabase (task db)
                (rows db ++ [new_row TaskSchedule now fresh (named s tn)])).
Proof.
  intros Hname Hid Hs Htn. unfold create.
  assert (omap (violation db (new_row TaskSchedule now fresh (named s tn)))
               TaskSchedule = []) as ->; [|done].
  apply Forall_Exists_neg in Hname, Hid.
  change TaskSchedule with
    [("pulp_id",
        mkField UUIDField (Some uuid4) false false true false false false false);
     ("pulp_created",
        mkField DateTimeField None false false false true false true true);
     ("pulp_last_updated",
        mkField DateTimeField None true false false false true true true);
     ("dispatch_interval",
        mkField DurationField None true false false false false true true);
     ("name",
        mkField (CharField 256) None false true false false false true true);
     ("next_dispatch",
        mkField DateTimeField (Some timezone_now) true false false false false
                true true);
     ("task_name",
        mkField (CharField 256) None false false false false false true true);
     ("last_task",
        mkField (ForeignKey "core.task" SET_NULL) None true false false false
                false true true)] at 2.
  cbn [omap list_omap].
  rewrite (violation_value _ _ ("pulp_id", _) (Uuid fresh));
    [|reflexivity|done|by right|done].
  rewrite (violation_value _ _ ("pulp_created", _) (Timestamp now));
    [|reflexivity|done|by left|done].
  rewrite (violation_value _ _ ("pulp_last_updated", _) (Timestamp now));
    [|reflexivity|done|by left|done].
  rewrite (violation_null _ _ ("dispatch_interval", _)); [|reflexivity..].
  rewrite (violation_value _ _ ("name", _) (Str s));
    [|reflexivity|done|by right|done].
  rewrite (violation_value _ _ ("next_dispatch", _) (Timestamp now));
    [|reflexivity|done|by left|done].
  rewrite (violation_value _ _ ("task_name", _) (Str tn));
    [|reflexivity|done|by left|done].
  by rewrite (violation_null _ _ ("last_task", _)); [|reflexivity..].
Qed.

Lemma references_TaskSchedule :
  references TaskSchedule PROTECT = []
  ∧ references TaskSchedule CASCADE = []
  ∧ references TaskSchedule SET_NULL = ["last_task"].
Proof. repeat split. Qed.

Lemma delete_task_run (u : N) (db : Database) :
  delete_task TaskSchedule u db
  = (None, mkDatabase (filter (λ v, v ≠ u) (task db))
                      (clear_last_task u <$> rows db)).
Proof.
  unfold delete_task.
  destruct references_TaskSchedule as (-> & -> & ->).
  rewrite filter_nil. do 2 f_equal.
  assert (filter (λ r, refers u [] r = false) (rows db) = rows db) as ->.
  { induction (rows db) as [|r l IH]; [done|].
    rewrite filter_cons_True; [by rewrite IH|].
    unfold refers. apply bool_decide_eq_false_2. by intros ?%Exists_nil. }
  by apply list_fmap_ext.
Qed.

Lemma clear_last_task_lookup (u : N) (r : gmap string Cell) :
  clear_last_task u r !! "last_task" ≠ Some (Uuid u).
Proof.
  unfold clear_last_task. case_bool_decide; [|done].
  by rewrite lookup_insert_eq.
Qed.

Lemma follow_cleared (u : N) (db : Database) (r : gmap string Cell) :
  follow db "last_task" r ≠ DoesNotExist →
  follow (mkDatabase (filter (λ v, v ≠ u) (task db))
                     (clear_last_task u <$> rows db))
         "last_task" (clear_last_task u r) ≠ DoesNotExist.
Proof.
  unfold follow, clear_last_task. cbn [task].
  case_bool_decide as Hu; [by rewrite lookup_insert_eq|].
  destruct (r !! "last_task") as [[|v| | |]|]; try done.
  case_bool_decide as Hv; [|done]. intros _.
  rewrite bool_decide_eq_true_2; [done|].
  apply list_elem_of_filter. split; [congruence|done].
Qed.

(** C8.  The table the migration creates keeps the storage contract.
    (1) A schedule whose name is that of a stored schedule is refused and
    the database stays as it was.  (2) A schedule created with a free
    name and a task name, and nothing else, is stored with no dispatch
    interval (NULL), with [next_dispatch] equal to its creation time, and
    with no last task (NULL), so that following [last_task] finds no
    task.  (3) Deleting a task succeeds and clears it from the
    [last_task] of every schedule that referred to it, leaving the rows
    otherwise as they were: no schedule refers to the deleted task any
    more, following [last_task] from a schedule that did finds no task,
    and if no reference dangled before, none dangles after. *)
Theorem TaskSchedule_storage_contract (db : Database) (now : Z) (fresh : N) :
  (∀ given s,
     given !! "name" = Some (Str s) →
     Exists (λ r, r !! "name" = Some (Str s)) (rows db) →
     ∃ e, create TaskSchedule now fresh given db = (inl e, db))
  ∧ (∀ s tn,
       Forall (λ r, r !! "name" ≠ Some (Str s)) (rows db) →
       Forall (λ r, r !! "pulp_id" ≠ Some (Uuid fresh)) (rows db) →
       (String.length s ≤ 256)%nat →
       (String.length tn ≤ 256)%nat →
       ∃ row,
         create TaskSchedule now fresh (named s tn) db
         = (inr row, mkDatabase (task db) (rows db ++ [row]))
         ∧ row !! "name" = Some (Str s)
         ∧ row !! "dispatch_interval" = Some NULL
         ∧ row !! "pulp_created" = Some (Timestamp now)
         ∧ row !! "next_dispatch" = Some (Timestamp now)
         ∧ row !! "last_task" = Some NULL
         ∧ follow db "last_task" row = NoTask)
  ∧ (∀ u,
       ∃ db',
         delete_task TaskSchedule u db = (None, db')
         ∧ (u ∉ task db')
         ∧ rows db' = clear_last_task u <$> rows db
         ∧ Forall (λ r, r !! "last_task" ≠ Some (Uuid u)) (rows db')
         ∧ (∀ r, r ∈ rows db → r !! "last_task" = Some (Uuid u) →
                 clear_last_task u r ∈ rows db'
                 ∧ follow db' "last_task" (clear_last_task u r) = NoTask)
         ∧ (Forall (λ r, follow db "last_task" r ≠ DoesNotExist) (rows db) →
            Forall (λ r, follow db' "last_task" r ≠ DoesNotExist) (rows db'))).
Proof.
  split; [|split].
  - intros given s. apply create_name_taken.
  - intros s tn Hname Hid Hs Htn. eexists. split; [by apply create_named|].
    rewrite new_row_named. by repeat split.
  - intros u. eexists. split; [apply delete_task_run|]. cbn [task rows].
    split; [|split; [done|split; [|split]]].
    + intros [Hne _]%list_elem_of_filter. by apply Hne.
    + apply Forall_fmap, Forall_forall. intros r _.
      apply clear_last_task_lookup.
    + intros r Hin Hr. split; [by apply list_elem_of_fmap_2|].
      unfold follow, clear_last_task.
      by rewrite bool_decide_eq_true_2, lookup_insert_eq.
    + rewrite Forall_fmap, !Forall_forall. intros Hok r Hin.
      by apply follow_cleared, Hok.
Qed.
End Schedule.

(** ** Runs on the reference implementation *)

Section Runs.
Import Reference Migration.

(** C6 at work: POSTing [clone] on an id the store does not hold. *)
Lemma POST_unknown_repository_witness :
  ∃ r st',
    RepositoryActions.POST (clone_req "repo-c") "repo-zz" "clone" st0
    = (Return r, st')
    ∧ status_code (status r) = 404%Z
    ∧ world st' = world st0
    ∧ new_calls st0 st' = [call_repository (VStr "repo-zz") ["id"]]
    ∧ (call_action "repo-zz" ∉ new_calls st0 st')
    ∧ created_tasks (new_calls st0 st') = [].
Proof.
  apply (POST_unknown_repository (clone_req "repo-c") "repo-zz" "clone" st0).
  reflexivity.
Defined.

(** C10 at work: [clone] is exposed and implemented. *)
Lemma exposed_actions_are_implemented_witness :
  ∃ m : Method,
    RepositoryActions.namespace !! "clone" = Some (RepositoryActions.attr_def m)
    ∧ RepositoryActions.getattr "clone" = Some (RepositoryActions.method m)
    ∧ ∀ (req : Req) (id : string) (st : St (gmap string (gmap string Value))),
        RepositoryActions.POST req id "clone" st =
        let st' := mkSt (world st)
                        (calls st ++ [call_repository (VStr id) ["id"]]) in
        if RepositoryActions.falsy (api_repository (VStr id) ["id"] (world st))
        then
          (Return (not_found "No repository with id %s found" [VStr id]), st')
        else
          RepositoryActions.method m req id
            (mkSt (world st') (calls st' ++ [call_action id])).
Proof.
  apply (exposed_actions_are_implemented "clone").
  unfold RepositoryActions.exposed_actions. do 2 apply list_elem_of_further.
  apply list_elem_of_here.
Defined.

(** C1 at work: a second sync of [repo-a] while the first is queued. *)
Lemma sync_conflict_or_accepted_witness :
  ∃ r st',
    RepositoryActions.sync sync_req "repo-a" st1 = (Return r, st')
    ∧ world st' = world st1
    ∧ new_calls st1 st' =
        [call_repository (VStr "repo-a") ["source"]; call_params; call_timeout;
         call_sync "repo-a" (sync_timeout sync_req) (sync_skip sync_req) None]
    ∧ created_tasks (new_calls st1 st') = []
    ∧ status_code (status r) = 409%Z.
Proof.
  apply (sync_conflict_or_accepted sync_req "repo-a" st1
           (filter (λ kv, kv.1 ∈ ["source"]) repo_a)
           (VDict (<["type" := VStr "yum"]>
                  (<["url" := VStr "http://example.com/a"]> ∅)))
           None (world st1));
    [reflexivity|reflexivity|discriminate|reflexivity].
Defined.

(** C1 as stated fails: no sync is active, the queue is empty and
    [api.sync] would yield a task, but [repo-b] has no source and the
    answer is 406 Not Acceptable, not 202 Accepted. *)
Lemma sync_without_conflict_not_accepted :
  tasks (world st0) = []
  ∧ is_Some (api_sync "repo-b" (sync_timeout sync_req) (sync_skip sync_req)
                      (world st0)).1
  ∧ (∃ r st',
       RepositoryActions.sync sync_req "repo-b" st0 = (Return r, st')
       ∧ status_code (status r) = 406%Z
       ∧ status_code (status r) ≠ 202%Z)
  ∧ (∃ r st',
       RepositoryActions.POST sync_req "repo-b" "sync" st0 = (Return r, st')
       ∧ status_code (status r) = 406%Z
       ∧ status_code (status r) ≠ 202%Z).
Proof.
  split; [reflexivity|]. split; [by eexists|].
  split; (eexists _, _; split; [reflexivity|]; by split).
Qed.

(** C2 at work: [repo-b] has no source; [repo-a], for which the
    parameters are read, has one. *)
Lemma sync_requires_source_witness :
  (∃ r st',
     RepositoryActions.sync sync_req "repo-b" st0 = (Return r, st')
     ∧ status_code (status r) = 406%Z
     ∧ world st' = world st0
     ∧ new_calls st0 st' = [call_repository (VStr "repo-b") ["source"]]
     ∧ created_tasks (new_calls st0 st') = [])
  ∧ (∃ repo src,
       api_repository (VStr "repo-a") ["source"] (world st0) = Some repo
       ∧ repo !! "source" = Some src
       ∧ src ≠ VNone).
Proof.
  split.
  - apply (proj1 (sync_requires_source sync_req "repo-b" st0)
                 (<["source" := VNone]> ∅)); reflexivity.
  - apply (proj2 (sync_requires_source sync_req "repo-a" st0) call_params).
    + vm_compute. apply list_elem_of_further, list_elem_of_here.
    + by left.
Defined.

(** C5 at work: cloning an unknown repository, and cloning [repo-a]
    under the id of [repo-b]. *)
Lemma clone_rejections_witness :
  (∃ r st',
     RepositoryActions.clone (clone_req "repo-c") "repo-zz" st0 = (Return r, st')
     ∧ status_code (status r) = 404%Z
     ∧ world st' = world st0
     ∧ new_calls st0 st' =
         [call_params;
          call_repository (VStr "repo-zz") RepositoryActions.default_fields]
     ∧ Forall (λ c, is_call_clone c = false) (new_calls st0 st')
     ∧ created_tasks (new_calls st0 st') = [])
  ∧ (∃ r st',
       RepositoryActions.clone (clone_req "repo-b") "repo-a" st0 = (Return r, st')
       ∧ status_code (status r) = 409%Z
       ∧ world st' = world st0
       ∧ new_calls st0 st' =
           [call_params;
            call_repository (VStr "repo-a") RepositoryActions.default_fields;
            call_repository (VStr "repo-b") RepositoryActions.default_fields]
       ∧ Forall (λ c, is_call_clone c = false) (new_calls st0 st')
       ∧ created_tasks (new_calls st0 st') = []).
Proof.
  split.
  - apply (proj1 (clone_rejections (clone_req "repo-c") "repo-zz" st0)).
    reflexivity.
  - apply (proj2 (clone_rejections (clone_req "repo-b") "repo-a" st0)
                 (filter (λ kv, kv.1 ∈ RepositoryActions.default_fields) repo_a)
                 (VStr "repo-b")
                 (filter (λ kv, kv.1 ∈ RepositoryActions.default_fields) repo_b));
      reflexivity.
Defined.

(** C5 as stated fails: the requested [clone_id] is the id of the
    existing [repo-b], but the repository to clone is unknown, and the
    answer is 404 Not Found, not 409 Conflict. *)
Lemma clone_existing_clone_id_unknown_repository :
  params (clone_req "repo-b") !! "clone_id" = Some (VStr "repo-b")
  ∧ is_Some (api_repository (VStr "repo-b") RepositoryActions.default_fields
                            (world st0))
  ∧ (∃ r st',
       RepositoryActions.clone (clone_req "repo-b") "repo-zz" st0
       = (Return r, st')
       ∧ status_code (status r) = 404%Z
       ∧ status_code (status r) ≠ 409%Z)
  ∧ (∃ r st',
       RepositoryActions.POST (clone_req "repo-b") "repo-zz" "clone" st0
       = (Return r, st')
       ∧ status_code (status r) = 404%Z
       ∧ status_code (status r) ≠ 409%Z).
Proof.
  split; [reflexivity|]. split; [by eexists|].
  split; (eexists _, _; split; [reflexivity|]; by split).
Qed.

(** C4 at work: the status of [task-0], and of a task that is not
    there. *)
Lemma status_GET_found_or_404_witness :
  (∃ r,
     RepositoryActionStatus.GET status_req "repo-a" "sync" "task-9" st1
     = (Return r, st1)
     ∧ status_code (status r) = 404%Z
     ∧ body r = Message "No %s with id %s found" [VStr "sync"; VStr "task-9"])
  ∧ (∃ i t0,
       find_task "task-0" (world st1) = Some i
       ∧ tasks (world st1) !! i = Some t0
       ∧ task_id t0 = "task-0"
       ∧ RepositoryActionStatus.GET status_req "repo-a" "sync" "task-0" st1
         = (Return (mkResponse OK (Json (VDict (_task_to_dict t0)))), st1)
       ∧ status_code OK = 200%Z
       ∧ _task_to_dict t0 !! "id" = Some (VStr "task-0")).
Proof.
  split.
  - apply (proj1 (status_GET_found_or_404 status_req "repo-a" "sync"
                                          "task-9" st1)).
    vm_compute. by repeat constructor.
  - apply (proj2 (status_GET_found_or_404 status_req "repo-a" "sync"
                                          "task-0" st1)
             (mkTask "task-0" "_sync" [VStr "repo-a"; VDict ∅] ∅ QUEUED
                     VNone VNone 0 None None)).
    + vm_compute. apply list_elem_of_here.
    + reflexivity.
Defined.

(** C3 at work: canceling the queued [task-0], twice. *)
Lemma DELETE_outcomes_witness :
  let t := mkTask "task-0" "_sync" [VStr "repo-a"; VDict ∅] ∅ QUEUED
                  VNone VNone 0 None None in
  RepositoryActionStatus.DELETE status_req "repo-a" "sync" "task-0" st1
  = (Return (mkResponse Accepted
               (Json (VDict (_task_to_dict (set_state CANCELED t))))),
     canceled 0 st1)
  ∧ status_code Accepted = 202%Z
  ∧ tasks (world (canceled 0 st1)) !! 0 = Some (set_state CANCELED t)
  ∧ RepositoryActionStatus.DELETE status_req "repo-a" "sync" "task-0"
      (canceled 0 st1)
    = (Return (mkResponse NoContent NoBody), canceled 0 st1).
Proof.
  apply (proj1 (proj2 (DELETE_outcomes status_req "repo-a" "sync" "task-0"
                                       st1)) 0);
    [reflexivity|reflexivity|by left].
Defined.

(** C7 at work: the history of [repo-a] after two syncs, and two queries
    that find nothing. *)
Lemma history_GET_witness :
  length (sync_history "repo-a" (world st2)) = 2
  ∧ (RepositoryActions.GET sync_req "repo-a" "sync" st2
     = (Return (mkResponse OK
          (Json (VList (history_entry sync_req
                          <$> sync_history "repo-a" (world st2))))),
        st2)
     ∧ status_code OK = 200%Z)
  ∧ (∃ r, RepositoryActions.GET sync_req "repo-b" "_sync" st2 = (Return r, st2)
          ∧ status_code (status r) = 404%Z)
  ∧ (∃ r, RepositoryActions.GET sync_req "repo-a" "clone" st2 = (Return r, st2)
          ∧ status_code (status r) = 404%Z).
Proof.
  pose proof (history_GET sync_req "repo-a" "sync" st2)
    as (_ & _ & Hsynced & _ & _ & _ & Hfound).
  pose proof (history_GET sync_req "repo-b" "_sync" st2)
    as (_ & _ & Hsynced_b & _ & _ & Hnone & _).
  pose proof (history_GET sync_req "repo-a" "clone" st2)
    as (_ & _ & _ & _ & Hother & _).
  split; [reflexivity|split; [|split]].
  - apply Hfound; [by left|].
    exists (mkTask "task-1" "_sync" [VStr "repo-a"; VDict ∅] ∅ QUEUED
                   VNone VNone 1 None None).
    split; [|by apply Hsynced].
    vm_compute. apply list_elem_of_further, list_elem_of_here.
  - apply Hnone; [by right|].
    intros t Hin Ht%Hsynced_b. vm_compute in Hin.
    repeat (apply elem_of_cons in Hin as [->|Hin]; [discriminate Ht|]).
    by apply elem_of_nil in Hin.
  - apply Hother; discriminate.
Defined.

(** C8 at work: a second [nightly] is refused, [weekly] is stored with
    its defaults, and deleting task 7 clears the reference to it. *)
Lemma TaskSchedule_storage_contract_witness :
  (∃ e, create TaskSchedule 200 2 (named "nightly" "sync") schedules
        = (inl e, schedules))
  ∧ (∃ row,
       create TaskSchedule 200 2 (named "weekly" "sync") schedules
       = (inr row, mkDatabase (task schedules) (rows schedules ++ [row]))
       ∧ row !! "name" = Some (Str "weekly")
       ∧ row !! "dispatch_interval" = Some NULL
       ∧ row !! "pulp_created" = Some (Timestamp 200)
       ∧ row !! "next_dispatch" = Some (Timestamp 200)
       ∧ row !! "last_task" = Some NULL
       ∧ follow schedules "last_task" row = NoTask)
  ∧ (∃ db',
       delete_task TaskSchedule 7 schedules = (None, db')
       ∧ Forall (λ r, follow db' "last_task" r ≠ DoesNotExist) (rows db')).
Proof.
  pose proof (TaskSchedule_storage_contract schedules 200 2)
    as (Hunique & Hcreate & Hdelete).
  split; [|split].
  - apply (Hunique _ "nightly"); [reflexivity|].
    vm_compute. apply Exists_cons_hd. reflexivity.
  - apply Hcreate.
    + vm_compute. by repeat constructor.
    + vm_compute. by repeat constructor.
    + vm_compute. lia.
    + vm_compute. lia.
  - destruct (Hdelete 7%N) as (db' & Hrun & _ & _ & _ & _ & Hok).
    exists db'. split; [exact Hrun|]. apply Hok.
    vm_compute. by repeat constructor.
Defined.
End Runs.

(** * Further properties *)

(** ** [clone], accepted or failing *)

Section CloneRuns.
Context {Db Req : Type} `{!Collaborators Db Req}.
Import RepositoryActions.

Lemma bind_run_clone {B} id a b c d e f (k : _ → M Db B) (st : St Db) :
  (run_clone id a b c d e f ≫= k) st =
  k (api_clone id a b c d e f (world st)).1
    (mkSt (api_clone id a b c d e f (world st)).2
          (calls st ++ [call_clone id a b c d e f
                          (api_clone id a b c d e f (world st)).1])).
Proof.
  unfold mbind, M_bind, run_clone.
  by destruct (api_clone id a b c d e f (world st)).
Qed.

(** X1.  [clone] of a repository that exists, under a [clone_id] that no
    repository has, with [clone_name] and [feed] given: [api.clone] is
    called once, with the values of the request and with [None], [None]
    and the empty list for an absent [relative_path], [groupid] and
    [filters].  If it yields a task the answer is 202 Accepted with the
    task's id and a [status_path]; if it yields none the answer is 409
    Conflict, "Error in cloning repo".  The state left is the one
    [api.clone] left. *)
Theorem clone_dispatches (req : Req) (id : string) (st : St Db)
    (repo : gmap string Value) (clone_id clone_name feed : Value)
    (yielded : option Task) (w' : World Db) :
  api_repository (VStr id) default_fields (world st) = Some repo →
  params req !! "clone_id" = Some clone_id →
  api_repository clone_id default_fields (world st) = None →
  params req !! "clone_name" = Some clone_name →
  params req !! "feed" = Some feed →
  api_clone id clone_id clone_name feed
            (dict_get (params req) "relative_path" VNone)
            (dict_get (params req) "groupid" VNone)
            (dict_get (params req) "filters" (VList []))
            (world st) = (yielded, w') →
  ∃ r st',
    clone req id st = (Return r, st')
    ∧ world st' = w'
    ∧ new_calls st st' =
        [call_params; call_repository (VStr id) default_fields;
         call_repository clone_id default_fields;
         call_clone id clone_id clone_name feed
                    (dict_get (params req) "relative_path" VNone)
                    (dict_get (params req) "groupid" VNone)
                    (dict_get (params req) "filters" (VList []))
                    yielded]
    ∧ created_tasks (new_calls st st') = option_list yielded
    ∧ match yielded with
      | None =>
          status_code (status r) = 409%Z
          ∧ body r = Message "Error in cloning repo [%s]" [VStr id]
      | Some task =>
          status_code (status r) = 202%Z
          ∧ ∃ d, body r = Json (VDict d)
                 ∧ d !! "id" = Some (VStr (task_id task))
                 ∧ d !! "status_path" = Some (_status_path req (task_id task))
      end.
Proof.
  intros Hrepo Hid Hfree Hname Hfeed Hclone. unfold clone.
  rewrite bind_read_params, bind_repository. cbn [world calls].
  rewrite Hrepo, bind_subscript, Hid, bind_repository. cbn [world calls].
  rewrite Hfree, bind_subscript, Hid, bind_subscript, Hname, bind_subscript,
    Hfeed, bind_run_clone.
  cbn [world calls]. rewrite Hclone. cbn [fst snd].
  destruct yielded as [task|]; cbn [mret M_ret];
    (eexists _, _; split; [reflexivity|]; rewrite <- !app_assoc, new_calls_app;
     cbn [app]; split; [done|split; [done|split; [done|]]]).
  - split; [done|]. eexists. split; [reflexivity|]. split.
    + rewrite lookup_insert_ne by done. apply lookup_insert_eq.
    + apply lookup_insert_eq.
  - done.
Qed.

(** X2.  [clone] with an incomplete request: when the repository exists
    and the request has no [clone_id], or has a free [clone_id] but lacks
    [clone_name] or (having [clone_name]) lacks [feed], a [KeyError] for
    the first key that is not there is raised; [api.clone] is not called,
    the server state is as before and no task is created. *)
Theorem clone_incomplete_request (req : Req) (id : string) (st : St Db)
    (repo : gmap string Value) :
  api_repository (VStr id) default_fields (world st) = Some repo →
  (params req !! "clone_id" = None →
   ∃ st', clone req id st = (Raise (KeyError "clone_id"), st')
          ∧ world st' = world st
          ∧ Forall (λ c, is_call_clone c = false) (new_calls st st'))
  ∧ (∀ clone_id key,
       params req !! "clone_id" = Some clone_id →
       api_repository clone_id default_fields (world st) = None →
       first_absent (params req) (λ k, k) ["clone_name"; "feed"] = Some key →
       ∃ st', clone req id st = (Raise (KeyError key), st')
              ∧ world st' = world st
              ∧ Forall (λ c, is_call_clone c = false) (new_calls st st')
              ∧ created_tasks (new_calls st st') = []).
Proof.
  intros Hrepo. split.
  - intros Hid. unfold clone.
    rewrite bind_read_params, bind_repository. cbn [world calls].
    rewrite Hrepo, bind_subscript, Hid.
    eexists. split; [reflexivity|]. rewrite <- app_assoc, new_calls_app.
    split; [done|]. by repeat constructor.
  - intros clone_id key Hid Hfree Hkey. unfold clone.
    rewrite bind_read_params, bind_repository. cbn [world calls].
    rewrite Hrepo, bind_subscript, Hid, bind_repository. cbn [world calls].
    rewrite Hfree, bind_subscript, Hid, bind_subscript.
    unfold first_absent in Hkey. cbn in Hkey.
    destruct (params req !! "clone_name") as [clone_name|] eqn:Hname.
    + rewrite bind_subscript.
      destruct (params req !! "feed") as [feed|] eqn:Hfeed.
      * rewrite !decide_False in Hkey by (rewrite ?Hname, ?Hfeed; done).
        discriminate.
      * rewrite decide_False, decide_True in Hkey
          by (rewrite ?Hname, ?Hfeed; done).
        injection Hkey as <-.
        eexists. split; [reflexivity|].
        rewrite <- !app_assoc, new_calls_app.
        split; [done|]. split; [by repeat constructor|done].
    + rewrite decide_True in Hkey by done. injection Hkey as <-.
      eexists. split; [reflexivity|].
      rewrite <- !app_assoc, new_calls_app.
      split; [done|]. split; [by repeat constructor|done].
Qed.
End CloneRuns.

(** ** [sync] called on what is not a repository with a source *)

Section SyncEdges.
Context {Db Req : Type} `{!Collaborators Db Req}.
Import RepositoryActions.

(** X3.  [sync] itself has no answer for a repository that is not there:
    when [api.repository] finds nothing it raises [TypeError], and when the
    document it finds has no [source] key it raises [KeyError].  In both
    cases the run is the one lookup: the parameters are not read,
    [api.sync] is not called and the server state is as before. *)
Theorem sync_raises_without_document (req : Req) (id : string) (st : St Db) :
  (api_repository (VStr id) ["source"] (world st) = None →
   sync req id st =
   (Raise (TypeError "'NoneType' object is not subscriptable"),
    mkSt (world st) (calls st ++ [call_repository (VStr id) ["source"]])))
  ∧ (∀ repo,
       api_repository (VStr id) ["source"] (world st) = Some repo →
       repo !! "source" = None →
       sync req id st =
       (Raise (KeyError "source"),
        mkSt (world st) (calls st ++ [call_repository (VStr id) ["source"]]))).
Proof.
  split.
  - intros Hrepo. by rewrite sync_run, Hrepo.
  - intros repo Hrepo Hsource. by rewrite sync_run, Hrepo, Hsource.
Qed.
End SyncEdges.

(** ** What the status path does not look at *)

Section StatusPath.
Context {Db Req : Type} `{!Collaborators Db Req}.

(** X4.  The status query and the cancellation find the task by its id
    alone: the repository id and the action name of the path are not
    checked against the task.  Whatever they are, the state left is the
    same and so is the status of the answer; when a task has the id the
    whole answer is the same. *)
Theorem status_path_ignores_repository_and_action (req : Req)
    (id1 action1 id2 action2 action_id : string) (st : St Db) :
  let get1 := RepositoryActionStatus.GET req id1 action1 action_id st in
  let get2 := RepositoryActionStatus.GET req id2 action2 action_id st in
  let del1 := RepositoryActionStatus.DELETE req id1 action1 action_id st in
  let del2 := RepositoryActionStatus.DELETE req id2 action2 action_id st in
  get1.2 = get2.2
  ∧ del1.2 = del2.2
  ∧ (∃ r1 r2, get1.1 = Return r1 ∧ get2.1 = Return r2
              ∧ status r1 = status r2)
  ∧ (∃ r1 r2, del1.1 = Return r1 ∧ del2.1 = Return r2
              ∧ status r1 = status r2)
  ∧ (is_Some (find_task action_id (world st)) → get1 = get2 ∧ del1 = del2).
Proof.
  cbv zeta. unfold RepositoryActionStatus.GET, RepositoryActionStatus.DELETE.
  rewrite !bind_get_world. unfold task_status.
  destruct (find_task action_id (world st)) as [i|] eqn:Hi; cbn [mbind option_bind].
  - pose proof Hi as (t & Ht & _)%find_task_Some. rewrite Ht. simpl.
    unfold mbind, M_bind, cancel_task, deref. rewrite Ht.
    destruct (task_complete (state t)); cbn [world tasks];
      rewrite ?list_lookup_alter_eq, ?Ht; simpl;
      repeat split; eauto.
  - simpl. split; [done|split; [done|]].
    split; [by eexists _, _|split; [by eexists _, _|]].
    intros [? ?]. discriminate.
Qed.
End StatusPath.

(** ** The two names of the history *)

Section HistoryNames.
Context {Db Req : Type} `{!Collaborators Db Req}.
Import RepositoryActions.

(** X5.  The history of [sync] and the history of [_sync] are the same
    query: both answer with the same status and leave the state as it is,
    and when there is a task to report the answers are equal.  (When
    there is none, the two 404 messages name the action asked for.) *)
Theorem history_of_sync_and__sync (req : Req) (id : string) (st : St Db) :
  (∃ r1 r2,
     GET req id "sync" st = (Return r1, st)
     ∧ GET req id "_sync" st = (Return r2, st)
     ∧ status r1 = status r2)
  ∧ (sync_history id (world st) ≠ [] →
     GET req id "sync" st = GET req id "_sync" st).
Proof.
  rewrite !GET_run.
  rewrite !bool_decide_eq_true_2 by (by left + by right).
  destruct (sync_history id (world st)); split; eauto; done.
Qed.
End HistoryNames.

(** ** Running the other controllers step by step *)

Section Steps2.
Context {Db Req : Type} `{!Collaborators Db Req} `{!Services Db Req}.

Lemma new_invocations_app (s : Session Db) (w : World Db) (l : list Invocation) :
  new_invocations s (mkSession w (invoked s ++ l)) = l.
Proof. unfold new_invocations. simpl. by rewrite drop_app_length. Qed.

Lemma new_invocations_refl (s : Session Db) : new_invocations s s = [].
Proof. unfold new_invocations. by rewrite drop_all. Qed.

Lemma bind_ret_H {A B} (a : A) (k : A → H Db B) (s : Session Db) :
  (mret a ≫= k) s = k a s.
Proof. reflexivity. Qed.

Lemma bind_assoc_H {A B C} (m : H Db A) (f : A → H Db B) (g : B → H Db C)
    (s : Session Db) :
  ((m ≫= f) ≫= g) s = (m ≫= λ a, f a ≫= g) s.
Proof.
  unfold mbind, H_bind. by destruct (m s) as [[a|e] s'].
Qed.

Lemma bind_sub {B} (d : gmap string Value) key (k : Value → H Db B)
    (s : Session Db) :
  (sub d key ≫= k) s =
  match d !! key with
  | Some v => k v s
  | None => (Failed (Builtin (KeyError key)), s)
  end.
Proof. unfold sub. by destruct (d !! key). Qed.

Lemma bind_call {B} name args kwargs (k : Value → H Db B) (s : Session Db) :
  (call name args kwargs ≫= k) s =
  let s' := mkSession (api_invoke name args kwargs (server s)).2
                      (invoked s ++ [invocation name args kwargs]) in
  match (api_invoke name args kwargs (server s)).1 with
  | Done v => k v s'
  | Failed e => (Failed e, s')
  end.
Proof.
  unfold mbind, H_bind, call.
  by destruct (api_invoke name args kwargs (server s)) as [[v|e] w].
Qed.

Lemma bind_find_repository {B} id fields (k : _ → H Db B) (s : Session Db) :
  (find_repository id fields ≫= k) s =
  k (api_repository id fields (server s))
    (mkSession (server s)
       (invoked s ++ [invocation "repository" [id; VList (VStr <$> fields)] []])).
Proof. reflexivity. Qed.

Lemma bind_grant {B} resource (k : unit → H Db B) (s : Session Db) :
  (grant resource ≫= k) s =
  let s' := mkSession (grant_permissions resource (server s)).2
              (invoked s ++
               [invocation "grant_automatic_permissions_for_created_resource"
                           [resource] []]) in
  match (grant_permissions resource (server s)).1 with
  | Done u => k u s'
  | Failed e => (Failed e, s')
  end.
Proof.
  unfold mbind, H_bind, grant.
  by destruct (grant_permissions resource (server s)) as [[v|e] w].
Qed.
End Steps2.

(** ** [Repository.PUT] *)

Section RepositoryPut.
Context {Db Req : Type} `{!Collaborators Db Req} `{!Services Db Req}.
Import Repository.

(** What the loop of [PUT] leaves of a dict. *)
Lemma drop_references_lookup (fields : list string) (delta : gmap string Value)
    (k : string) :
  foldl drop_reference delta fields !! k =
  match delta !! k with
  | Some v =>
      if bool_decide (k ∈ fields) && is_basestring v then None else Some v
  | None => None
  end.
Proof.
  revert delta. induction fields as [|f fields IH]; intros delta.
  - cbn [foldl]. destruct (delta !! k); [|done].
    rewrite bool_decide_eq_false_2; [done|]. apply not_elem_of_nil.
  - cbn [foldl]. rewrite IH. unfold drop_reference.
    destruct (decide (k = f)) as [->|Hne].
    + destruct (delta !! f) as [v|] eqn:Hf; cbn beta iota; [|by rewrite Hf].
      destruct (is_basestring v) eqn:Hv; cbn beta iota.
      * rewrite lookup_delete_eq.
        by rewrite bool_decide_eq_true_2 by apply list_elem_of_here.
      * by rewrite Hf, Hv, !andb_false_r.
    + assert (bool_decide (k ∈ f :: fields) = bool_decide (k ∈ fields)) as ->.
      { apply bool_decide_ext. rewrite elem_of_cons.
        split; [by intros [?|?]|by right]. }
      destruct (delta !! f) as [v|]; cbn beta iota; [|done].
      destruct (is_basestring v); cbn beta iota; [|done].
      by rewrite lookup_delete_ne.
Qed.

(** X6.  [PUT] refuses to change the id: when the request carries an [id]
    that is not the id of the path, the answer is 400 Bad Request, the API
    is not called and the server state is as before. *)
Theorem PUT_cannot_change_id (req : Req) (id : string) (s : Session Db)
    (v : Value) :
  params req !! "id" = Some v →
  v ≠ VStr id →
  PUT req id s = (Done (bad_request "You cannot change a repository id" []), s)
  ∧ answer_code (bad_request "You cannot change a repository id" []) = 400%Z.
Proof.
  intros Hid Hv. split; [|done]. unfold PUT, dict_get. rewrite Hid. simpl.
  assert (str_eq id v = false) as ->; [|done].
  destruct v; try done. simpl. apply bool_decide_eq_false_2. congruence.
Qed.

(** X7.  Otherwise (no [id] in the request, or the id of the path) [PUT]
    calls [api.update] once, for the repository of the path, and answers
    200 OK with [true] if the call returns.  The delta it passes is the
    request without its [id] and without any of [uri_ref] and the deferred
    fields whose value is a string; such a field whose value is not a
    string, and every other key, is passed on as it is. *)
Theorem PUT_passes_the_delta (req : Req) (id : string) (s : Session Db) :
  params req !! "id" = None ∨ params req !! "id" = Some (VStr id) →
  ∃ delta : gmap string Value,
    (∀ k,
       delta !! k =
       match params req !! k with
       | Some v =>
           if bool_decide (k = "id") then None
           else if bool_decide
                     (k ∈ "uri_ref" :: RepositoryDeferredFields.exposed_fields)
                   && is_basestring v
                then None
                else Some v
       | None => None
       end)
    ∧ new_invocations s (PUT req id s).2
      = [invocation "update" [VStr id; VDict delta] []]
    ∧ server (PUT req id s).2
      = (api_invoke "update" [VStr id; VDict delta] [] (server s)).2
    ∧ (PUT req id s).1
      = match (api_invoke "update" [VStr id; VDict delta] [] (server s)).1 with
        | Done _ => Done (answer (ok (VBool true)))
        | Failed e => Failed e
        end.
Proof.
  intros Hid.
  exists (foldl drop_reference (delete "id" (params req))
                ("uri_ref" :: RepositoryDeferredFields.exposed_fields)).
  split.
  - intros k. rewrite drop_references_lookup.
    destruct (decide (k = "id")) as [->|Hk].
    + rewrite lookup_delete_eq. by destruct (params req !! "id").
    + rewrite lookup_delete_ne by done.
      by rewrite (bool_decide_eq_false_2 (k = "id")).
  - unfold PUT.
    assert (str_eq id (dict_get (params req) "id" (VStr id)) = true) as ->.
    { unfold dict_get. destruct Hid as [-> | ->]; simpl;
        by apply bool_decide_eq_true_2. }
    cbn [negb]. rewrite bind_call. cbv zeta.
    destruct (api_invoke _ _ _ _).1; cbn [mret H_ret mbind H_bind fst snd server];
      by rewrite new_invocations_app.
Qed.
End RepositoryPut.

(** ** [Repositories.POST] *)

Section RepositoriesPost.
Context {Db Req : Type} `{!Collaborators Db Req} `{!Services Db Req}.
Import Repositories.

(** X8.  Creating a repository under an id that [api.repository] finds is
    refused with 409 Conflict: the run is that one lookup, [api.create] is
    not called and the server state is as before.  A request without an
    [id] raises [KeyError] before anything is called.  The deprecated [PUT]
    does what [POST] does. *)
Theorem POST_existing_repository (req : Req) (s : Session Db) :
  (∀ id existing,
     params req !! "id" = Some id →
     api_repository id RepositoryActions.default_fields (server s)
       = Some existing →
     ∃ a s',
       POST req s = (Done a, s')
       ∧ PUT req s = (Done a, s')
       ∧ answer_code a = 409%Z
       ∧ server s' = server s
       ∧ new_invocations s s' =
           [invocation "repository"
              [id; VList (VStr <$> RepositoryActions.default_fields)] []])
  ∧ (params req !! "id" = None →
     POST req s = (Failed (Builtin (KeyError "id")), s)
     ∧ PUT req s = (Failed (Builtin (KeyError "id")), s)).
Proof.
  unfold PUT. split.
  - intros id existing Hid Hexisting. unfold POST.
    rewrite bind_sub, Hid, bind_find_repository, Hexisting.
    eexists _, _. split; [reflexivity|]. split; [reflexivity|].
    by rewrite new_invocations_app.
  - intros Hid. unfold POST. by rewrite bind_sub, Hid.
Qed.

(** X9.  Creating a repository under a free id, with [name] and [arch]
    given: [api.create] is called with the id, the name and the arch and,
    for what the request leaves out, no feed, no symlinks, no schedule, no
    certificate data, no relative path, no group, no keys and the
    checksum type [sha256].  When it returns a document with an [id],
    permissions are granted on the resource path of the repository's
    path, and the answer is 201 Created at that path with the document and
    its [uri_ref], which is that path. *)
Theorem POST_creates_repository (req : Req) (s : Session Db)
    (id name arch rid : Value) (doc : gmap string Value) (w1 w2 : World Db) :
  let repo_data := params req in
  let kwargs :=
    [("feed", dict_get repo_data "feed" VNone);
     ("symlinks", dict_get repo_data "use_symlinks" (VBool false));
     ("sync_schedule", dict_get repo_data "sync_schedule" VNone);
     ("cert_data", dict_get repo_data "cert_data" VNone);
     ("relative_path", dict_get repo_data "relative_path" VNone);
     ("groupid", dict_get repo_data "groupid" VNone);
     ("gpgkeys", dict_get repo_data "gpgkeys" VNone);
     ("checksum_type", dict_get repo_data "checksum_type" (VStr "sha256"))] in
  let path := extend_uri_path req rid in
  repo_data !! "id" = Some id →
  api_repository id RepositoryActions.default_fields (server s) = None →
  repo_data !! "name" = Some name →
  repo_data !! "arch" = Some arch →
  api_invoke "create" [id; name; arch] kwargs (server s) = (Done (VDict doc), w1) →
  doc !! "id" = Some rid →
  grant_permissions (resource_path path) w1 = (Done tt, w2) →
  ∃ s',
    POST req s = (Done (created path (VDict (<["uri_ref" := VStr path]> doc))), s')
    ∧ answer_code (created path (VDict (<["uri_ref" := VStr path]> doc)))
      = 201%Z
    ∧ server s' = w2
    ∧ new_invocations s s' =
        [invocation "repository"
           [id; VList (VStr <$> RepositoryActions.default_fields)] [];
         invocation "create" [id; name; arch] kwargs;
         invocation "grant_automatic_permissions_for_created_resource"
                    [resource_path path] []].
Proof.
  cbv zeta. intros Hid Hfree Hname Harch Hcreate Hrid Hgrant. unfold POST.
  rewrite bind_sub, Hid, bind_find_repository, Hfree, bind_sub, Hname,
    bind_sub, Harch, bind_call. cbv zeta. cbn [server invoked].
  rewrite Hcreate. cbn [fst snd item]. rewrite bind_sub, Hrid.
  rewrite bind_ret_H. rewrite bind_grant. cbv zeta. cbn [server invoked].
  rewrite Hgrant. cbn [fst snd].
  eexists. split; [reflexivity|]. split; [done|].
  rewrite <- !app_assoc, new_invocations_app. by split.
Qed.
End RepositoriesPost.

(** ** [Repository.GET] and [Repositories.GET] *)

Section RepositoryGet.
Context {Db Req : Type} `{!Collaborators Db Req} `{!Services Db Req}.

Lemma references_lookup (g : string → Value) (fields : list string)
    (repo : gmap string Value) (k : string) :
  foldl (λ repo field, <[field := g field]> repo) repo fields !! k =
  if bool_decide (k ∈ fields) then Some (g k) else repo !! k.
Proof.
  revert repo. induction fields as [|f fields IH]; intros repo.
  - cbn [foldl]. rewrite bool_decide_eq_false_2; [done|]. apply not_elem_of_nil.
  - cbn [foldl]. rewrite IH.
    destruct (decide (k ∈ fields)) as [Hin|Hin].
    + rewrite !bool_decide_eq_true_2; [done| |done].
      by apply list_elem_of_further.
    + rewrite (bool_decide_eq_false_2 _ Hin).
      destruct (decide (k = f)) as [->|Hne].
      * rewrite lookup_insert_eq, bool_decide_eq_true_2; [done|].
        apply list_elem_of_here.
      * rewrite lookup_insert_ne by done.
        rewrite bool_decide_eq_false_2; [done|].
        rewrite elem_of_cons. by intros [?|?].
Qed.

(** X10.  [Repository.GET] answers 404 Not Found when [api.repository]
    finds nothing.  Otherwise it answers 200 OK with the document, in
    which each deferred field holds the path of that field and [uri_ref]
    the path of the request; the other keys are as found.  Its
    [files_count] is the length of the path put in [files], whatever files
    the repository has (or if it has none to count): the count is taken
    after the field was replaced. *)
Theorem GET_repository (req : Req) (id : string) (s : Session Db) :
  let s' := mkSession (server s)
              (invoked s ++
               [invocation "repository"
                  [VStr id; VList (VStr <$> RepositoryActions.default_fields)]
                  []]) in
  (api_repository (VStr id) RepositoryActions.default_fields (server s) = None →
   Repository.GET req id s
   = (Done (answer (not_found "No repository %s" [VStr id])), s'))
  ∧ (∀ repo,
       api_repository (VStr id) RepositoryActions.default_fields (server s)
         = Some repo →
       ∃ d,
         Repository.GET req id s = (Done (answer (ok (VDict d))), s')
         ∧ d !! "files_count"
           = Some (VInt (Z.of_nat
                           (String.length (extend_uri_path req (VStr "files")))))
         ∧ d !! "uri_ref" = Some (VStr (uri_path req))
         ∧ (∀ field, field ∈ RepositoryDeferredFields.exposed_fields →
                     d !! field = Some (VStr (extend_uri_path req (VStr field))))
         ∧ (∀ k, k ∉ RepositoryDeferredFields.exposed_fields →
                 k ≠ "uri_ref" → k ≠ "files_count" → d !! k = repo !! k)).
Proof.
  cbv zeta. unfold Repository.GET. rewrite bind_find_repository. split.
  - by intros ->.
  - intros repo ->.
    set (linked := foldl _ repo RepositoryDeferredFields.exposed_fields).
    assert (∀ k, linked !! k =
                 if bool_decide (k ∈ RepositoryDeferredFields.exposed_fields)
                 then Some (VStr (extend_uri_path req (VStr k)))
                 else repo !! k) as Hlinked.
    { intros k.
      apply (references_lookup (λ field, VStr (extend_uri_path req (VStr field)))). }
    assert (<["uri_ref" := VStr (uri_path req)]> linked !! "files"
            = Some (VStr (extend_uri_path req (VStr "files")))) as Hfiles.
    { rewrite lookup_insert_ne by done. rewrite Hlinked.
      rewrite bool_decide_eq_true_2; [done|].
      do 5 apply list_elem_of_further. apply list_elem_of_here. }
    rewrite bind_sub, Hfiles. cbn [len]. rewrite bind_ret_H.
    eexists. split; [reflexivity|].
    split; [by rewrite lookup_insert_eq|].
    split; [by rewrite lookup_insert_ne, lookup_insert_eq by done|].
    split.
    + intros field Hfield.
      assert (field ≠ "files_count" ∧ field ≠ "uri_ref") as [? ?].
      { split; intros ->; revert Hfield;
          unfold RepositoryDeferredFields.exposed_fields;
          rewrite !elem_of_cons, elem_of_nil; intros Hfield;
          repeat (destruct Hfield as [Hfield|Hfield]; [discriminate|]);
          done. }
      rewrite !lookup_insert_ne by done.
      by rewrite Hlinked, bool_decide_eq_true_2.
    + intros k Hk Huri Hcount. rewrite !lookup_insert_ne by done.
      by rewrite Hlinked, bool_decide_eq_false_2.
Qed.
End RepositoryGet.

Section RepositoriesGet.
Context {Db Req : Type} `{!Collaborators Db Req} `{!Services Db Req}.
Import Repositories.

Lemma link_fields (req : Req) (i : string) (fields : list string)
    (repo : gmap string Value) (s : Session Db) :
  repo !! "id" = Some (VStr i) →
  "id" ∉ fields →
  fold_each
    (λ repo field,
       id ← sub repo "id";
       path ← join_slash id field;
       mret (<[field := VStr (extend_uri_path req (VStr path))]> repo))
    repo fields s
  = (Done (foldl (λ repo field,
                    <[field := VStr (extend_uri_path req
                                       (VStr (i +:+ "/" +:+ field)))]> repo)
                 repo fields), s).
Proof.
  revert repo. induction fields as [|f fields IH]; intros repo Hid Hfields.
  - reflexivity.
  - cbn [fold_each foldl]. rewrite bind_assoc_H, bind_sub, Hid.
    cbn [join_slash]. rewrite bind_assoc_H, !bind_ret_H. apply IH.
    + rewrite lookup_insert_ne; [done|].
      intros ->. apply Hfields, list_elem_of_here.
    + intros Hin. by apply Hfields, list_elem_of_further.
Qed.

Lemma describe_run (req : Req) (d : gmap string Value) (i : string)
    (fl : list Value) (count : Value) (s : Session Db) :
  listable d = Some (i, fl) →
  api_invoke "package_count" [VStr i] [] (server s) = (Done count, server s) →
  describe req (VDict d) s
  = (Done (VDict (listing req count i fl d)),
     mkSession (server s)
               (invoked s ++ [invocation "package_count" [VStr i] []])).
Proof.
  unfold listable. intros Hd Hcount.
  destruct (d !! "id") as [[| | |i'| |]|] eqn:Hid; try discriminate.
  destruct (d !! "files") as [[| | | |fl'|]|] eqn:Hfiles; try discriminate.
  injection Hd as -> ->.
  unfold describe. cbn [item]. rewrite bind_sub, Hid, bind_ret_H, bind_sub.
  rewrite lookup_insert_ne, Hid by done.
  rewrite bind_call. cbv zeta. rewrite Hcount. cbn [fst snd].
  rewrite bind_sub, !lookup_insert_ne, Hfiles by done. cbn [len].
  rewrite bind_ret_H.
  unfold mbind at 1, H_bind at 1. rewrite (link_fields req i).
  - reflexivity.
  - by rewrite !lookup_insert_ne by done.
  - unfold RepositoryDeferredFields.exposed_fields.
    rewrite !elem_of_cons, elem_of_nil. intros Hin.
    repeat (destruct Hin as [Hin|Hin]; [discriminate|]). done.
Qed.

(** The entries of a list of documents. *)
Lemma describe_all (req : Req) (count : string → Value)
    (ds : list (gmap string Value)) (s : Session Db) :
  Forall (λ d, is_Some (listable d)) ds →
  (∀ i, api_invoke "package_count" [VStr i] [] (server s)
        = (Done (count i), server s)) →
  for_each (describe req) (VDict <$> ds) s
  = (Done (omap (λ d, '(i, fl) ← listable d;
                      Some (VDict (listing req (count i) i fl d))) ds),
     mkSession (server s)
       (invoked s ++
        omap (λ d, '(i, fl) ← listable d;
                   Some (invocation "package_count" [VStr i] [])) ds)).
Proof.
  intros Hds Hcount. revert s Hcount.
  induction Hds as [|d ds [[i fl] Hd] Hds IH]; intros s Hcount.
  - cbn. by rewrite app_nil_r; destruct s.
  - cbn [fmap list_fmap for_each omap list_omap]. rewrite Hd.
    cbn -[describe listing for_each].
    unfold mbind at 1, H_bind at 1.
    rewrite (describe_run req d i fl (count i)) by done.
    unfold mbind at 1, H_bind at 1.
    rewrite IH by done. cbn -[listing]. by rewrite <- app_assoc.
Qed.

(** X11.  [Repositories.GET], when [api.repositories] returns documents
    that each have a string [id] and a list of [files], and counting
    packages returns without changing the server state: the answer is 200
    OK with one entry per document, in order; packages are counted once per
    document; and in the entry of a document [files_count] is the number
    of its files, counted before [files] and the other deferred fields are
    replaced by their paths under the repository's id. *)
Theorem GET_lists_repositories (req : Req) (s : Session Db)
    (ds : list (gmap string Value)) (w : World Db) (count : string → Value) :
  let spec :=
    filters_to_re_spec
      (filters req (VList (VStr <$> ["id"; "name"; "arch"; "groupid";
                                      "relative_path"]))) in
  let query := [spec; VList (VStr <$> RepositoryActions.default_fields)] in
  api_invoke "repositories" query [] (server s) = (Done (VList (VDict <$> ds)), w) →
  Forall (λ d, is_Some (listable d)) ds →
  (∀ i, api_invoke "package_count" [VStr i] [] w = (Done (count i), w)) →
  ∃ entries s',
    GET req s = (Done (answer (ok (VList (VDict <$> entries)))), s')
    ∧ server s' = w
    ∧ length (new_invocations s s') = S (length ds)
    ∧ Forall2
        (λ d e, ∃ i fl,
           listable d = Some (i, fl)
           ∧ e = listing req (count i) i fl d
           ∧ e !! "files_count" = Some (VInt (Z.of_nat (length fl)))
           ∧ e !! "files"
             = Some (VStr (extend_uri_path req (VStr (i +:+ "/files"))))
           ∧ e !! "uri_ref" = Some (VStr (extend_uri_path req (VStr i)))
           ∧ e !! "package_count" = Some (count i))
        ds entries.
Proof.
  cbv zeta. intros Hquery Hds Hcount. unfold GET.
  rewrite bind_call. cbv zeta. rewrite Hquery. cbn [fst snd iterate].
  rewrite bind_ret_H. unfold mbind at 1, H_bind at 1.
  rewrite (describe_all req count) by done. cbn [server invoked].
  exists (omap (λ d, '(i, fl) ← listable d;
                     Some (listing req (count i) i fl d)) ds).
  assert (omap (λ d, '(i, fl) ← listable d;
                     Some (VDict (listing req (count i) i fl d))) ds
          = VDict <$> omap (λ d, '(i, fl) ← listable d;
                                 Some (listing req (count i) i fl d)) ds)
    as ->.
  { clear. induction ds as [|d ds IH]; [done|].
    cbn -[listing]. destruct (listable d) as [[i fl]|]; cbn -[listing];
      by rewrite IH. }
  eexists. split; [reflexivity|].
  split; [reflexivity|split].
  - rewrite <- app_assoc, new_invocations_app. cbn [app length]. f_equal.
    clear -Hds. induction Hds as [|d ds [[i fl] Hd] Hds IH]; [done|].
    cbn. rewrite Hd. cbn. by rewrite IH.
  - clear -Hds. induction Hds as [|d ds [[i fl] Hd] Hds IH]; [constructor|].
    cbn. rewrite Hd. cbn. constructor; [|exact IH].
    exists i, fl. split; [done|]. split; [done|].
    unfold listing, RepositoryDeferredFields.exposed_fields. cbn [foldl].
    repeat split.
    + by rewrite !lookup_insert_ne, lookup_insert_eq by done.
    + by rewrite !lookup_insert_ne, lookup_insert_eq by done.
    + by rewrite !lookup_insert_ne, lookup_insert_eq by done.
    + by rewrite !lookup_insert_ne, lookup_insert_eq by done.
Qed.
End RepositoriesGet.

(** ** [RepositoryDeferredFields] *)

Section DeferredFields.
Context {Db Req : Type} `{!Collaborators Db Req} `{!Services Db Req}.
Import RepositoryDeferredFields.

(** X12.  Every name in [exposed_fields] is bound in the class body to one
    of its [def]s, so for an exposed field [GET] is a call of that method
    (it looks nothing up itself), and never answers "No implementation for
    %s found". *)
Theorem exposed_fields_are_implemented (field_name : string) :
  field_name ∈ exposed_fields →
  ∃ f : FieldMethod,
    namespace !! field_name = Some (attr_def f)
    ∧ getattr field_name = Some (method f)
    ∧ ∀ (req : Req) (id : string) (s : Session Db),
        GET req id field_name s = method f req id s.
Proof.
  intros Hin.
  assert (∃ f, namespace !! field_name = Some (attr_def f)) as [f Hf].
  { unfold exposed_fields in Hin.
    repeat (apply elem_of_cons in Hin as [->|Hin];
            [eexists; vm_compute; reflexivity|]).
    by apply elem_of_nil in Hin. }
  exists f. split; [exact Hf|].
  assert (getattr field_name = Some (method f)) as Hget.
  { unfold getattr. by rewrite Hf. }
  split; [exact Hget|].
  intros req id s. unfold GET. by rewrite Hget.
Qed.

(** X13.  The two notes in the source hold: no name is both an exposed
    field and an exposed action, and neither tuple names anything twice. *)
Theorem exposed_names_are_distinct :
  NoDup (exposed_fields ++ RepositoryActions.exposed_actions).
Proof. apply (bool_decide_unpack (NoDup _)). by vm_compute. Qed.

(** X14.  [packagegroups] and [packagegroupcategories] answer 404 Not
    Found when [api.repository] finds nothing.  For a document that has no
    such key they differ: the package groups are answered as [None], the
    package group categories as the empty list. *)
Theorem deferred_groups (req : Req) (id : string) (s : Session Db) :
  (api_repository (VStr id) ["id"; "packagegroups"] (server s) = None →
   ∃ s', packagegroups req id s
         = (Done (answer (not_found "No repository %s" [VStr id])), s'))
  ∧ (api_repository (VStr id) ["id"; "packagegroupcategories"] (server s)
       = None →
     ∃ s', packagegroupcategories req id s
           = (Done (answer (not_found "No repository %s" [VStr id])), s'))
  ∧ (∀ repo,
       api_repository (VStr id) ["id"; "packagegroups"] (server s)
         = Some repo →
       ∃ s', packagegroups req id s
             = (Done (answer (ok (default VNone (repo !! "packagegroups")))), s')
             ∧ server s' = server s)
  ∧ (∀ repo,
       api_repository (VStr id) ["id"; "packagegroupcategories"] (server s)
         = Some repo →
       ∃ s', packagegroupcategories req id s
             = (Done (answer (ok (default (VList [])
                                    (repo !! "packagegroupcategories")))), s')
             ∧ server s' = server s).
Proof.
  unfold packagegroups, packagegroupcategories.
  rewrite !bind_find_repository.
  repeat split.
  - intros ->. by eexists.
  - intros ->. by eexists.
  - intros repo ->. by eexists.
  - intros repo ->. by eexists.
Qed.

(** X15.  [packages] pops the filter [filed], not [field]: when
    [self.filters] returns no filter of that name, [api.get_packages] is
    called with no field selection ([None]) and with the specification of
    all the filters, [field] among them.  What it returns is answered 200
    OK; a [PulpException] it raises is answered 404 Not Found, as if there
    were no such repository; any other exception is passed on. *)
Theorem packages_selects_no_fields (req : Req) (id : string) (s : Session Db) :
  let given :=
    filters req (VList (VStr <$> ["name"; "version"; "release"; "epoch";
                                   "arch"; "filename"; "field"])) in
  let spec := if truthy (filters_to_re_spec given)
              then filters_to_re_spec given else VDict ∅ in
  let query := [VStr id; spec; VNone] in
  given !! "filed" = None →
  new_invocations s (packages req id s).2 = [invocation "get_packages" query []]
  ∧ server (packages req id s).2
    = (api_invoke "get_packages" query [] (server s)).2
  ∧ (packages req id s).1
    = match (api_invoke "get_packages" query [] (server s)).1 with
      | Done found => Done (answer (ok found))
      | Failed PulpException =>
          Done (answer (not_found "No repository %s" [VStr id]))
      | Failed e => Failed e
      end.
Proof.
  cbv zeta. intros Hfiled. unfold packages, dict_get. rewrite Hfiled.
  rewrite delete_id by done. cbn [default]. unfold call.
  destruct (api_invoke _ _ _ _) as [[found|[e|]] w]; cbn [fst snd server];
    by rewrite new_invocations_app.
Qed.
End DeferredFields.

(** ** The other action methods *)

Section ActionBodies.
Context {Db Req : Type} `{!Collaborators Db Req} `{!Services Db Req}.
Import Actions.

Lemma has_true (p : gmap string Value) (k : string) (v : Value) :
  p !! k = Some v → has p k = true.
Proof. intros Hk. unfold has. apply bool_decide_eq_true_2. by eexists. Qed.

Lemma has_false (p : gmap string Value) (k : string) :
  p !! k = None → has p k = false.
Proof.
  intros Hk. unfold has. apply bool_decide_eq_false_2.
  rewrite Hk. by intros [? ?].
Qed.

(** Unfold the body of an action. *)
Ltac action_body :=
  cbv delta [upload add_package delete_package get_package
             add_packages_to_group delete_package_from_group
             create_packagegroup import_comps delete_packagegroup
             create_packagegroupcategory delete_packagegroupcategory
             add_packagegroup_to_category delete_packagegroup_from_category
             add_errata delete_errata add_file remove_file addkeys
             get_package_by_nvrea get_package_by_filename rmkeys add_filters
             remove_filters add_group remove_group update_publish missing]
      beta zeta.

(** Decide the presence of each parameter an action looks at. *)
Ltac parameters req :=
  repeat match goal with
  | |- context [has (params req) ?k] =>
      match goal with
      | Hk : params req !! k = Some _ |- _ => rewrite (has_true _ _ _ Hk)
      | Hk : params req !! k = None |- _ => rewrite (has_false _ _ Hk)
      | _ =>
          let Hk := fresh "Hk" in
          destruct (params req !! k) eqn:Hk;
          [rewrite (has_true _ _ _ Hk)|rewrite (has_false _ _ Hk)]
      end;
      cbn [negb]
  | |- context [(sub (params req) ?k ≫= _) _] =>
      rewrite bind_sub;
      match goal with
      | Hk : params req !! k = _ |- _ => rewrite Hk
      | _ => let Hk := fresh "Hk" in destruct (params req !! k) eqn:Hk
      end
  | |- context [(mret _ ≫= _) _] => rewrite bind_ret_H
  end.

(** X16.  The package-group actions test for their parameters: when one
    is not in the request, the answer is 404 Not Found with the message of
    the first one, in the order of the tests, that is not there; the API is
    not called and nothing changes. *)
Theorem actions_test_their_parameters (m : Method)
    (f : Req → string → H Db Answer) (req : Req) (id : string)
    (s : Session Db) (key msg : string) :
  body m = Some f →
  first_absent (params req) fst (tested_parameters m) = Some (key, msg) →
  f req id s = (Done (answer (not_found msg [])), s)
  ∧ answer_code (answer (not_found msg [])) = 404%Z.
Proof.
  intros Hbody Hkey. split; [|done]. unfold first_absent in Hkey.
  destruct m; cbn [body] in Hbody; try discriminate Hbody;
    injection Hbody as <-; cbn [tested_parameters] in Hkey;
    try discriminate Hkey;
    cbn [list_find fst] in Hkey;
    repeat match type of Hkey with
    | context [decide (params req !! ?k = None)] =>
        destruct (params req !! k) eqn:?;
        [rewrite decide_False in Hkey by done
        |rewrite decide_True in Hkey by done];
        cbn [fmap option_fmap option_map prod_map snd] in Hkey
    end;
    try discriminate Hkey;
    injection Hkey as <- <-;
    action_body; parameters req; reflexivity.
Qed.

(** X17.  The other actions subscript their parameters: when one is not in
    the request, [KeyError] is raised for the first one, in the order they
    are read, that is not there; the API is not called and nothing
    changes. *)
Theorem actions_subscript_their_parameters (m : Method)
    (f : Req → string → H Db Answer) (req : Req) (id : string)
    (s : Session Db) (key : string) :
  body m = Some f →
  first_absent (params req) (λ k, k) (subscripted_parameters m) = Some key →
  f req id s = (Failed (Builtin (KeyError key)), s).
Proof.
  intros Hbody Hkey. unfold first_absent in Hkey.
  destruct m; cbn [body] in Hbody; try discriminate Hbody;
    injection Hbody as <-; cbn [subscripted_parameters] in Hkey;
    try discriminate Hkey;
    cbn [list_find] in Hkey;
    repeat match type of Hkey with
    | context [decide (params req !! ?k = None)] =>
        destruct (params req !! k) eqn:?;
        [rewrite decide_False in Hkey by done
        |rewrite decide_True in Hkey by done];
        cbn [fmap option_fmap option_map prod_map snd] in Hkey
    end;
    try discriminate Hkey;
    injection Hkey as <-;
    action_body; parameters req; reflexivity.
Qed.

(** X18.  [update_publish] passes [bool(state)] to [api.publish]: a state
    given as a string that is not empty publishes the repository, whatever
    the string says ("false" and "0" included). *)
Theorem update_publish_of_a_string (req : Req) (id : string) (s : Session Db)
    (state : string) :
  params req !! "state" = Some (VStr state) →
  state ≠ "" →
  new_invocations s (update_publish req id s).2
  = [invocation "publish" [VStr id; VBool true] []]
  ∧ (update_publish req id s).1
    = match (api_invoke "publish" [VStr id; VBool true] [] (server s)).1 with
      | Done r => Done (answer (ok r))
      | Failed e => Failed e
      end.
Proof.
  intros Hstate Hne. unfold update_publish.
  rewrite bind_sub, Hstate. cbn [truthy].
  rewrite (bool_decide_eq_false_2 _ Hne). cbn [negb].
  rewrite bind_call. cbv zeta.
  destruct (api_invoke _ _ _ _).1; cbn [mret H_ret fst snd];
    by rewrite new_invocations_app.
Qed.

(** X19.  An action calls the API at most once, and then for the
    repository of the path: a run either calls nothing and changes
    nothing, or makes one call whose first argument, or whose [id]
    keyword, is the id.  An answer of 200 OK always comes after such a
    call. *)
Theorem actions_call_the_api_once (m : Method)
    (f : Req → string → H Db Answer) (req : Req) (id : string)
    (s : Session Db) :
  body m = Some f →
  ((f req id s).2 = s
   ∨ ∃ i, new_invocations s (f req id s).2 = [i] ∧ about id i)
  ∧ (∀ a, (f req id s).1 = Done a → answer_code a = 200%Z →
          ∃ i, new_invocations s (f req id s).2 = [i] ∧ about id i).
Proof.
  intros Hbody.
  destruct m; cbn [body] in Hbody; try discriminate Hbody;
    injection Hbody as <-; action_body; parameters req;
    try (split;
         [by left
         |intros ans Hans Hcode; unfold mret, H_ret in Hans; cbn [fst] in Hans;
          first [discriminate Hans
                |injection Hans as <-; discriminate Hcode]]);
    rewrite bind_call; cbv zeta;
    destruct (api_invoke _ _ _ _).1 as [returned|raised];
    unfold mret, H_ret; cbn [fst snd];
    rewrite new_invocations_app;
    (split; [right|intros ans _ _]; eexists; (split; [reflexivity|]);
     first [by left | by right]).
Qed.
End ActionBodies.

(** ** Invariants of the [TaskSchedule] table *)

Section ScheduleInvariants.
Import Migration.

Lemma omap_nil_inv {A B} (f : A → option B) (l : list A) (x : A) :
  omap f l = [] → x ∈ l → f x = None.
Proof.
  intros Hnil Hin. destruct (f x) as [y|] eqn:Hx; [|done].
  assert (y ∈ omap f l) as Hy by (apply list_elem_of_omap; eauto).
  rewrite Hnil in Hy. by apply elem_of_nil in Hy.
Qed.

(** What a stored row satisfies. *)
Lemma create_stored (now : Z) (fresh : N) (given : gmap string Cell)
    (db db' : Database) (row : gmap string Cell) :
  create TaskSchedule now fresh given db = (inr row, db') →
  row = new_row TaskSchedule now fresh given
  ∧ db' = mkDatabase (task db) (rows db ++ [row])
  ∧ ∀ c, c ∈ TaskSchedule → violation db row c = None.
Proof.
  unfold create.
  destruct (omap _ TaskSchedule) eqn:Hnone; [|discriminate].
  intros [= <- <-]. repeat split. intros c Hc.
  by apply (omap_nil_inv _ _ _ Hnone).
Qed.

Lemma create_refused (now : Z) (fresh : N) (given : gmap string Cell)
    (db : Database) (c : string * Field) (e : DbError) :
  c ∈ TaskSchedule →
  violation db (new_row TaskSchedule now fresh given) c = Some e →
  ∃ e', create TaskSchedule now fresh given db = (inl e', db).
Proof.
  intros Hc He. unfold create.
  destruct (omap_head_error
              (violation db (new_row TaskSchedule now fresh given))
              TaskSchedule c) as (e' & l' & ->); [done|by eexists|].
  by exists e'.
Qed.

(** A column checked for uniqueness stays without duplicates. *)
Lemma stored_keeps_distinct (db : Database) (row : gmap string Cell)
    (c : string * Field) (v : Cell) :
  unique c.2 || primary_key c.2 = true →
  row !! c.1 = Some v →
  violation db row c = None →
  distinct_in c.1 (rows db) →
  distinct_in c.1 (rows db ++ [row]).
Proof.
  intros Hunique Hv Hnone Hdistinct.
  assert (v ≠ NULL → ¬ Exists (λ r, r !! c.1 = Some v) (rows db)) as Hfree.
  { intros Hnull Hex. unfold violation in Hnone. rewrite Hv, Hunique in Hnone.
    rewrite (bool_decide_eq_true_2 _ Hex) in Hnone. by destruct v. }
  assert (∀ i r u, rows db !! i = Some r → r !! c.1 = Some u →
                   row !! c.1 = Some u → u ≠ NULL → False) as Hclash.
  { intros i r u Hi Hr Hrow Hu. rewrite Hv in Hrow. injection Hrow as <-.
    apply (Hfree Hu). apply Exists_exists. exists r. split; [|done].
    by eapply list_elem_of_lookup_2. }
  intros i j r r' u Hi Hj Hr Hr' Hu.
  destruct (decide (i < length (rows db))) as [Hlt|Hge];
    destruct (decide (j < length (rows db))) as [Hlt'|Hge'].
  - rewrite lookup_app_l in Hi, Hj by done. by eapply Hdistinct.
  - rewrite lookup_app_l in Hi by done.
    rewrite lookup_app_r in Hj by lia.
    apply list_lookup_singleton_Some in Hj as [_ <-].
    destruct (Hclash i r u); done.
  - rewrite lookup_app_l in Hj by done.
    rewrite lookup_app_r in Hi by lia.
    apply list_lookup_singleton_Some in Hi as [_ <-].
    destruct (Hclash j r' u); done.
  - rewrite lookup_app_r in Hi, Hj by lia.
    apply list_lookup_singleton_Some in Hi as [Hi _].
    apply list_lookup_singleton_Some in Hj as [Hj _]. lia.
Qed.

Lemma distinct_in_singleton (col : string) (r : gmap string Cell) :
  distinct_in col [r].
Proof.
  intros [|i] [|j] q q' v Hi Hj _ _ _; [done|done|done|done].
Qed.

Lemma new_row_pulp_id (now : Z) (fresh : N) (given : gmap string Cell) :
  new_row TaskSchedule now fresh given !! "pulp_id"
  = Some (match given !! "pulp_id" with Some v => v | None => Uuid fresh end).
Proof. reflexivity. Qed.

Lemma new_row_last_task (now : Z) (fresh : N) (given : gmap string Cell) :
  new_row TaskSchedule now fresh given !! "last_task"
  = Some (match given !! "last_task" with Some v => v | None => NULL end).
Proof. reflexivity. Qed.

(** X20.  Creation keeps names and ids unique: if no two stored schedules
    have the same name, and no two the same [pulp_id], then whatever is
    given, after a creation that succeeds this is still so. *)
Theorem create_keeps_names_and_ids_distinct (now : Z) (fresh : N)
    (given : gmap string Cell) (db db' : Database) (row : gmap string Cell) :
  distinct_in "name" (rows db) →
  distinct_in "pulp_id" (rows db) →
  create TaskSchedule now fresh given db = (inr row, db') →
  distinct_in "name" (rows db') ∧ distinct_in "pulp_id" (rows db').
Proof.
  intros Hname Hid (-> & -> & Hok)%create_stored. cbn [rows]. split.
  - eapply (stored_keeps_distinct db _
              ("name", mkField (CharField 256) None false true false false
                               false true true));
      [done|apply new_row_name| |done].
    apply Hok. do 4 apply list_elem_of_further. apply list_elem_of_here.
  - eapply (stored_keeps_distinct db _
              ("pulp_id", mkField UUIDField (Some uuid4) false false true false
                                  false false false));
      [done|apply new_row_pulp_id| |done].
    apply Hok. apply list_elem_of_here.
Qed.
(** X21.  Creation keeps the references sound.  If no stored schedule
    refers to a task that is not there, then after a creation that
    succeeds, whatever was given, none does; and a creation that gives as
    [last_task] a task that is not there is refused and leaves the
    database as it was. *)
Theorem create_keeps_references_sound (now : Z) (fresh : N)
    (given : gmap string Cell) (db : Database) :
  (∀ db' row,
     no_dangling db →
     create TaskSchedule now fresh given db = (inr row, db') →
     no_dangling db')
  ∧ (∀ u,
       given !! "last_task" = Some (Uuid u) →
       u ∉ task db →
       ∃ e, create TaskSchedule now fresh given db = (inl e, db)).
Proof.
  split.
  - intros db' row Hsound (-> & -> & Hok)%create_stored.
    unfold no_dangling. cbn [rows]. apply Forall_app. split.
    + eapply Forall_impl; [exact Hsound|]. by intros r Hr.
    + apply Forall_singleton. unfold follow. cbn [task].
      rewrite new_row_last_task.
      destruct (given !! "last_task") as [[|u| | |]|] eqn:Hgiven; try done.
      case_bool_decide as Hu; [done|].
      assert (violation db (new_row TaskSchedule now fresh given)
                ("last_task",
                 mkField (ForeignKey "core.task" SET_NULL) None true false
                         false false false true true) = None) as Hnone.
      { apply Hok. do 7 apply list_elem_of_further. apply list_elem_of_here. }
      unfold violation in Hnone. cbn [fst snd] in Hnone.
      rewrite new_row_last_task, Hgiven in Hnone.
      cbn [unique primary_key orb andb kind] in Hnone.
      by rewrite (bool_decide_eq_false_2 _ Hu) in Hnone.
  - intros u Hgiven Hu.
    apply (create_refused now fresh given db
             ("last_task",
              mkField (ForeignKey "core.task" SET_NULL) None true false
                      false false false true true)
             (IntegrityError "last_task")).
    + do 7 apply list_elem_of_further. apply list_elem_of_here.
    + unfold violation. cbn [fst snd]. rewrite new_row_last_task, Hgiven.
      cbn [unique primary_key orb andb kind].
      by rewrite (bool_decide_eq_false_2 _ Hu).
Qed.

(** X22.  Deleting a task deletes and renames no schedule: the table has
    as many rows as before, a row differs from what it was in no column
    but [last_task], a row that did not refer to the task is as it was,
    and names that were distinct are still distinct. *)
Theorem delete_task_keeps_schedules (u : N) (db : Database) :
  ∃ db',
    delete_task TaskSchedule u db = (None, db')
    ∧ length (rows db') = length (rows db)
    ∧ (∀ i r, rows db !! i = Some r →
         ∃ r', rows db' !! i = Some r'
               ∧ (∀ col, col ≠ "last_task" → r' !! col = r !! col)
               ∧ (r !! "last_task" ≠ Some (Uuid u) → r' = r))
    ∧ (distinct_in "name" (rows db) → distinct_in "name" (rows db')).
Proof.
  eexists. split; [apply delete_task_run|]. cbn [rows].
  assert (∀ r col, col ≠ "last_task" → clear_last_task u r !! col = r !! col)
    as Hcol.
  { intros r col Hne. unfold clear_last_task. case_bool_decide; [|done].
    by rewrite lookup_insert_ne. }
  split; [apply length_fmap|]. split.
  - intros i r Hi. exists (clear_last_task u r). split; [|split].
    + by rewrite list_lookup_fmap, Hi.
    + apply Hcol.
    + intros Hne. unfold clear_last_task. by rewrite bool_decide_eq_false_2.
  - intros Hdistinct i j r r' v Hi Hj Hr Hr' Hv.
    rewrite list_lookup_fmap in Hi, Hj.
    destruct (rows db !! i) as [q|] eqn:Hqi; [|done].
    destruct (rows db !! j) as [q'|] eqn:Hqj; [|done].
    injection Hi as <-. injection Hj as <-.
    rewrite Hcol in Hr, Hr' by done.
    by apply (Hdistinct i j q q' v).
Qed.

(** X23.  What creation never stores.  Whatever is given, the row of a
    creation that succeeds has a name and a task name that are not NULL
    and, when they are strings, are at most 256 characters long; its
    [pulp_id] is not NULL; and its two time stamps are the time of the
    creation, also when other values were given for them. *)
Theorem create_stores_checked_columns (now : Z) (fresh : N)
    (given : gmap string Cell) (db db' : Database) (row : gmap string Cell) :
  create TaskSchedule now fresh given db = (inr row, db') →
  (∀ col, col = "name" ∨ col = "task_name" →
     ∃ v, row !! col = Some v ∧ v ≠ NULL
          ∧ ∀ s, v = Str s → (String.length s ≤ 256)%nat)
  ∧ (∃ v, row !! "pulp_id" = Some v ∧ v ≠ NULL)
  ∧ row !! "pulp_created" = Some (Timestamp now)
  ∧ row !! "pulp_last_updated" = Some (Timestamp now).
Proof.
  intros (-> & -> & Hok)%create_stored.
  assert (∀ c,
            c ∈ TaskSchedule → null c.2 = false →
            ∃ v, new_row TaskSchedule now fresh given !! c.1 = Some v
                 ∧ v ≠ NULL
                 ∧ ∀ n s, kind c.2 = CharField n → v = Str s →
                          (String.length s ≤ n)%nat) as Hchecked.
  { intros c Hc Hnull. specialize (Hok c Hc). unfold violation in Hok.
    rewrite Hnull in Hok. cbn [andb] in Hok.
    destruct (new_row TaskSchedule now fresh given !! c.1) as [v|];
      [|discriminate].
    exists v. split; [done|]. split; [by intros ->|].
    intros n s Hkind ->.
    destruct ((unique c.2 || primary_key c.2) && _); [discriminate|].
    rewrite Hkind in Hok. case_bool_decide; [done|discriminate]. }
  split; [|split; [|by split]].
  - intros col [->| ->].
    + destruct (Hchecked
                  ("name", mkField (CharField 256) None false true false false
                                   false true true))
        as (v & Hv & Hnull & Hlen); [|done|].
      { do 4 apply list_elem_of_further. apply list_elem_of_here. }
      exists v. split; [done|]. split; [done|]. intros s. by apply Hlen.
    + destruct (Hchecked
                  ("task_name",
                   mkField (CharField 256) None false false false false
                           false true true))
        as (v & Hv & Hnull & Hlen); [|done|].
      { do 6 apply list_elem_of_further. apply list_elem_of_here. }
      exists v. split; [done|]. split; [done|]. intros s. by apply Hlen.
  - destruct (Hchecked
                ("pulp_id", mkField UUIDField (Some uuid4) false false true
                                    false false false false))
      as (v & Hv & Hnull & _); [apply list_elem_of_here|done|].
    by exists v.
Qed.
End ScheduleInvariants.

(** ** More runs on the reference implementation *)

Section MoreRuns.
Import Reference Migration.

(** X1 at work: cloning [repo-a] under the free id [repo-c] is accepted
    and queues one task. *)
Lemma clone_dispatches_witness :
  ∃ r st',
    RepositoryActions.clone (clone_req "repo-c") "repo-a" st0 = (Return r, st')
    ∧ status_code (status r) = 202%Z
    ∧ length (tasks (world st')) = 1.
Proof.
  pose (t := mkTask "task-0" "_clone"
               [VStr "repo-a"; VStr "repo-c"; VStr "copy";
                VStr "yum:http://example.com/a"] ∅ QUEUED VNone VNone 0
               None None).
  destruct (clone_dispatches (clone_req "repo-c") "repo-a" st0
              (filter (λ kv : string * Value,
                         kv.1 ∈ RepositoryActions.default_fields) repo_a)
              (VStr "repo-c") (VStr "copy") (VStr "yum:http://example.com/a")
              (Some t) (mkWorld store [t]))
    as (r & st' & Hrun & Hworld & _ & _ & Hcode & _);
    [reflexivity|reflexivity|reflexivity|reflexivity|reflexivity|reflexivity|].
  exists r, st'. split; [exact Hrun|]. split; [exact Hcode|].
  rewrite Hworld. reflexivity.
Defined.

(** X2 at work: cloning [repo-a] with an empty request, and with a
    request that has no [feed]. *)
Lemma clone_incomplete_request_witness :
  (∃ st', RepositoryActions.clone sync_req "repo-a" st0
          = (Raise (KeyError "clone_id"), st')
          ∧ world st' = world st0
          ∧ Forall (λ c, is_call_clone c = false) (new_calls st0 st'))
  ∧ (∃ st', RepositoryActions.clone
              (mkReq (<["clone_id" := VStr "repo-c"]>
                     (<["clone_name" := VStr "copy"]> ∅))) "repo-a" st0
            = (Raise (KeyError "feed"), st')
            ∧ world st' = world st0
            ∧ Forall (λ c, is_call_clone c = false) (new_calls st0 st')
            ∧ created_tasks (new_calls st0 st') = []).
Proof.
  split.
  - destruct (clone_incomplete_request sync_req "repo-a" st0
                (filter (λ kv : string * Value,
                           kv.1 ∈ RepositoryActions.default_fields) repo_a))
      as [Hnone _]; [reflexivity|].
    apply Hnone. reflexivity.
  - destruct (clone_incomplete_request
                (mkReq (<["clone_id" := VStr "repo-c"]>
                       (<["clone_name" := VStr "copy"]> ∅)))
                "repo-a" st0
                (filter (λ kv : string * Value,
                           kv.1 ∈ RepositoryActions.default_fields) repo_a))
      as [_ Hkey]; [reflexivity|].
    apply (Hkey (VStr "repo-c") "feed"); reflexivity.
Defined.

(** X3 at work: syncing a repository that is not there, and one whose
    document has no [source]. *)
Lemma sync_raises_without_document_witness :
  (∃ st', RepositoryActions.sync sync_req "repo-zz" st0
          = (Raise (TypeError "'NoneType' object is not subscriptable"), st'))
  ∧ (let bare := mkSt (mkWorld (<["repo-n" := <["id" := VStr "repo-n"]> ∅]> ∅)
                               []) [] in
     ∃ st', RepositoryActions.sync sync_req "repo-n" bare
            = (Raise (KeyError "source"), st')).
Proof.
  split.
  - eexists.
    apply (proj1 (sync_raises_without_document sync_req "repo-zz" st0)).
    reflexivity.
  - eexists.
    apply (proj2 (sync_raises_without_document sync_req "repo-n"
                    (mkSt (mkWorld (<["repo-n" := <["id" := VStr "repo-n"]> ∅]>
                                      ∅) []) []))
                 ∅);
      reflexivity.
Defined.

(** X4 at work: [task-0], a sync of [repo-a], is reported and canceled
    under the path of a clone of [repo-b]. *)
Lemma status_path_ignores_repository_and_action_witness :
  RepositoryActionStatus.GET status_req "repo-a" "sync" "task-0" st1
  = RepositoryActionStatus.GET status_req "repo-b" "clone" "task-0" st1
  ∧ RepositoryActionStatus.DELETE status_req "repo-a" "sync" "task-0" st1
    = RepositoryActionStatus.DELETE status_req "repo-b" "clone" "task-0" st1.
Proof.
  apply (status_path_ignores_repository_and_action status_req
           "repo-a" "sync" "repo-b" "clone" "task-0" st1).
  exists 0. reflexivity.
Defined.

(** X5 at work: the two histories of [repo-a] after two syncs. *)
Lemma history_of_sync_and__sync_witness :
  RepositoryActions.GET sync_req "repo-a" "sync" st2
  = RepositoryActions.GET sync_req "repo-a" "_sync" st2.
Proof.
  apply (proj2 (history_of_sync_and__sync sync_req "repo-a" st2)).
  vm_compute. discriminate.
Defined.

(** X6 at work: renaming [repo-a] to [repo-b]. *)
Lemma PUT_cannot_change_id_witness :
  Repository.PUT (Demo.body (<["id" := VStr "repo-b"]> ∅)) "repo-a" Demo.s0
  = (Done (bad_request "You cannot change a repository id" []), Demo.s0)
  ∧ answer_code (bad_request "You cannot change a repository id" []) = 400%Z.
Proof.
  apply (PUT_cannot_change_id (Demo.body (<["id" := VStr "repo-b"]> ∅))
           "repo-a" Demo.s0 (VStr "repo-b"));
    [reflexivity|discriminate].
Defined.

(** X7 at work: an update that gives a new name and a path for [files]
    passes the name and drops the path. *)
Lemma PUT_passes_the_delta_witness :
  let req := Demo.body (<["name" := VStr "A2"]> (<["files" := VStr "/f/"]> ∅)) in
  ∃ delta : gmap string Value,
    delta !! "name" = Some (VStr "A2")
    ∧ delta !! "files" = None
    ∧ new_invocations Demo.s0 (Repository.PUT req "repo-a" Demo.s0).2
      = [invocation "update" [VStr "repo-a"; VDict delta] []].
Proof.
  intros req.
  destruct (PUT_passes_the_delta req "repo-a" Demo.s0)
    as (delta & Hdelta & Hcalls & _); [left; reflexivity|].
  exists delta. split; [|split].
  - rewrite Hdelta. reflexivity.
  - rewrite Hdelta. reflexivity.
  - exact Hcalls.
Defined.

(** X8 at work: creating [repo-a] again, and creating without an id. *)
Lemma POST_existing_repository_witness :
  (∃ a s',
     Repositories.POST (Demo.body (<["id" := VStr "repo-a"]> ∅)) Demo.s0
     = (Done a, s')
     ∧ answer_code a = 409%Z
     ∧ server s' = server Demo.s0)
  ∧ Repositories.POST (Demo.body ∅) Demo.s0
    = (Failed (Builtin (KeyError "id")), Demo.s0).
Proof.
  split.
  - destruct (proj1 (POST_existing_repository
                       (Demo.body (<["id" := VStr "repo-a"]> ∅)) Demo.s0)
                    (VStr "repo-a")
                    (filter (λ kv : string * Value,
                               kv.1 ∈ RepositoryActions.default_fields) repo_a))
      as (a & s' & Hrun & _ & Hcode & Hserver & _);
      [reflexivity|reflexivity|].
    exists a, s'. split; [exact Hrun|]. split; [exact Hcode|exact Hserver].
  - apply (proj2 (POST_existing_repository (Demo.body ∅) Demo.s0)).
    reflexivity.
Defined.

(** X9 at work: creating [repo-c]. *)
Lemma POST_creates_repository_witness :
  let req := Demo.body (<["id" := VStr "repo-c"]> (<["name" := VStr "C"]>
                       (<["arch" := VStr "noarch"]> ∅))) in
  ∃ s',
    Repositories.POST req Demo.s0
    = (Done (created "/pulp/api/repositories/repo-c/"
               (VDict (<["uri_ref" := VStr "/pulp/api/repositories/repo-c/"]>
                         (Demo.document (VStr "repo-c") (VStr "C")
                                        (VStr "noarch") [])))), s')
    ∧ is_Some (db (server s') !! "repo-c").
Proof.
  intros req.
  pose (doc := Demo.document (VStr "repo-c") (VStr "C") (VStr "noarch") []).
  destruct (POST_creates_repository req Demo.s0
              (VStr "repo-c") (VStr "C") (VStr "noarch") (VStr "repo-c") doc
              (mkWorld (<["repo-c" := doc]> store) [])
              (mkWorld (<["repo-c" := doc]> store) []))
    as (s' & Hrun & _ & Hserver & _);
    [reflexivity|reflexivity|reflexivity|reflexivity|reflexivity|reflexivity
    |reflexivity|].
  exists s'. split; [exact Hrun|].
  rewrite Hserver. exists doc. reflexivity.
Defined.

(** X10 at work: [repo-a] has three files and a [files_count] of 29, the
    length of the path of its files; [repo-zz] is not there. *)
Lemma GET_repository_witness :
  (∃ s', Repository.GET (Demo.body ∅) "repo-zz" Demo.s3
         = (Done (answer (not_found "No repository %s" [VStr "repo-zz"])), s'))
  ∧ (∃ d s',
       Repository.GET (Demo.body ∅) "repo-a" Demo.s3
       = (Done (answer (ok (VDict d))), s')
       ∧ d !! "files_count" = Some (VInt 29)).
Proof.
  split.
  - eexists.
    apply (proj1 (GET_repository (Demo.body ∅) "repo-zz" Demo.s3)).
    reflexivity.
  - destruct (proj2 (GET_repository (Demo.body ∅) "repo-a" Demo.s3)
                    (filter (λ kv : string * Value,
                               kv.1 ∈ RepositoryActions.default_fields)
                            (<["files" := VList [VStr "f1"; VStr "f2"; VStr "f3"]]>
                               repo_a)))
      as (d & Hrun & Hcount & _); [reflexivity|].
    exists d. eexists. split; [exact Hrun|exact Hcount].
Defined.

(** X11 at work: in the list, [repo-a] has a [files_count] of 3. *)
Lemma GET_lists_repositories_witness :
  ∃ e s',
    Repositories.GET (Demo.body ∅) Demo.s3
    = (Done (answer (ok (VList [VDict e]))), s')
    ∧ e !! "files_count" = Some (VInt 3).
Proof.
  destruct (GET_lists_repositories (Demo.body ∅) Demo.s3
              [<["files" := VList [VStr "f1"; VStr "f2"; VStr "f3"]]> repo_a]
              (server Demo.s3) (λ _, VInt 0))
    as (entries & s' & Hrun & _ & _ & Hentries).
  - reflexivity.
  - apply Forall_singleton. eexists. reflexivity.
  - intros i. reflexivity.
  - apply Forall2_cons_inv_l in Hentries
      as (e & rest & (i & fl & Hlistable & _ & Hcount & _) & Hrest & ->).
    apply Forall2_nil_inv_l in Hrest as ->.
    injection Hlistable as <- <-.
    exists e, s'. split; [exact Hrun|exact Hcount].
Defined.

(** X12 at work: [files] is exposed and implemented. *)
Lemma exposed_fields_are_implemented_witness :
  ∃ f : FieldMethod,
    RepositoryDeferredFields.namespace !! "files"
    = Some (RepositoryDeferredFields.attr_def f)
    ∧ RepositoryDeferredFields.getattr (Db := gmap string (gmap string Value))
        (Req := Req) "files"
      = Some (RepositoryDeferredFields.method f).
Proof.
  destruct (exposed_fields_are_implemented
              (Db := gmap string (gmap string Value)) (Req := Req) "files")
    as (f & Hnamespace & Hgetattr & _).
  - unfold RepositoryDeferredFields.exposed_fields.
    repeat first [apply list_elem_of_here | apply list_elem_of_further].
  - exists f. split; [exact Hnamespace|exact Hgetattr].
Defined.

(** X14 at work: [repo-a] has neither key. *)
Lemma deferred_groups_witness :
  (∃ s', RepositoryDeferredFields.packagegroups (Demo.body ∅) "repo-a" Demo.s0
         = (Done (answer (ok VNone)), s'))
  ∧ (∃ s', RepositoryDeferredFields.packagegroupcategories (Demo.body ∅)
             "repo-a" Demo.s0
           = (Done (answer (ok (VList []))), s'))
  ∧ (∃ s', RepositoryDeferredFields.packagegroups (Demo.body ∅) "repo-zz"
             Demo.s0
           = (Done (answer (not_found "No repository %s" [VStr "repo-zz"])),
              s')).
Proof.
  pose proof (deferred_groups (Demo.body ∅) "repo-a" Demo.s0)
    as (_ & _ & Hgroups & Hcategories).
  pose proof (deferred_groups (Demo.body ∅) "repo-zz" Demo.s0)
    as (Hnone & _).
  split; [|split].
  - destruct (Hgroups (<["id" := VStr "repo-a"]> ∅))
      as (s' & Hrun & _); [reflexivity|].
    exists s'. exact Hrun.
  - destruct (Hcategories (<["id" := VStr "repo-a"]> ∅))
      as (s' & Hrun & _); [reflexivity|].
    exists s'. exact Hrun.
  - apply Hnone. reflexivity.
Defined.

(** X15 at work: a query for the field [name] alone selects by
    [field = name] and selects no fields. *)
Lemma packages_selects_no_fields_witness :
  let req := Demo.body (<["field" := VStr "name"]> ∅) in
  new_invocations Demo.s0
    (RepositoryDeferredFields.packages req "repo-a" Demo.s0).2
  = [invocation "get_packages"
       [VStr "repo-a"; VDict (<["field" := VStr "name"]> ∅); VNone] []].
Proof.
  intros req.
  destruct (packages_selects_no_fields req "repo-a" Demo.s0)
    as (Hcalls & _); [reflexivity|].
  exact Hcalls.
Defined.

(** X16 at work: creating a package group with an id and no name. *)
Lemma actions_test_their_parameters_witness :
  Actions.create_packagegroup (Demo.body (<["groupid" := VStr "g"]> ∅))
    "repo-a" Demo.s0
  = (Done (answer (not_found "No groupname specified" [])), Demo.s0)
  ∧ answer_code (answer (not_found "No groupname specified" [])) = 404%Z.
Proof.
  apply (actions_test_their_parameters def_create_packagegroup
           Actions.create_packagegroup
           (Demo.body (<["groupid" := VStr "g"]> ∅)) "repo-a" Demo.s0
           "groupname" "No groupname specified");
    reflexivity.
Defined.

(** X17 at work: an upload with the package information and no stream. *)
Lemma actions_subscript_their_parameters_witness :
  Actions.upload (Demo.body (<["pkginfo" := VDict ∅]> ∅)) "repo-a" Demo.s0
  = (Failed (Builtin (KeyError "pkgstream")), Demo.s0).
Proof.
  apply (actions_subscript_their_parameters def_upload Actions.upload
           (Demo.body (<["pkginfo" := VDict ∅]> ∅)) "repo-a" Demo.s0
           "pkgstream");
    reflexivity.
Defined.

(** X18 at work: the state ["false"] publishes. *)
Lemma update_publish_of_a_string_witness :
  new_invocations Demo.s0
    (Actions.update_publish (Demo.body (<["state" := VStr "false"]> ∅))
       "repo-a" Demo.s0).2
  = [invocation "publish" [VStr "repo-a"; VBool true] []].
Proof.
  apply (update_publish_of_a_string
           (Demo.body (<["state" := VStr "false"]> ∅)) "repo-a" Demo.s0
           "false");
    [reflexivity|discriminate].
Defined.

(** X19 at work: adding an erratum to [repo-a]. *)
Lemma actions_call_the_api_once_witness :
  let run := Actions.add_errata (Demo.body (<["errataid" := VStr "e1"]> ∅))
               "repo-a" Demo.s0 in
  ∃ i, new_invocations Demo.s0 run.2 = [i] ∧ about "repo-a" i.
Proof.
  intros run.
  destruct (actions_call_the_api_once def_add_errata Actions.add_errata
              (Demo.body (<["errataid" := VStr "e1"]> ∅)) "repo-a" Demo.s0)
    as (_ & Hok); [reflexivity|].
  apply (Hok (answer (ok (VBool true)))); reflexivity.
Defined.

(** X20 at work: a second schedule, [weekly], beside [nightly]. *)
Lemma create_keeps_names_and_ids_distinct_witness :
  let db' := (create TaskSchedule 200 2 (named "weekly" "sync") schedules).2 in
  length (rows db') = 2
  ∧ distinct_in "name" (rows db') ∧ distinct_in "pulp_id" (rows db').
Proof.
  intros db'. split; [reflexivity|].
  apply (create_keeps_names_and_ids_distinct 200 2 (named "weekly" "sync")
           schedules db'
           (new_row TaskSchedule 200 2 (named "weekly" "sync"))).
  - apply (distinct_in_singleton "name").
  - apply (distinct_in_singleton "pulp_id").
  - reflexivity.
Defined.

(** X21 at work: a schedule that refers to task 7 is stored, one that
    refers to task 9, which is not there, is refused. *)
Lemma create_keeps_references_sound_witness :
  no_dangling
    (create TaskSchedule 200 2
       (<["last_task" := Uuid 7]> (named "weekly" "sync")) schedules).2
  ∧ ∃ e, create TaskSchedule 200 2
           (<["last_task" := Uuid 9]> (named "weekly" "sync")) schedules
         = (inl e, schedules).
Proof.
  split.
  - apply (proj1 (create_keeps_references_sound 200 2
                    (<["last_task" := Uuid 7]> (named "weekly" "sync"))
                    schedules)
                 _ (new_row TaskSchedule 200 2
                      (<["last_task" := Uuid 7]> (named "weekly" "sync")))).
    + apply Forall_singleton. vm_compute. discriminate.
    + reflexivity.
  - apply (proj2 (create_keeps_references_sound 200 2
                    (<["last_task" := Uuid 9]> (named "weekly" "sync"))
                    schedules) 9%N).
    + reflexivity.
    + intros Hin. apply list_elem_of_singleton in Hin. discriminate Hin.
Defined.

(** X22 at work: deleting task 7 keeps [nightly]. *)
Lemma delete_task_keeps_schedules_witness :
  ∃ db' r',
    delete_task TaskSchedule 7 schedules = (None, db')
    ∧ rows db' !! 0 = Some r'
    ∧ r' !! "name" = Some (Str "nightly")
    ∧ distinct_in "name" (rows db').
Proof.
  destruct (delete_task_keeps_schedules 7 schedules)
    as (db' & Hrun & _ & Hrows & Hdistinct).
  destruct (Hrows 0 (new_row TaskSchedule 100 1
                       (<["last_task" := Uuid 7]> (named "nightly" "sync"))))
    as (r' & Hrow & Hcolumns & _); [reflexivity|].
  exists db', r'. split; [exact Hrun|]. split; [exact Hrow|]. split.
  - rewrite Hcolumns; [reflexivity|discriminate].
  - apply Hdistinct. apply (distinct_in_singleton "name").
Defined.

(** X23 at work: the row of [weekly]. *)
Lemma create_stores_checked_columns_witness :
  let row := new_row TaskSchedule 200 2 (named "weekly" "sync") in
  (∃ v, row !! "name" = Some v ∧ v ≠ NULL
        ∧ ∀ s, v = Str s → (String.length s ≤ 256)%nat)
  ∧ row !! "pulp_created" = Some (Timestamp 200).
Proof.
  intros row.
  destruct (create_stores_checked_columns 200 2 (named "weekly" "sync")
              schedules
              (create TaskSchedule 200 2 (named "weekly" "sync") schedules).2
              row) as (Hnames & _ & Hcreated & _); [reflexivity|].
  split; [|exact Hcreated]. apply Hnames. by left.
Defined.
End MoreRuns.
